(** * Fresh1G1R: a shallow embedding of automate.py

    The script downloads DAT files, runs them through the external Retool
    program and keeps per-configuration output directories in order.  This
    development embeds the bookkeeping logic of [automate.py] and proves
    properties of it.

    Conventions of the model.
    - Python [str] values are Rocq [string]s, read as UTF-8 text.  The
      character classes [\d], [\s] and [str.strip] are modelled on their
      ASCII members (digits 0-9; code points 9-13, 28-31 and 32), and
      [re.IGNORECASE] folds the ASCII letters.
    - A directory is a finite collection of regular files; [unlink], [move]
      and [rmtree] on it do not fail.
    - The external tool and the network are oracles: their results are
      parameters of the functions that consume them. *)

From Stdlib Require Import ZArith Lia Bool Ascii String List Permutation.
From stdpp Require Import base option list gmap strings sorting.

Local Open Scope string_scope.

(** ** Text primitives *)

Module Text.

(** The code point of a character. *)
Definition code (c : ascii) : nat := nat_of_ascii c.

Definition in_range (lo hi : nat) (c : ascii) : bool :=
  (lo <=? code c)%nat && (code c <=? hi)%nat.

(** [str.isspace] on ASCII: TAB..CR, FS..US and the blank. *)
Definition is_space (c : ascii) : bool :=
  in_range 9 13 c || in_range 28 32 c.

(** [\d] on ASCII. *)
Definition is_digit (c : ascii) : bool := in_range 48 57 c.

Definition is_upper (c : ascii) : bool := in_range 65 90 c.

Definition lower (c : ascii) : ascii :=
  if is_upper c then ascii_of_nat (code c + 32) else c.

(** Equality of characters under [re.IGNORECASE]. *)
Definition eqb_nocase (a b : ascii) : bool := Ascii.eqb (lower a) (lower b).

Definition is_empty (s : string) : bool :=
  match s with EmptyString => true | String _ _ => false end.

(** [s.lstrip()], [s.rstrip()] and [s.strip()]. *)
Fixpoint lstrip (s : string) : string :=
  match s with
  | EmptyString => EmptyString
  | String c s' => if is_space c then lstrip s' else s
  end.

Fixpoint rstrip (s : string) : string :=
  match s with
  | EmptyString => EmptyString
  | String c s' =>
      let r := rstrip s' in
      if is_space c && is_empty r then EmptyString else String c r
  end.

Definition strip (s : string) : string := lstrip (rstrip s).

(** [s.startswith(p)]. *)
Fixpoint startswith (p s : string) : bool :=
  match p, s with
  | EmptyString, _ => true
  | String a p', String b s' => Ascii.eqb a b && startswith p' s'
  | String _ _, EmptyString => false
  end.

(** [p in s]: [p] occurs in [s] as a substring. *)
Fixpoint contains (p s : string) : bool :=
  startswith p s ||
  match s with
  | EmptyString => false
  | String _ s' => contains p s'
  end.

(** [s.find(p)], with [None] for Python's -1. *)
Fixpoint find_from (p : string) (pos : nat) (s : string) : option nat :=
  if startswith p s then Some pos
  else match s with
       | EmptyString => None
       | String _ s' => find_from p (S pos) s'
       end.

Definition find (p s : string) : option nat := find_from p 0 s.

(** [s[:n]] and [s[n:]] for [n >= 0]. *)
Fixpoint take (n : nat) (s : string) : string :=
  match n, s with
  | S n', String c s' => String c (take n' s')
  | _, _ => EmptyString
  end.

Fixpoint drop (n : nat) (s : string) : string :=
  match n, s with
  | S n', String _ s' => drop n' s'
  | _, _ => s
  end.

(** [s.endswith(p)]. *)
Definition endswith (p s : string) : bool :=
  (String.length p <=? String.length s)%nat &&
  String.eqb (drop (String.length s - String.length p) s) p.

(** [s.replace(old, new)] for a non-empty [old]: occurrences are replaced
    from left to right and do not overlap. *)
Fixpoint replace_from (old new : string) (skip : nat) (s : string) : string :=
  match s with
  | EmptyString => EmptyString
  | String c s' =>
      match skip with
      | S n => replace_from old new n s'
      | O =>
          if startswith old s
          then new ++ replace_from old new (String.length old - 1) s'
          else String c (replace_from old new 0 s')
      end
  end.

Definition replace (old new s : string) : string := replace_from old new 0 s.

(** [s.split(sep)] for a one-character separator. *)
Fixpoint split (sep : ascii) (s : string) : list string :=
  match s with
  | EmptyString => [EmptyString]
  | String c s' =>
      if Ascii.eqb c sep then EmptyString :: split sep s'
      else match split sep s' with
           | [] => [String c EmptyString]
           | w :: ws => String c w :: ws
           end
  end.

(** [sep.join(parts)]. *)
Fixpoint join (sep : string) (parts : list string) : string :=
  match parts with
  | [] => EmptyString
  | [w] => w
  | w :: ws => w ++ sep ++ join sep ws
  end.

(** The index of the last occurrence of a character, [str.rfind]. *)
Fixpoint rfind_from (c : ascii) (pos : nat) (s : string) : option nat :=
  match s with
  | EmptyString => None
  | String a s' =>
      match rfind_from c (S pos) s' with
      | Some i => Some i
      | None => if Ascii.eqb a c then Some pos else None
      end
  end.

Definition rfind (c : ascii) (s : string) : option nat := rfind_from c 0 s.

End Text.

(** ** Paths: [pathlib.PurePath.name], [.stem] and [.suffix] *)

Module PathName.
Import Text.

(** The components of a path as [pathlib] keeps them: what stands between
    the slashes, without the empty components and the single dots. *)
Definition parts (p : string) : list string :=
  List.filter (fun c => negb (is_empty c) && negb (String.eqb c "."))
              (split "/" p).

Definition is_absolute (p : string) : bool := startswith "/" p.

(** The path as [pathlib] writes it back: the components joined by
    slashes, after the root when there is one. *)
Definition normal (p : string) : string :=
  (if is_absolute p then "/" else EmptyString) ++ join "/" (parts p).

(** [Path(p).name]: the last component, or the empty string when there is
    none. *)
Definition name (p : string) : string := List.last (parts p) EmptyString.

(** [PurePath.suffix]: the part of the name from its last dot, when that dot
    is neither the first nor the last character. *)
Definition suffix (nm : string) : string :=
  match rfind "." nm with
  | Some i =>
      if (0 <? i)%nat && (i <? String.length nm - 1)%nat
      then drop i nm else EmptyString
  | None => EmptyString
  end.

(** [PurePath.stem]. *)
Definition stem (nm : string) : string :=
  match rfind "." nm with
  | Some i =>
      if (0 <? i)%nat && (i <? String.length nm - 1)%nat
      then take i nm else nm
  | None => nm
  end.

(** [directory.glob("*.dat")] and [glob("*.txt")] select by the ending. *)
Definition is_dat (nm : string) : bool := endswith ".dat" nm.
Definition is_txt (nm : string) : bool := endswith ".txt" nm.

End PathName.

(** ** Regular expressions with Python's backtracking semantics *)

Module Regex.
Import Text.

(** The fragment of [re] syntax the script uses. *)
Inductive re : Type :=
| Eps                      (* the empty pattern *)
| Chr (c : ascii)          (* a literal character *)
| Cls (p : ascii -> bool)  (* a character class *)
| Seq (r1 r2 : re)         (* r1 r2 *)
| Alt (r1 r2 : re)         (* r1|r2, the left branch first *)
| Star (r : re)            (* r*, greedy *)
| LazyStar (r : re)        (* r*?, lazy *)
| Bol                      (* ^ *)
| Eol.                     (* $ without re.MULTILINE *)

Declare Scope re_scope.
Delimit Scope re_scope with re.
Bind Scope re_scope with re.
Notation "r1 ;; r2" := (Seq r1 r2) (at level 100, r2 at level 200, right associativity) : re_scope.

Definition Plus (r : re) : re := Seq r (Star r).
Definition LazyPlus (r : re) : re := Seq r (LazyStar r).

(** r{n} *)
Fixpoint Rep (n : nat) (r : re) : re :=
  match n with
  | O => Eps
  | S n' => Seq r (Rep n' r)
  end.

(** A literal string, and a literal string under [re.IGNORECASE]. *)
Fixpoint Lit (s : string) : re :=
  match s with
  | EmptyString => Eps
  | String c s' => Seq (Chr c) (Lit s')
  end.

Fixpoint LitNoCase (s : string) : re :=
  match s with
  | EmptyString => Eps
  | String c s' => Seq (Cls (eqb_nocase c)) (LitNoCase s')
  end.

(** [\d], [\s], [.] and friends. *)
Definition Digit : re := Cls is_digit.
Definition Space : re := Cls is_space.
Definition Dot : re := Cls (fun c => negb (Ascii.eqb c "010")).
Definition Not (c : ascii) : re := Cls (fun a => negb (Ascii.eqb a c)).
Definition OneOf (s : string) : re := Cls (fun a => contains (String a EmptyString) s).
Definition Range (lo hi : ascii) : re := Cls (in_range (code lo) (code hi)).

(** [$] holds at the end of the text and just before a final newline. *)
Definition at_eol (s : string) : bool :=
  match s with
  | EmptyString => true
  | String c EmptyString => Ascii.eqb c "010"
  | _ => false
  end.

Section Matcher.
Context {A : Type}.

(** A continuation receives the position reached and the text left. *)
Definition cont := nat -> string -> option A.

(** Greedy repetition: one more round of [step] is tried first, then the
    continuation.  A round that consumes nothing ends the repetition. *)
Fixpoint greedy (step : cont -> cont) (k : cont) (fuel : nat) : cont :=
  fun pos s =>
    match fuel with
    | O => k pos s
    | S n =>
        match step (fun pos' s' =>
                      if (pos <? pos')%nat then greedy step k n pos' s'
                      else None) pos s with
        | Some x => Some x
        | None => k pos s
        end
    end.

(** Lazy repetition: the continuation is tried first. *)
Fixpoint lazy (step : cont -> cont) (k : cont) (fuel : nat) : cont :=
  fun pos s =>
    match fuel with
    | O => k pos s
    | S n =>
        match k pos s with
        | Some x => Some x
        | None =>
            step (fun pos' s' =>
                    if (pos <? pos')%nat then lazy step k n pos' s'
                    else None) pos s
        end
    end.

(** [run r k pos s]: match [r] at the front of [s], which starts at
    offset [pos] of the whole text, and hand over to [k]; alternatives are
    explored in the order of a backtracking matcher. *)
Fixpoint run (r : re) (k : cont) : cont :=
  match r with
  | Eps => k
  | Chr c => fun pos s =>
      match s with
      | String a s' => if Ascii.eqb a c then k (S pos) s' else None
      | EmptyString => None
      end
  | Cls p => fun pos s =>
      match s with
      | String a s' => if p a then k (S pos) s' else None
      | EmptyString => None
      end
  | Seq r1 r2 => run r1 (run r2 k)
  | Alt r1 r2 => fun pos s =>
      match run r1 k pos s with
      | Some x => Some x
      | None => run r2 k pos s
      end
  | Star r1 => fun pos s => greedy (run r1) k (S (String.length s)) pos s
  | LazyStar r1 => fun pos s => lazy (run r1) k (S (String.length s)) pos s
  | Bol => fun pos s => if (pos =? 0)%nat then k pos s else None
  | Eol => fun pos s => if at_eol s then k pos s else None
  end.
End Matcher.

(** The end position of the match of [r] that starts at offset [pos]. *)
Definition match_at (r : re) (pos : nat) (s : string) : option nat :=
  run r (fun e _ => Some e) pos s.

(** [re.match(r, s)]: the end of the match anchored at the start. *)
Definition rmatch (r : re) (s : string) : option nat := match_at r 0 s.

(** [re.search(r, s)]: start and end of the leftmost match. *)
Fixpoint search_from (r : re) (pos : nat) (s : string) : option (nat * nat) :=
  match match_at r pos s with
  | Some e => Some (pos, e)
  | None =>
      match s with
      | EmptyString => None
      | String _ s' => search_from r (S pos) s'
      end
  end.

Definition search (r : re) (s : string) : option (nat * nat) :=
  search_from r 0 s.

(** [re.sub(r, repl, s)] for a constant replacement: every match, from left
    to right; [skip] counts the characters of the current match still to be
    dropped. *)
Fixpoint sub_from (r : re) (repl : string) (skip pos : nat) (s : string)
  : string :=
  match skip with
  | S n =>
      match s with
      | String _ s' => sub_from r repl n (S pos) s'
      | EmptyString => EmptyString
      end
  | O =>
      match match_at r pos s with
      | Some e =>
          match s with
          | EmptyString => repl
          | String c s' =>
              if (pos <? e)%nat
              then repl ++ sub_from r repl (e - pos - 1) (S pos) s'
              else repl ++ String c (sub_from r repl 0 (S pos) s')
          end
      | None =>
          match s with
          | EmptyString => EmptyString
          | String c s' => String c (sub_from r repl 0 (S pos) s')
          end
      end
  end.

Definition sub (r : re) (repl s : string) : string := sub_from r repl 0 0 s.

(** A pattern [(r1)r2] matched at the start: the text of group 1. *)
Definition match_group1 (r1 r2 : re) (s : string) : option string :=
  run r1 (fun p1 s1 => run r2 (fun _ _ => Some (take p1 s)) p1 s1) 0 s.

(** A pattern [r1(r2)] searched for: the text of group 1 of the leftmost
    match. *)
Fixpoint search_group2_from (r1 r2 : re) (all : string) (pos : nat)
    (s : string) : option string :=
  match run r1 (fun p1 s1 =>
                  run r2 (fun p2 _ => Some (take (p2 - p1) (drop p1 all)))
                      p1 s1) pos s with
  | Some g => Some g
  | None =>
      match s with
      | EmptyString => None
      | String _ s' => search_group2_from r1 r2 all (S pos) s'
      end
  end.

End Regex.

(** ** The filename normalizer *)

Module Normalizer.
Import Text Regex.
Local Open Scope re_scope.

(** [r' \(Fresh1G1R - [^)]+\)$'] *)
Definition fresh_suffix : re :=
  Lit " (Fresh1G1R - " ;; Plus (Not ")") ;; Chr ")" ;; Eol.

(** [r'\(\d{8}-\d{6}\)'] *)
Definition no_intro_date : re :=
  Chr "(" ;; Rep 8 Digit ;; Chr "-" ;; Rep 6 Digit ;; Chr ")".

(** [r' - Datfile \(\d+\)'] *)
Definition datfile_infix : re :=
  Lit " - Datfile (" ;; Plus Digit ;; Chr ")".

(** [r'\(\d{4}-\d{2}-\d{2} \d{2}[-:]\d{2}[-:]\d{2}\)'] *)
Definition redump_date : re :=
  Chr "(" ;; Rep 4 Digit ;; Chr "-" ;; Rep 2 Digit ;; Chr "-" ;; Rep 2 Digit ;;
  Chr " " ;; Rep 2 Digit ;; OneOf "-:" ;; Rep 2 Digit ;; OneOf "-:" ;;
  Rep 2 Digit ;; Chr ")".

(** [r' \(Retool.*$'] *)
Definition retool_meta : re :=
  Lit " (Retool" ;; Star Dot ;; Eol.

(** [extract_system_name(filename_stem, collection)]. *)
Definition extract_system_name (filename_stem collection : string) : string :=
  let filename_stem := sub fresh_suffix EmptyString filename_stem in
  if String.eqb collection "no-intro" then
    match search no_intro_date filename_stem with
    | Some (start, _) => strip (take start filename_stem)
    | None => filename_stem
    end
  else
    let normalized := sub datfile_infix EmptyString filename_stem in
    match search redump_date normalized with
    | Some (start, _) => strip (take start normalized)
    | None => strip (sub retool_meta EmptyString normalized)
    end.

End Normalizer.


(** ** Reading Retool's output *)

Module RetoolOutput.
Import Text Regex.
Local Open Scope re_scope.

Definition LF : string := String "010" EmptyString.
Definition CR : string := String "013" EmptyString.
Definition NUL : string := String "000" EmptyString.

(** [r'\x1B(?:[@-Z\\-_]|\[[0-?]*[ -/]*[@-~])'] *)
Definition ansi_escape : re :=
  Chr "027" ;;
  Alt (Alt (Range "@" "Z") (Range "\" "_"))
      (Chr "[" ;; Star (Range "0" "?") ;; Star (Range " " "/") ;; Range "@" "~").

(** [r'No valid titles in input DAT file\..*'] with [re.IGNORECASE] *)
Definition no_valid_titles_re : re :=
  LitNoCase "No valid titles in input DAT file." ;; Star Dot.

(** [r'^[A-Z]:\\'], a shell prompt such as [C:\Users\joemc>] *)
Definition drive_prompt : re :=
  Bol ;; Range "A" "Z" ;; Chr ":" ;; Chr "\".

(** [r'^•\s*'] *)
Definition bullet_re : re :=
  Bol ;; Lit "•" ;; Star Space.

(** [r'Q\s*[^Q]+Q\.\s*(.+)$'] where Q is the double quote (code 34),
    split at its group. *)
Definition quoted_path_re : re :=
  Chr "034" ;; Star Space ;; Plus (Not "034") ;; Chr "034" ;; Chr "." ;;
  Star Space.
Definition quoted_path_group : re := Plus Dot ;; Eol.

(** [r'\s+'] *)
Definition spaces_re : re := Plus Space.

Definition is_some {A} (o : option A) : bool :=
  match o with Some _ => true | None => false end.

(** [strip_bullet_point(msg)] *)
Definition strip_bullet_point (msg : string) : string :=
  strip (sub bullet_re EmptyString msg).

(** The loop of the fast path: stripped lines up to the first blank line or
    shell prompt. *)
Fixpoint wrapped_lines (lines : list string) : list string :=
  match lines with
  | [] => []
  | line :: rest =>
      if is_empty (strip line) then []
      else if is_some (rmatch drive_prompt (strip line)) then []
      else strip line :: wrapped_lines rest
  end.

(** The loop of the general case, which also stops where another bullet
    section starts. *)
Fixpoint error_section_lines (lines : list string) : list string :=
  match lines with
  | [] => []
  | line :: rest =>
      let s := strip line in
      if is_empty s then []
      else if is_some (rmatch drive_prompt s) then []
      else if startswith "• " s && negb (startswith "• Error:" s) then []
      else s :: error_section_lines rest
  end.

(** The fallback: the last candidate that is neither a prompt nor a banner. *)
Fixpoint last_plain_line (reversed_candidates : list string) : option string :=
  match reversed_candidates with
  | [] => None
  | ln :: rest =>
      if negb (is_some (rmatch drive_prompt ln)) && negb (contains "Retool" ln)
      then Some (strip_bullet_point ln)
      else last_plain_line rest
  end.

Definition fallback_message (text : string) : string :=
  let candidates :=
    List.map strip
      (List.filter (fun ln => negb (is_empty (strip ln))) (split "010" text)) in
  match last_plain_line (List.rev candidates) with
  | Some msg => msg
  | None => "Retool failed (unable to parse error message)."
  end.

(** [extract_retool_error(output)] *)
Definition extract_retool_error (output : string) : string :=
  if is_empty output then "Retool failed (no output captured)."
  else
    let text :=
      strip (replace NUL EmptyString (replace CR LF (replace (CR ++ LF) LF output))) in
    let text := sub ansi_escape EmptyString text in
    match search no_valid_titles_re text with
    | Some (start, _) =>
        let tail := drop start text in
        let result := join " " (wrapped_lines (split "010" tail)) in
        strip_bullet_point result
    | None =>
        let general :=
          match find "• Error:" text with
          | Some idx =>
              let after := lstrip (drop (idx + String.length "• Error:") text) in
              let joined := join " " (error_section_lines (split "010" after)) in
              match search_group2_from quoted_path_re quoted_path_group
                      joined 0 joined with
              | Some g => Some (strip_bullet_point (strip g))
              | None =>
                  if negb (is_empty joined)
                  then Some (strip_bullet_point (strip (sub spaces_re " " joined)))
                  else None
              end
          | None => None
          end in
        match general with
        | Some msg => msg
        | None => fallback_message text
        end
    end.

End RetoolOutput.

(** ** The output directory and its metadata store *)

Module Store.
Import Text PathName Normalizer.

(** One value of [.metadata.json].  [run_retool] writes [input_filename]
    and [output_path]; older files carry [input_path] instead. *)
Record entry : Type := Entry {
  input_filename : option string;
  input_path : option string;
  output_path : string
}.

#[global] Instance entry_eq_dec : EqDecision entry.
Proof. solve_decision. Defined.

(** The output directory of one configuration and collection: its regular
    files by name, each with the name of the input DAT it was made from, and
    the metadata file when there is one.  [elsewhere] holds the recorded
    output paths, in the writing of [normal], at which the file system has
    something that [files] does not list: a sub-directory, a file below
    one, a path outside the directory.  The script creates and removes none
    of these. *)
Record outdir : Type := OutDir {
  files : gmap string string;
  metadata_json : option (gmap string entry);
  elsewhere : gset string
}.

Definition empty_outdir : outdir := OutDir ∅ None ∅.

(** What a processing pass can see and change.  [output_dat_dir] and
    [report_dir] are [None] while the directory does not exist; the report
    directory is listed with modification times; [calls] logs the inputs
    handed to the external tool, the latest first. *)
Record world : Type := World {
  retool_script : bool;
  output_dat_dir : option outdir;
  report_dir : option (list (string * Z));
  calls : list string
}.

(** A directory listed with modification times: the names are distinct.
    [remove_file] is [unlink], [place_file] is [shutil.move] into it. *)
Definition remove_file (nm : string) (listing : list (string * Z))
  : list (string * Z) :=
  List.filter (fun f => negb (String.eqb (fst f) nm)) listing.

Definition place_file (f : string * Z) (listing : list (string * Z))
  : list (string * Z) :=
  remove_file (fst f) listing ++ [f].

(** [load_metadata(output_dat_dir)] *)
Definition load_metadata (d : outdir) : gmap string entry :=
  match metadata_json d with
  | None => ∅
  | Some m => m
  end.

(** [save_metadata(output_dat_dir, metadata)] *)
Definition save_metadata (d : outdir) (metadata : gmap string entry) : outdir :=
  OutDir (files d) (Some metadata) (elsewhere d).

(** [(output_dat_dir / p).exists()] in a directory that is there.  The
    joined path exists when [files] lists it, as written or in the writing
    of [pathlib]; when it is recorded in [elsewhere]; when it has no
    component but [..], which makes it the directory itself, the root or a
    directory above; and when it is the metadata file and there is one. *)
Definition file_exists (d : outdir) (p : string) : bool :=
  bool_decide (is_Some (files d !! p))
  || bool_decide (is_Some (files d !! normal p))
  || bool_decide (normal p ∈ elsewhere d)
  || forallb (String.eqb "..") (parts p)
  || String.eqb (normal p) ".metadata.json"
     && bool_decide (is_Some (metadata_json d)).

(** [path.unlink()] for a file of the directory. *)
Definition unlink (d : outdir) (nm : string) : outdir :=
  OutDir (delete nm (files d)) (metadata_json d) (elsewhere d).

(** [shutil.move] of a fresh file into the directory. *)
Definition move_in (d : outdir) (nm made_from : string) : outdir :=
  OutDir (<[nm := made_from]> (files d)) (metadata_json d) (elsewhere d).

(** [directory.mkdir(parents=True, exist_ok=True)] *)
Definition mkdir (o : option outdir) : outdir :=
  match o with
  | None => empty_outdir
  | Some d => d
  end.

(** Python truthiness of an optional string. *)
Definition truthy (o : option string) : bool :=
  match o with
  | None => false
  | Some s => negb (is_empty s)
  end.

(** [x or default] *)
Definition or_default (o : option string) (default : string) : string :=
  match o with
  | Some s => if is_empty s then default else s
  | None => default
  end.

(** The input filename an entry stands for: the new key, or the name part
    of the path under the old key. *)
Definition stored_input_filename (e : entry) : option string :=
  let stored := input_filename e in
  if negb (truthy stored) then
    match input_path e with
    | Some p => Some (PathName.name p)
    | None => stored
    end
  else stored.

(** [check_if_already_processed(input_dat, output_dat_dir, collection)];
    the result is the recorded output path, as the entry has it: the code
    returns it joined to the directory. *)
Definition check_if_already_processed (input_dat : string)
    (output_dat_dir : option outdir) (collection : string) : option string :=
  match output_dat_dir with
  | None => None
  | Some d =>
      let input_name := stem input_dat in
      let system_name := extract_system_name input_name collection in
      let metadata := load_metadata d in
      match metadata !! system_name with
      | Some e =>
          if file_exists d (output_path e) then
            let stored := stored_input_filename e in
            if truthy stored && bool_decide (Some input_dat = stored)
            then Some (output_path e)
            else None
          else None
      | None => None
      end
  end.

End Store.

(** ** The Retool invoker *)

Module Retool.
Import Text PathName Normalizer RetoolOutput Store.

(** The third component of [run_retool]'s result. *)
Inductive status : Type :=
  st_success | st_not_required | st_no_games | st_failed.

#[global] Instance status_eq_dec : EqDecision status.
Proof. solve_decision. Defined.

(** What [subprocess.run] hands back, with the files Retool left in the
    temporary directory (name and modification time). *)
Record completed : Type := Completed {
  returncode : Z;
  stdout : string;
  stderr : string;
  produced : list (string * Z)
}.

(** A run of the external tool either completes or raises. *)
Inductive tool_outcome : Type :=
| Exited (r : completed)
| Raised (msg : string).

(** The external tool: its outcome for an input, given the earlier calls. *)
Definition tool : Type := list string -> string -> tool_outcome.

(** [max(paths, key=lambda p: p.stat().st_mtime)]: the first of the
    latest. *)
Definition max_by_mtime (paths : list (string * Z)) : option (string * Z) :=
  match paths with
  | [] => None
  | p :: rest =>
      Some (fold_left (fun best q => if (snd best <? snd q)%Z then q else best)
                      rest p)
  end.

(** The constant output filename of a system. *)
Definition new_name (system_name config_name suffix : string) : string :=
  if negb (is_empty config_name)
  then system_name ++ " (Fresh1G1R - " ++ config_name ++ ")" ++ suffix
  else system_name ++ suffix.

Definition with_output (w : world) (d : outdir) : world :=
  World (retool_script w) (Some d) (report_dir w) (calls w).

Definition with_report (w : world) (r : list (string * Z)) : world :=
  World (retool_script w) (output_dat_dir w) (Some r) (calls w).

Definition with_call (w : world) (input_dat : string) : world :=
  World (retool_script w) (output_dat_dir w) (report_dir w)
        (input_dat :: calls w).

(** The three writes that put a produced DAT in place. *)
Definition remove_existing (d : outdir) (final_name : string) : outdir :=
  if file_exists d final_name then unlink d final_name else d.

Definition record_mapping (d : outdir) (system_name input_dat final_name : string)
  : outdir :=
  let metadata := load_metadata d in
  save_metadata d
    (<[system_name := Entry (Some input_dat) None final_name]> metadata).

(** "Determine status": the result tuple from the exit status, the DAT and
    report that were moved, and the captured text. *)
Definition determine_status (returncode : Z) (output_dat report_txt : option string)
    (out err : string)
  : option string * option string * status * option string :=
  let retool_output := out ++ LF ++ err in
  let no_titles_match :=
    contains "No titles in the input DAT match your preferences" retool_output
    || contains "No DAT file has been created" retool_output in
  let no_valid_titles :=
    contains "No valid titles in input DAT file" retool_output in
  if negb (returncode =? 0)%Z then
    if no_valid_titles then
      (None, report_txt, st_no_games, Some (extract_retool_error retool_output))
    else if no_titles_match then
      (None, report_txt, st_not_required, Some (extract_retool_error retool_output))
    else
      (output_dat, report_txt, st_failed, Some (extract_retool_error retool_output))
  else if is_some output_dat then
    (output_dat, report_txt, st_success, None)
  else if no_titles_match then
    (None, report_txt, st_not_required, Some (extract_retool_error retool_output))
  else if no_valid_titles then
    (None, report_txt, st_no_games, Some (extract_retool_error retool_output))
  else
    (None, report_txt, st_failed, Some (extract_retool_error retool_output)).

(** The output directory after each write of [run_retool] for a produced
    DAT: existing file removed, new file moved in, metadata saved. *)
Definition output_writes (d : outdir) (temp_dat input_dat collection config_name : string)
  : list outdir :=
  let system_name := extract_system_name (stem input_dat) collection in
  let final_name := new_name system_name config_name (suffix temp_dat) in
  let d1 := remove_existing d final_name in
  let d2 := move_in d1 final_name input_dat in
  let d3 := record_mapping d2 system_name input_dat final_name in
  [d1; d2; d3].

(** [run_retool(input_dat, ..., collection, config_name)] *)
Definition run_retool (retool : tool) (input_dat collection config_name : string)
    (w : world)
  : world * (option string * option string * status * option string) :=
  if negb (retool_script w) then
    (w, (None, None, st_failed, Some "Retool script not found."))
  else
    (* temp_output_dir.mkdir(parents=True, exist_ok=True) *)
    let w := with_output w (mkdir (output_dat_dir w)) in
    let outcome := retool (calls w) input_dat in
    let w := with_call w input_dat in
    match outcome with
    | Raised msg => (w, (None, None, st_failed, Some msg))
    | Exited result =>
        let d := mkdir (output_dat_dir w) in
        let output_files := List.filter (fun p => is_dat (fst p)) (produced result) in
        let (d, output_dat) :=
          match max_by_mtime output_files with
          | Some temp_dat =>
              let system_name := extract_system_name (stem input_dat) collection in
              let final_name :=
                new_name system_name config_name (suffix (fst temp_dat)) in
              let d := remove_existing d final_name in
              let d := move_in d final_name input_dat in
              (record_mapping d system_name input_dat final_name, Some final_name)
          | None => (d, None)
          end in
        let w := with_output w d in
        let report_files := List.filter (fun p => is_txt (fst p)) (produced result) in
        let (w, report_txt) :=
          match max_by_mtime report_files with
          | Some temp_report =>
              (* report_dir.mkdir(parents=True, exist_ok=True) *)
              let r := match report_dir w with Some r => r | None => [] end in
              (with_report w (place_file temp_report r), Some (fst temp_report))
          | None => (w, None)
          end in
        (w, determine_status (returncode result) output_dat report_txt
              (stdout result) (stderr result))
    end.

End Retool.

(** ** Processing passes *)

Module Pass.
Import Text PathName Regex Normalizer RetoolOutput Store Retool.
Local Open Scope re_scope.

(** The module constant [ALWAYS_REPROCESS]. *)
Definition ALWAYS_REPROCESS : bool := false.

(** The five lists of [process_all_dats_with_retool]; every item starts with
    the input file. *)
Record results : Type := Results {
  successful : list (string * string * option string);
  not_required : list (string * string);
  no_games : list (string * string);
  failed : list (string * string);
  skipped : list (string * string)
}.

Definition no_results : results := Results [] [] [] [] [].

(** The body of the loop for one input DAT. *)
Definition process_one (retool : tool) (collection config_name : string)
    (st : world * results) (dat_file : string) : world * results :=
  let (w, res) := st in
  let existing_processed :=
    if negb ALWAYS_REPROCESS
    then check_if_already_processed dat_file (output_dat_dir w) collection
    else None in
  match existing_processed with
  | Some existing =>
      (w, Results (successful res) (not_required res) (no_games res)
                  (failed res) (skipped res ++ [(dat_file, existing)]))
  | None =>
      let '(w, (output_dat, report_txt, st, err_msg)) :=
        run_retool retool dat_file collection config_name w in
      match st, output_dat with
      | st_success, Some out =>
          (w, Results (successful res ++ [(dat_file, out, report_txt)])
                      (not_required res) (no_games res) (failed res)
                      (skipped res))
      | st_not_required, _ =>
          (w, Results (successful res)
                      (not_required res ++
                         [(dat_file,
                           or_default err_msg
                             "No titles in the input DAT match your preferences. No DAT file has been created.")])
                      (no_games res) (failed res) (skipped res))
      | st_no_games, _ =>
          (w, Results (successful res) (not_required res)
                      (no_games res ++
                         [(dat_file,
                           or_default err_msg "No valid titles in input DAT file.")])
                      (failed res) (skipped res))
      | _, _ =>
          (w, Results (successful res) (not_required res) (no_games res)
                      (failed res ++ [(dat_file, or_default err_msg "Retool failed.")])
                      (skipped res))
      end
  end.

(** [process_all_dats_with_retool(dat_files, ..., collection, config_name)] *)
Definition process_all_dats_with_retool (retool : tool) (dat_files : list string)
    (collection config_name : string) (w : world) : world * results :=
  fold_left (process_one retool collection config_name) dat_files (w, no_results).

(** [r'^(.+?) \(Fresh1G1R - [^)]+\)\.dat$'], split after its group. *)
Definition output_name_group : re := Bol ;; LazyPlus Dot.
Definition output_name_rest : re :=
  Lit " (Fresh1G1R - " ;; Plus (Not ")") ;; Chr ")" ;; Lit ".dat" ;; Eol.

(** One round of the removal loop of [cleanup_previous_dats]. *)
Definition remove_previous (st : outdir * gmap string entry) (dat_file : string)
  : outdir * gmap string entry :=
  let (d, metadata) := st in
  let d := unlink d dat_file in
  match match_group1 output_name_group output_name_rest dat_file with
  | Some system_name =>
      match metadata !! system_name with
      | Some e =>
          if bool_decide (output_path e = dat_file)
          then (d, delete system_name metadata)
          else (d, metadata)
      | None => (d, metadata)
      end
  | None => (d, metadata)
  end.

(** [cleanup_previous_dats(output_dir, config_name, collection,
    preserve_files)] *)
Definition cleanup_previous_dats (output_dir : option outdir)
    (preserve_files : gset string) : option outdir :=
  match output_dir with
  | None => None
  | Some d =>
      let dat_files := List.filter is_dat (map fst (map_to_list (files d))) in
      let files_to_remove :=
        List.filter (fun f => negb (bool_decide (f ∈ preserve_files))) dat_files in
      match files_to_remove with
      | [] => Some d
      | _ =>
          let (d, metadata) :=
            fold_left remove_previous files_to_remove (d, load_metadata d) in
          if bool_decide (metadata ≠ ∅) then Some (save_metadata d metadata)
          else Some (OutDir (files d) None (elsewhere d))
      end
  end.

(** The preserve-check of [main]: the names of the recorded outputs of the
    inputs that will be skipped. *)
Definition existing_processed_files (dat_files : list string)
    (output_dir : option outdir) (collection : string) : gset string :=
  if negb ALWAYS_REPROCESS then
    fold_left
      (fun acc dat_file =>
         match check_if_already_processed dat_file output_dir collection with
         | Some existing => acc ∪ {[ PathName.name existing ]}
         | None => acc
         end)
      dat_files ∅
  else ∅.

End Pass.

(** ** Housekeeping of the download and report directories *)

Module Housekeeping.
Import Text PathName Regex Normalizer Store.

(** The loop of [cleanup_old_redump_dat] for one listed file. *)
Definition remove_if_same_system (new_dat new_system_name : string)
    (st : gset string * nat) (old_dat : string) : gset string * nat :=
  let (dir, removed_count) := st in
  if bool_decide (old_dat = new_dat) then st
  else
    let old_system_name := extract_system_name (stem old_dat) "redump" in
    if bool_decide (old_system_name = new_system_name)
    then (dir ∖ {[ old_dat ]}, S removed_count)
    else st.

(** [cleanup_old_redump_dat(new_dat_path, output_dir)] on the set of file
    names of the download directory; the new file is named by its name in
    that directory. *)
Definition cleanup_old_redump_dat (new_dat : string) (output_dir : gset string)
  : gset string * nat :=
  if negb (bool_decide (new_dat ∈ output_dir)) then (output_dir, 0)
  else
    let new_system_name := extract_system_name (stem new_dat) "redump" in
    let all_dats := List.filter is_dat (elements output_dir) in
    fold_left (remove_if_same_system new_dat new_system_name) all_dats
              (output_dir, 0).

(** The grouping key of a report in [cleanup_old_files]: system name and
    date. *)
Definition normalized_system (file_stem collection : string) : string :=
  let file_stem := sub fresh_suffix EmptyString file_stem in
  if String.eqb collection "no-intro" then
    match search no_intro_date file_stem with
    | Some (_, date_end) => take date_end file_stem
    | None => file_stem
    end
  else sub retool_meta EmptyString file_stem.

(** [files_by_system]: a dict in insertion order, each value in the order
    of the listing. *)
Fixpoint add_to_group (key : string) (f : string * Z)
    (groups : list (string * list (string * Z)))
  : list (string * list (string * Z)) :=
  match groups with
  | [] => [(key, [f])]
  | (k, fs) :: rest =>
      if String.eqb k key then (k, (fs ++ [f])%list) :: rest
      else (k, fs) :: add_to_group key f rest
  end.

Definition group_files (collection : string) (listing : list (string * Z))
  : list (string * list (string * Z)) :=
  fold_left
    (fun groups f => add_to_group (normalized_system (stem (fst f)) collection) f groups)
    listing [].

(** [system_files.sort(key=mtime, reverse=True)]: stable, latest first. *)
Fixpoint insert_desc (x : string * Z) (l : list (string * Z))
  : list (string * Z) :=
  match l with
  | [] => [x]
  | y :: l' =>
      if (snd y <=? snd x)%Z then x :: y :: l' else y :: insert_desc x l'
  end.

Fixpoint sort_desc (l : list (string * Z)) : list (string * Z) :=
  match l with
  | [] => []
  | x :: l' => insert_desc x (sort_desc l')
  end.

(** [l[k:]] for an integer [k]. *)
Definition slice_from {A} (k : Z) (l : list A) : list A :=
  if (0 <=? k)%Z then skipn (Z.to_nat k) l
  else skipn (Z.to_nat (Z.of_nat (List.length l) + k)) l.

(** The files one group gives up. *)
Definition files_to_delete (keep_count : Z) (system_files : list (string * Z))
  : list (string * Z) :=
  if (Z.of_nat (List.length system_files) <=? keep_count)%Z then []
  else slice_from keep_count (sort_desc system_files).

(** [cleanup_old_files(directory, pattern, keep_count, collection)].  The
    directory is its listing with modification times; the glob pattern is
    the predicate it denotes on names. *)
Definition cleanup_old_files (directory : option (list (string * Z)))
    (pattern : string -> bool) (keep_count : Z) (collection : string)
  : option (list (string * Z)) * nat :=
  match directory with
  | None => (None, 0)
  | Some listing =>
      let files := List.filter (fun f => pattern (fst f)) listing in
      match files with
      | [] => (Some listing, 0)
      | _ =>
          let files_by_system := group_files collection files in
          let '(listing, deleted_count) :=
            fold_left
              (fun st group =>
                 fold_left
                   (fun '(listing, deleted_count) file_to_delete =>
                      (remove_file (fst file_to_delete) listing, S deleted_count))
                   (files_to_delete keep_count (snd group)) st)
              files_by_system (listing, 0) in
          (Some listing, deleted_count)
      end
  end.

End Housekeeping.

(** ** Downloading the Redump DAT files *)

Module Redump.
Import Text PathName Regex Normalizer Store Housekeeping.
Local Open Scope re_scope.

(** The double quote (code 34). *)
Definition dquote : string := String "034" EmptyString.

(** The patterns of [regex], each split around its group [(.*?)]:
    [r'<a href=Q/datfile/(.*?)Q>'], [r"\) \((.*?)\)\."] and
    [r'filename=Q(.*?)Q'], where Q is the double quote. *)
Definition datfile_open : re := Lit ("<a href=" ++ dquote ++ "/datfile/").
Definition datfile_close : re := Lit (dquote ++ ">").
Definition date_open : re := Lit ") (".
Definition date_close : re := Lit ").".
Definition filename_open : re := Lit ("filename=" ++ dquote).
Definition filename_close : re := Lit dquote.
Definition lazy_any : re := LazyStar Dot.

(** A pattern [r1(r2)r3] matched at offset [pos]: the text of the group and
    the end of the match. *)
Definition match_group_at (r1 r2 r3 : re) (all : string) (pos : nat) (s : string)
  : option (string * nat) :=
  run r1
      (fun p1 s1 =>
         run r2
             (fun p2 s2 =>
                run r3 (fun p3 _ => Some (take (p2 - p1) (drop p1 all), p3)) p2 s2)
             p1 s1)
      pos s.

(** [re.findall] for a pattern with one group: the group of every match,
    from left to right; [skip] counts the characters of the current match
    still to be passed. *)
Fixpoint findall_from (r1 r2 r3 : re) (all : string) (skip pos : nat) (s : string)
  : list string :=
  match skip with
  | S n =>
      match s with
      | String _ s' => findall_from r1 r2 r3 all n (S pos) s'
      | EmptyString => []
      end
  | O =>
      match match_group_at r1 r2 r3 all pos s with
      | Some (g, e) =>
          match s with
          | EmptyString => [g]
          | String _ s' => g :: findall_from r1 r2 r3 all (e - pos - 1) (S pos) s'
          end
      | None =>
          match s with
          | EmptyString => []
          | String _ s' => findall_from r1 r2 r3 all 0 (S pos) s'
          end
      end
  end.

Definition findall (r1 r2 r3 : re) (s : string) : list string :=
  findall_from r1 r2 r3 s 0 0 s.

(** A zip archive as [zipfile] shows it: the names of its members, and
    [read], which can raise. *)
Record zip : Type := Zip {
  namelist : list string;
  read : string -> option string
}.

(** The body of a response; [archive] is [None] when the content is not a
    zip archive, so that [zipfile.ZipFile] raises. *)
Record payload : Type := Payload {
  content : string;
  archive : option zip
}.

(** The requests made so far, the latest first. *)
Inductive request : Type :=
| GetPage
| Head (dat_name : string)
| Get (dat_name : string).

(** The server: what it answers to a request, given the requests made
    before.  [None] stands for a [RequestException], raised by the request
    or by [raise_for_status]; a header is the value of
    [Content-Disposition], empty when there is none. *)
Record net : Type := Net {
  downloads_page : list request -> option string;
  head : list request -> string -> option string;
  get : list request -> string -> option (string * payload)
}.

(** The download directory, by the names of its files, and the requests
    made.  The names the server and its archives give are taken as plain
    file names of that directory (a name with a path separator would point
    elsewhere), the contents of the files are left out, and writing a file
    does not fail. *)
Record state : Type := State {
  dir : gset string;
  requests : list request
}.

Definition asked (r : request) (st : state) : state :=
  State (dir st) (r :: requests st).

Definition written (nm : string) (st : state) : state :=
  State (dir st ∪ {[ nm ]}) (requests st).

(** [find_all_redump_dats()] *)
Definition find_all_redump_dats (n : net) (st : state) : list string * state :=
  match downloads_page n (requests st) with
  | Some text => (findall datfile_open lazy_any datfile_close text, asked GetPage st)
  | None => ([], asked GetPage st)
  end.

(** The first group found in a header that mentions [filename=]. *)
Definition header_group (r1 r3 : re) (content_header : string) : option string :=
  if contains "filename=" content_header then
    match findall r1 lazy_any r3 content_header with
    | g :: _ => Some g
    | [] => None
    end
  else None.

(** [get_redump_dat_info(dat_name)] *)
Definition get_redump_dat_info (n : net) (dat_name : string) (st : state)
  : (option string * option string) * state :=
  match head n (requests st) dat_name with
  | Some content_header =>
      let original_filename := header_group filename_open filename_close content_header in
      let dat_date := header_group date_open date_close content_header in
      let original_filename :=
        if negb (truthy original_filename) then Some dat_name
        else original_filename in
      ((original_filename, dat_date), asked (Head dat_name) st)
  | None => ((None, None), asked (Head dat_name) st)
  end.

(** The name of the [.dat] file a direct download is saved under. *)
Definition direct_name (original_filename : string) : string :=
  if endswith ".dat" original_filename then original_filename
  else original_filename ++ ".dat".

(** What [download_redump_dat] does once the response is there. *)
Definition save_response (dat_name original_filename : string)
    (skip_if_exists : bool) (content_header : string) (body : payload)
    (st : state) : (option string * bool) * state :=
  let original_filename :=
    if contains "filename=" content_header then
      match findall filename_open lazy_any filename_close content_header with
      | g :: _ => g
      | [] => original_filename
      end
    else original_filename in
  let original_filename :=
    if is_empty original_filename then dat_name else original_filename in
  if endswith ".zip" original_filename then
    match archive body with
    | None => ((None, false), st)
    | Some a =>
        match List.filter (endswith ".dat") (namelist a) with
        | [] => ((None, false), st)
        | datfile_name :: _ =>
            if skip_if_exists && bool_decide (datfile_name ∈ dir st)
            then ((Some datfile_name, true), st)
            else
              match read a datfile_name with
              | None => ((None, false), st)
              | Some dat_content => ((Some datfile_name, false), written datfile_name st)
              end
        end
    end
  else
    let datfile_name := direct_name original_filename in
    ((Some datfile_name, false), written datfile_name st).

(** [download_redump_dat(dat_name, output_dir, skip_if_exists)]: the path
    returned, by its name in the directory, and [was_skipped]. *)
Definition download_redump_dat (n : net) (dat_name : string)
    (skip_if_exists : bool) (st : state) : (option string * bool) * state :=
  let '((original_filename, remote_date), st) := get_redump_dat_info n dat_name st in
  let original_filename := or_default original_filename dat_name in
  let found_early :=
    if endswith ".zip" original_filename then None
    else
      let datfile_name := direct_name original_filename in
      if skip_if_exists && bool_decide (datfile_name ∈ dir st)
      then Some datfile_name
      else None in
  match found_early with
  | Some datfile_name => ((Some datfile_name, true), st)
  | None =>
      match get n (requests st) dat_name with
      | None => ((None, false), asked (Get dat_name) st)
      | Some (content_header, body) =>
          save_response dat_name original_filename skip_if_exists
                        content_header body (asked (Get dat_name) st)
      end
  end.

(** What the loop of [download_all_redump_dats] carries. *)
Record progress : Type := Progress {
  downloaded_dats : list string;
  skipped_count : nat;
  cleaned_count : nat
}.

(** The body of the loop for one entry of the list. *)
Definition download_one (n : net) (acc : progress * state) (dat : string)
  : progress * state :=
  let (p, st) := acc in
  let '((dat_path, was_skipped), st) := download_redump_dat n dat true st in
  match dat_path with
  | Some path =>
      if was_skipped
      then (Progress (downloaded_dats p ++ [path]) (S (skipped_count p))
                     (cleaned_count p), st)
      else
        let (files, removed) := cleanup_old_redump_dat path (dir st) in
        (Progress (downloaded_dats p ++ [path]) (skipped_count p)
                  (cleaned_count p + removed),
         State files (requests st))
  | None => (p, st)
  end.

(** [download_all_redump_dats(output_dir)] *)
Definition download_all_redump_dats (n : net) (st : state)
  : list string * state :=
  let (dat_list, st) := find_all_redump_dats n st in
  match dat_list with
  | [] => ([], st)
  | _ =>
      let (p, st) := fold_left (download_one n) dat_list (Progress [] 0 0, st) in
      (downloaded_dats p, st)
  end.

End Redump.

(** ** The orchestrator *)

Module Main.
Import Text PathName Normalizer Store Retool Pass Housekeeping.

(** The module constants. *)
Definition SKIP_REDUMP_DOWNLOAD : bool := false.
Definition SKIP_NO_INTRO_DOWNLOAD : bool := false.
Definition DAT_COLLECTIONS : list string := ["redump"; "no-intro"].

(** What a callee can raise: the interrupt, or an [Exception]. *)
Inductive raised : Type :=
| KeyboardInterrupt
| Exception (msg : string).

(** The outcome of a call into the outside world. *)
Inductive outcome (A : Type) : Type :=
| Returns (a : A)
| Raises (e : raised).
Arguments Returns {A} a.
Arguments Raises {A} e.

(** How [main()] ends: it returns, it calls [sys.exit(code)], or something
    raised propagates out of it. *)
Inductive ending (A : Type) : Type :=
| Ret (a : A)
| SystemExit (code : Z)
| Raise (e : raised).
Arguments Ret {A} a.
Arguments SystemExit {A} code.
Arguments Raise {A} e.

Definition bind {A B} (m : ending A) (k : A -> ending B) : ending B :=
  match m with
  | Ret a => k a
  | SystemExit c => SystemExit c
  | Raise e => Raise e
  end.

Definition call {A} (o : outcome A) : ending A :=
  match o with
  | Returns a => Ret a
  | Raises e => Raise e
  end.

Notation "x <- m ;; k" := (bind m (fun x => k))
  (at level 100, m at next level, right associativity, only parsing).

(** The outside world as [main] meets it. *)
Record env : Type := Env {
  discover_configs : outcome (list (string * string));
  existing_redump_dats : outcome (list string);
  existing_no_intro_dats : outcome (list string);
  download_all_redump_dats : outcome (list string);
  download_no_intro_dats : outcome (list string);
  clone_retool_if_needed : outcome bool;
  install_retool_dependencies : outcome bool;
  update_retool_main : outcome bool;
  update_retool_clone_lists : outcome bool;
  load_filters_config : string -> outcome (list string * string);
  copy_user_config : string -> outcome bool;
  retool : tool;
  (* something raised while the pass of a configuration and collection
     runs, such as an interrupt during a Retool run *)
  pass_fault : string * string -> option raised;
  remove_retool_user_config : outcome unit
}.

(** One value of [config_settings]. *)
Record settings : Type := Settings {
  flags : list string;
  exclude : string
}.

(** [preload_config_settings(configs, collections)]: the keys in insertion
    order, with their settings. *)
Fixpoint preload_config_settings (e : env) (configs : list (string * string))
    (collections : list string) : ending (list (string * string * settings)) :=
  match configs with
  | [] => Ret []
  | (config_name, config_dir) :: rest =>
      fe <- call (load_filters_config e config_dir) ;;
      more <- preload_config_settings e rest collections ;;
      Ret (List.map (fun collection =>
                       (config_name, collection, Settings (fst fe) (snd fe)))
                    collections ++ more)%list
  end.

(** The directories of every configuration and collection. *)
Definition trees : Type := gmap (string * string) world.

Definition tree_of (t : trees) (key : string * string) (script : bool) : world :=
  match t !! key with
  | Some w => World script (output_dat_dir w) (report_dir w) (calls w)
  | None => World script None None []
  end.

(** The body of the loop of step 4 for one configuration and collection. *)
Definition process_pair (e : env) (config_name collection : string)
    (collection_dat_files : list string) (w : world) : ending (world * results) :=
  _ <- call (copy_user_config e config_name) ;;
  match pass_fault e (config_name, collection) with
  | Some err => Raise err
  | None =>
      (* daily_output_dir.mkdir(...); report_output_dir.mkdir(...) *)
      let daily := mkdir (output_dat_dir w) in
      let reports := match report_dir w with Some r => r | None => [] end in
      let existing :=
        existing_processed_files collection_dat_files (Some daily) collection in
      let daily := cleanup_previous_dats (Some daily) existing in
      let reports := fst (cleanup_old_files (Some reports) is_txt 7 collection) in
      let w := World (retool_script w) daily reports (calls w) in
      Ret (process_all_dats_with_retool (retool e) collection_dat_files
             collection config_name w)
  end.

Definition lookup_dats (collection_dats : list (string * list string))
    (collection : string) : list string :=
  match List.find (fun kv => String.eqb (fst kv) collection) collection_dats with
  | Some kv => snd kv
  | None => []
  end.

Fixpoint process_pairs (e : env)
    (collection_dats : list (string * list string))
    (config_settings : list (string * string * settings))
    (script : bool) (t : trees) (all_results : list (string * string * results))
  : ending (trees * list (string * string * results)) :=
  match config_settings with
  | [] => Ret (t, all_results)
  | (config_name, collection, _) :: rest =>
      match lookup_dats collection_dats collection with
      | [] => process_pairs e collection_dats rest script t all_results
      | dats =>
          r <- process_pair e config_name collection dats
                 (tree_of t (config_name, collection) script) ;;
          process_pairs e collection_dats rest script
            (<[(config_name, collection) := fst r]> t)
            (all_results ++ [(config_name, collection, snd r)])%list
      end
  end.

(** Collecting the DAT files of one collection in step 1. *)
Definition collect (enabled skip : bool) (existing download : outcome (list string))
  : ending (list string) :=
  if enabled then (if skip then call existing else call download) else Ret [].

Definition in_collections (c : string) : bool :=
  existsb (String.eqb c) DAT_COLLECTIONS.

(** Steps 2 to 4 of [main()] once Retool is in place: dependencies,
    updates, settings, the passes, the final cleanup. *)
Definition process_configurations (e : env) (configs : list (string * string))
    (collection_dats : list (string * list string)) (script : bool) (t : trees)
  : ending (trees * list (string * string * results)) :=
  _ <- call (install_retool_dependencies e) ;;
  _ <- call (update_retool_main e) ;;
  _ <- call (update_retool_clone_lists e) ;;
  config_settings <- preload_config_settings e configs DAT_COLLECTIONS ;;
  r <- process_pairs e collection_dats config_settings script t [] ;;
  _ <- call (remove_retool_user_config e) ;;
  Ret r.

(** [collection_dats]: a collection is entered when it has files. *)
Definition collection_dats_of (redump_dats no_intro_dats : list string)
  : list (string * list string) :=
  ((match redump_dats with [] => [] | _ => [("redump", redump_dats)] end) ++
   (match no_intro_dats with [] => [] | _ => [("no-intro", no_intro_dats)] end))%list.

(** [main()] *)
Definition main (e : env) (script : bool) (t : trees)
  : ending (trees * list (string * string * results)) :=
  configs <- call (discover_configs e) ;;
  match configs with
  | [] => SystemExit 1
  | _ =>
      redump_dats <- collect (in_collections "redump") SKIP_REDUMP_DOWNLOAD
                       (existing_redump_dats e) (download_all_redump_dats e) ;;
      no_intro_dats <- collect (in_collections "no-intro") SKIP_NO_INTRO_DOWNLOAD
                         (existing_no_intro_dats e) (download_no_intro_dats e) ;;
      let collection_dats := collection_dats_of redump_dats no_intro_dats in
      let total_dats :=
        list_sum (List.map (fun kv => List.length (snd kv)) collection_dats) in
      if (total_dats =? 0)%nat then SystemExit 1
      else
        cloned <- call (clone_retool_if_needed e) ;;
        if negb cloned then SystemExit 1
        else process_configurations e configs collection_dats script t
  end.

(** The [__main__] guard: the exit code of the process. *)
Definition exit_code (e : env) (script : bool) (t : trees) : Z :=
  match main e script t with
  | Ret _ => 0
  | SystemExit code => code
  | Raise KeyboardInterrupt => 1
  | Raise (Exception _) => 1
  end.

End Main.

(** * Notions used in the statements *)

Module Statements.
Import Text PathName Regex Normalizer RetoolOutput Store Retool Pass
       Housekeeping.

(** ** Classification of a Retool run *)

(** The status component of [run_retool]'s result. *)
Definition status_of (r : option string * option string * status * option string)
  : status := snd (fst r).

Definition message_of (r : option string * option string * status * option string)
  : option string := snd r.

(** The two markers looked for in the combined text. *)
Definition no_valid_marker (text : string) : bool :=
  contains "No valid titles in input DAT file" text.

Definition filtered_marker (text : string) : bool :=
  contains "No titles in the input DAT match your preferences" text
  || contains "No DAT file has been created" text.

(** Retool left a [.dat] in the temporary directory. *)
Definition produced_dat (r : completed) : bool :=
  existsb (fun p => is_dat (fst p)) (produced r).

(** The classification as the specification words it: the markers first,
    then the exit status, then the DAT. *)
Definition status_by_spec_order (r : completed) : status :=
  let text := stdout r ++ LF ++ stderr r in
  if no_valid_marker text then st_no_games
  else if filtered_marker text then st_not_required
  else if negb (returncode r =? 0)%Z then st_failed
  else if produced_dat r then st_success
  else st_failed.


(** ** Skipping and the result buckets *)

(** The skip condition in the words of the specification: the store has an
    entry for the normalized system name of the input, the input filename
    the entry stands for is the current one, and the recorded output path,
    joined to the directory, exists. *)
Definition up_to_date (dat_file collection : string) (o : option outdir)
    (recorded : string) : Prop :=
  exists d e,
    o = Some d
    /\ load_metadata d !! extract_system_name (stem dat_file) collection = Some e
    /\ stored_input_filename e = Some dat_file
    /\ file_exists d (output_path e) = true
    /\ recorded = output_path e.

Definition add_skipped (res : results) (dat_file recorded : string) : results :=
  Results (successful res) (not_required res) (no_games res) (failed res)
          (skipped res ++ [(dat_file, recorded)]).

(** The sizes of the five buckets, added up. *)
Definition bucket_total (res : results) : nat :=
  List.length (successful res) + List.length (not_required res)
  + List.length (no_games res) + List.length (failed res)
  + List.length (skipped res).


(** An output directory holding the processed DAT of one system, with its
    metadata entry, and a world around it. *)
Definition example_outdir : outdir :=
  OutDir {[ "Acorn - Archimedes (Fresh1G1R - cfg).dat" :=
            "Acorn - Archimedes (20231029-220453).dat" ]}
         (Some {[ "Acorn - Archimedes" :=
                  Entry (Some "Acorn - Archimedes (20231029-220453).dat") None
                        "Acorn - Archimedes (Fresh1G1R - cfg).dat" ]})
         ∅.

Definition example_world : world :=
  World true (Some example_outdir) None [].


(** The five buckets by name, and the inputs filed in each. *)
Inductive bucket : Type :=
  b_successful | b_not_required | b_no_games | b_failed | b_skipped.

#[global] Instance bucket_eq_dec : EqDecision bucket.
Proof. solve_decision. Defined.

Definition inputs_in (b : bucket) (res : results) : list string :=
  match b with
  | b_successful => List.map (fun x => fst (fst x)) (successful res)
  | b_not_required => List.map fst (not_required res)
  | b_no_games => List.map fst (no_games res)
  | b_failed => List.map fst (failed res)
  | b_skipped => List.map fst (skipped res)
  end.

(** An assignment gives every input, in order, its bucket; [filed] reads
    off the inputs of one bucket. *)
Definition filed (assignment : list (string * bucket)) (b : bucket)
  : list string :=
  List.map fst (List.filter (fun p => bool_decide (snd p = b)) assignment).


(** ** Raw Redump files of one system *)

(** The normalized system name of a raw Redump file. *)
Definition redump_system (file_name : string) : string :=
  extract_system_name (stem file_name) "redump".

(** The download directory after [cleanup_old_redump_dat]. *)
Definition after_redump_cleanup (new_dat : string) (output_dir : gset string)
  : gset string :=
  fst (cleanup_old_redump_dat new_dat output_dir).


(** A download directory with two PlayStation files and one Saturn file. *)
Definition example_downloads : gset string :=
  {[ "Sony - PlayStation (2025-10-23 18-11-28) - Datfile (77).dat";
     "Sony - PlayStation (2025-09-01 10-00-00) - Datfile (70).dat";
     "Sega - Saturn (2025-10-01 09-30-00) - Datfile (12).dat" ]}.


(** ** The ways a run ends with exit code 1 *)

Import Main.

(** No valid configuration was discovered. *)
Definition no_configurations (e : env) : Prop :=
  discover_configs e = Returns [].

(** Configurations were found, and both collections came back empty. *)
Definition no_dats_available (e : env) : Prop :=
  exists configs,
    discover_configs e = Returns configs /\ configs <> []
    /\ download_all_redump_dats e = Returns []
    /\ download_no_intro_dats e = Returns [].

(** There is something to process, and Retool could not be set up. *)
Definition setup_failure (e : env) : Prop :=
  exists configs redump_dats no_intro_dats,
    discover_configs e = Returns configs /\ configs <> []
    /\ download_all_redump_dats e = Returns redump_dats
    /\ download_no_intro_dats e = Returns no_intro_dats
    /\ (redump_dats <> [] \/ no_intro_dats <> [])
    /\ clone_retool_if_needed e = Returns false.

(** A run in which Retool fails on the one file there is. *)
Definition example_env : env :=
  Env (Returns [("McLean", "config/McLean")])
      (Returns []) (Returns [])
      (Returns ["Sony - PlayStation (2025-10-23 18-11-28) - Datfile (77).dat"])
      (Returns [])
      (Returns true) (Returns true) (Returns true) (Returns true)
      (fun _ => Returns (["-d"], "aAbB"))
      (fun _ => Returns true)
      (fun _ _ => Exited (Completed 1 "Traceback" "boom" []))
      (fun _ => None)
      (Returns tt).


(** ** Names the normalizer leaves alone *)

(** An opening parenthesis directly followed by a digit, the start of both
    date patterns. *)
Fixpoint has_paren_digit (s : string) : bool :=
  match s with
  | EmptyString => false
  | String c s' =>
      (Ascii.eqb c "(" &&
       match s' with
       | String d _ => is_digit d
       | EmptyString => false
       end)
      || has_paren_digit s'
  end.



(** ** The no-valid-titles example *)


(** White space only. *)
Fixpoint blank (s : string) : bool :=
  match s with
  | EmptyString => true
  | String c s' => is_space c && blank s'
  end.

(** The character does not occur in the text. *)
Fixpoint lacks (c : ascii) (s : string) : bool :=
  match s with
  | EmptyString => true
  | String a s' => negb (Ascii.eqb a c) && lacks c s'
  end.


(** ** Retention of reports *)

(** The grouping key of a listed report. *)
Definition report_key (collection : string) (f : string * Z) : string :=
  normalized_system (stem (fst f)) collection.

(** The files of a listing that match the pattern and carry the key. *)
Definition report_group (pattern : string -> bool) (collection key : string)
    (listing : list (string * Z)) : list (string * Z) :=
  List.filter
    (fun f => pattern (fst f) && String.eqb (report_key collection f) key)
    listing.

(** The listing of the directory after [cleanup_old_files]. *)
Definition after_cleanup (listing : list (string * Z)) (pattern : string -> bool)
    (keep_count : Z) (collection : string) : list (string * Z) :=
  match fst (cleanup_old_files (Some listing) pattern keep_count collection) with
  | Some l => l
  | None => []
  end.

(** A directory of reports: [n] reports of one system and date, numbered
    and with modification times in the order of their numbers. *)
Definition numbered_report (i : nat) : string * Z :=
  ("Sony - PlayStation (2025-10-23 18-11-28) (Retool 2025-10-"
     ++ String (ascii_of_nat (65 + i)) EmptyString ++ ").txt",
   Z.of_nat i).

Definition numbered_reports (n : nat) : list (string * Z) :=
  List.map numbered_report (seq 0 n).

(** A report as Retool names it, for a DAT with a dated name: the [i]-th
    run of a month, with [i] as modification time. *)
Definition retool_report (dated_name : string) (i : nat) : string * Z :=
  (dated_name ++ " (Retool 2025-11-"
     ++ String (ascii_of_nat (48 + i / 10))
          (String (ascii_of_nat (48 + i mod 10)) EmptyString)
     ++ " 09-00-00) (1,234) [-d].txt",
   Z.of_nat i).

(** A report directory with three groups: three reports of a Saturn DAT,
    seven of a GameCube DAT and ten of a PlayStation DAT. *)
Definition example_reports : list (string * Z) :=
  (List.map (retool_report "Sega - Saturn (2025-10-01 09-30-00)") (seq 1 3)
   ++ List.map (retool_report "Nintendo - GameCube (2025-10-02 11-00-00)")
        (seq 1 7)
   ++ List.map (retool_report "Sony - PlayStation (2025-10-23 18-11-28)")
        (seq 1 10))%list.

Definition example_report_keys : list string :=
  [ "Sega - Saturn (2025-10-01 09-30-00)";
    "Nintendo - GameCube (2025-10-02 11-00-00)";
    "Sony - PlayStation (2025-10-23 18-11-28)" ].


(** The order of a list sorted latest first. *)
Definition later_first (a b : string * Z) : Prop := (snd b <= snd a)%Z.

(** The files filed under a key of [files_by_system]. *)
Definition group_lookup (key : string)
    (groups : list (string * list (string * Z))) : list (string * Z) :=
  match List.find (fun g => String.eqb (fst g) key) groups with
  | Some g => snd g
  | None => []
  end.

(** The file is not among the deleted ones, by name. *)
Definition kept (deleted : list (string * Z)) (x : string * Z) : bool :=
  negb (existsb (fun d => String.eqb (fst d) (fst x)) deleted).

(** The files that [cleanup_old_files] deletes, group after group. *)
Definition all_deleted (listing : list (string * Z)) (pattern : string -> bool)
    (keep_count : Z) (collection : string) : list (string * Z) :=
  List.concat
    (List.map (fun g => files_to_delete keep_count (snd g))
       (group_files collection (List.filter (fun f => pattern (fst f)) listing))).


(** ** One processed DAT and one entry per system *)

(** The system an input DAT belongs to. *)
Definition system_of_input (collection input_dat : string) : string :=
  extract_system_name (stem input_dat) collection.

(** The constant name of the processed DAT of a system. *)
Definition processed_name (config_name system_name : string) : string :=
  new_name system_name config_name ".dat".


(** The metadata entries of a system, and its processed [.dat] files. *)
Definition entries_of (d : outdir) (system_name : string)
  : list (string * entry) :=
  List.filter (fun kv => String.eqb (fst kv) system_name)
              (map_to_list (load_metadata d)).

Definition dats_of (collection : string) (d : outdir) (system_name : string)
  : list (string * string) :=
  List.filter
    (fun kv => is_dat (fst kv)
               && String.eqb (system_of_input collection (snd kv)) system_name)
    (map_to_list (files d)).





(** A directory whose one processed DAT carries the name of another
    configuration, with the entry that records it; and two inputs of its
    system, the recorded one and a newer one. *)
Definition stale_outdir : outdir :=
  OutDir {[ "Acorn - Archimedes (Fresh1G1R - old).dat" :=
            "Acorn - Archimedes (20231029-220453).dat" ]}
         (Some {[ "Acorn - Archimedes" :=
                  Entry (Some "Acorn - Archimedes (20231029-220453).dat") None
                        "Acorn - Archimedes (Fresh1G1R - old).dat" ]})
         ∅.

Definition two_inputs : list string :=
  [ "Acorn - Archimedes (20231029-220453).dat";
    "Acorn - Archimedes (20240101-000000).dat" ].


(** ** What a pass leaves *)

(** The file is in the output directory of the world. *)
Definition on_disk (w : world) (f : string) : Prop :=
  is_Some (files (mkdir (output_dat_dir w)) !! f).


(** A tool that exits with status 0 and leaves one DAT, and a world with
    the script in place and no output directory yet. *)
Definition example_tool : tool :=
  fun _ _ => Exited (Completed 0 EmptyString EmptyString [("out.dat", 1%Z)]).

Definition fresh_world : world := World true None None [].

Definition example_input : string := "Acorn - Archimedes (20231029-220453).dat".


(** A run in which Retool succeeds on every file it is handed. *)
Definition example_env_success : env :=
  Env (Returns [("cfg", "config/cfg")])
      (Returns []) (Returns [])
      (Returns []) (Returns [example_input])
      (Returns true) (Returns true) (Returns true) (Returns true)
      (fun _ => Returns (["-d"], "aAbB"))
      (fun _ => Returns true)
      example_tool
      (fun _ => None)
      (Returns tt).

(** ** The results of a whole run *)

(** The keys [all_results] is expected to have: every configuration, in
    order, with each collection that has DAT files. *)
Definition passes_of (configs : list (string * string))
    (redump_dats no_intro_dats : list string) : list (string * string) :=
  flat_map
    (fun c =>
       (match redump_dats with [] => [] | _ => [(fst c, "redump")] end
        ++ match no_intro_dats with [] => [] | _ => [(fst c, "no-intro")] end)%list)
    configs.


(** ** The Redump downloads *)


(** A header that names a file. *)
Definition attachment (file_name : string) : string :=
  "attachment; filename=" ++ Redump.dquote ++ file_name ++ Redump.dquote.




(** A server that names a file the directory already has. *)
Definition example_net_same : Redump.net :=
  Redump.Net
    (fun _ => None)
    (fun _ _ =>
       Some (attachment "Sega - Saturn (2025-10-01 09-30-00) - Datfile (12).dat"))
    (fun _ _ => None).


(** ** What a pass never removes *)

(** The reports of the world, and the systems its metadata has an entry
    for. *)
Definition reports_of (w : world) : list (string * Z) :=
  match report_dir w with Some r => r | None => [] end.

Definition has_entry (w : world) (system_name : string) : Prop :=
  is_Some (load_metadata (mkdir (output_dat_dir w)) !! system_name).


(** ** Dated file names *)

(** The text is ASCII: every byte is below 128.  On such text [str.strip]
    and the classes [\d] and [\s] of Python are the ASCII ones of the
    model. *)
Fixpoint is_ascii (s : string) : bool :=
  match s with
  | EmptyString => true
  | String c s' => (code c <? 128)%nat && is_ascii s'
  end.

(** A run of decimal digits, and one of a given length. *)
Fixpoint all_digits (s : string) : bool :=
  match s with
  | EmptyString => true
  | String c s' => is_digit c && all_digits s'
  end.

Definition digits (n : nat) (s : string) : bool :=
  (String.length s =? n)%nat && all_digits s.

(** The date of a No-Intro file name, [(YYYYMMDD-HHMMSS)], and the date of
    a Redump file name, [(YYYY-MM-DD HH-MM-SS)] or with colons. *)
Definition no_intro_date_text (day time : string) : string :=
  "(" ++ day ++ "-" ++ time ++ ")".

Definition redump_date_text (y mo d h mi s : string) (sep1 sep2 : ascii)
  : string :=
  "(" ++ y ++ "-" ++ mo ++ "-" ++ d ++ " " ++ h
      ++ String sep1 (mi ++ String sep2 (s ++ ")")).

(** The name of a No-Intro DAT of a system, and the name of a Redump DAT of
    a system with its Datfile number. *)
Definition no_intro_file (system_name day time : string) : string :=
  system_name ++ " " ++ no_intro_date_text day time ++ ".dat".

Definition redump_file (system_name number date_text : string) : string :=
  system_name ++ " - Datfile (" ++ number ++ ")" ++ " " ++ date_text ++ ".dat".

(** The text is a date as the file names carry it. *)
Definition is_no_intro_date (t : string) : Prop :=
  exists day time,
    t = no_intro_date_text day time
    /\ digits 8 day = true /\ digits 6 time = true.

Definition is_redump_date (t : string) : Prop :=
  exists y mo d h mi s sep1 sep2,
    t = redump_date_text y mo d h mi s sep1 sep2
    /\ digits 4 y = true /\ digits 2 mo = true /\ digits 2 d = true
    /\ digits 2 h = true /\ digits 2 mi = true /\ digits 2 s = true
    /\ (sep1 = "-"%char \/ sep1 = ":"%char)
    /\ (sep2 = "-"%char \/ sep2 = ":"%char).

End Statements.

(** * Properties *)

Module Properties.
Import Text PathName Regex Normalizer RetoolOutput Store Retool Pass
       Housekeeping Statements.

(** String concatenation computes on its first argument in these proofs. *)
#[local] Arguments String.append !s1 s2 : simpl nomatch.

(** ** Classification of a Retool run *)

Lemma max_by_mtime_none paths : max_by_mtime paths = None <-> paths = [].
Proof. destruct paths; simpl; split; intros H; congruence. Qed.

Lemma filter_nil_existsb {A} (p : A -> bool) (l : list A) :
  List.filter p l = [] <-> existsb p l = false.
Proof.
  induction l as [|x l IH]; simpl; [tauto|].
  destruct (p x); simpl; [split; congruence | exact IH].
Qed.

(** With the script in place and a completed run, the result of
    [run_retool] is [determine_status] of the run, and the DAT it reports
    is there exactly when Retool produced one. *)
Lemma run_retool_exited retool input_dat collection config_name w r :
  retool_script w = true ->
  retool (calls w) input_dat = Exited r ->
  exists output_dat report_txt,
    snd (run_retool retool input_dat collection config_name w)
    = determine_status (returncode r) output_dat report_txt (stdout r) (stderr r)
    /\ is_some output_dat = produced_dat r.
Proof.
  intros Hs Hr. unfold run_retool. rewrite Hs. simpl. rewrite Hr.
  unfold produced_dat.
  destruct (max_by_mtime (List.filter (fun p => is_dat (fst p)) (produced r)))
    as [t|] eqn:Hm.
  - destruct (max_by_mtime (List.filter (fun p => is_txt (fst p)) (produced r)));
      simpl; eexists _, _; (split; [reflexivity|]); simpl;
      destruct (existsb _ (produced r)) eqn:He; try reflexivity;
      apply filter_nil_existsb in He; rewrite He in Hm; discriminate.
  - apply max_by_mtime_none in Hm. apply filter_nil_existsb in Hm.
    destruct (max_by_mtime (List.filter (fun p => is_txt (fst p)) (produced r)));
      simpl; eexists _, _; (split; [reflexivity|]); simpl; congruence.
Qed.

Lemma determine_status_status rc output_dat report_txt out err :
  status_of (determine_status rc output_dat report_txt out err)
  = let text := out ++ LF ++ err in
    if negb (rc =? 0)%Z then
      if no_valid_marker text then st_no_games
      else if filtered_marker text then st_not_required else st_failed
    else if is_some output_dat then st_success
    else if filtered_marker text then st_not_required
    else if no_valid_marker text then st_no_games else st_failed.
Proof.
  unfold determine_status, status_of, no_valid_marker, filtered_marker. simpl.
  repeat match goal with |- context [if ?b then _ else _] => destruct b end;
    reflexivity.
Qed.

(** C1 (as stated, refuted).  A run that exits with status 0 and leaves a
    DAT is a success even when the no-valid-titles marker is in its output;
    the order of the specification would make it "no_games". *)
Lemma C1_marker_does_not_override_success :
  status_of (snd (run_retool
    (fun _ _ => Exited (Completed 0 "No valid titles in input DAT file"
                                  EmptyString [("out.dat", 1%Z)]))
    "in.dat" "redump" "cfg" (World true None None [])))
  = st_success
  /\ status_by_spec_order
       (Completed 0 "No valid titles in input DAT file" EmptyString
                  [("out.dat", 1%Z)])
     = st_no_games.
Proof. vm_compute. split; reflexivity. Qed.

(** C1 (amended).  For every completed Retool run, [run_retool] classifies
    it as follows.  Exit status zero with a produced DAT is "success",
    whatever the text holds.  Otherwise the no-valid-titles marker gives
    "no_games" when the exit status is non-zero or the nothing-passed marker
    is absent; the nothing-passed marker without the no-valid-titles marker
    gives "not_required"; with neither marker a non-zero exit status gives
    "failed", and so does exit status zero without a DAT. *)
Theorem C1_run_retool_classification
    retool input_dat collection config_name w r :
  retool_script w = true ->
  retool (calls w) input_dat = Exited r ->
  let text := stdout r ++ LF ++ stderr r in
  let st := status_of (snd (run_retool retool input_dat collection config_name w)) in
  let ok_with_dat := (returncode r =? 0)%Z && produced_dat r in
  (ok_with_dat = true -> st = st_success)
  /\ (ok_with_dat = false -> no_valid_marker text = true ->
      returncode r <> 0%Z \/ filtered_marker text = false -> st = st_no_games)
  /\ (ok_with_dat = false -> no_valid_marker text = false ->
      filtered_marker text = true -> st = st_not_required)
  /\ (returncode r <> 0%Z -> no_valid_marker text = false ->
      filtered_marker text = false -> st = st_failed)
  /\ (returncode r = 0%Z -> produced_dat r = false ->
      no_valid_marker text = false -> filtered_marker text = false ->
      st = st_failed).
Proof.
  intros Hs Hr text st ok.
  destruct (run_retool_exited retool input_dat collection config_name w r Hs Hr)
    as (od & rt & Heq & Hod).
  subst st ok. rewrite Heq, determine_status_status. fold text.
  rewrite Hod. simpl.
  destruct (Z.eqb_spec (returncode r) 0) as [E|E]; simpl;
    destruct (produced_dat r); simpl;
    destruct (no_valid_marker text); destruct (filtered_marker text);
    repeat split; intros; try reflexivity; try discriminate; try congruence;
    repeat match goal with H : _ \/ _ |- _ => destruct H end;
    try congruence.
Qed.

(** The amended C1 at a run that exits with status 1 and prints the
    no-valid-titles marker. *)
Lemma C1_run_retool_classification_witness :
  status_of (snd (run_retool
    (fun _ _ => Exited (Completed 1 "No valid titles in input DAT file" EmptyString []))
    "in.dat" "redump" "cfg" (World true None None []))) = st_no_games.
Proof.
  apply (C1_run_retool_classification
           (fun _ _ => Exited (Completed 1 "No valid titles in input DAT file" EmptyString []))
           "in.dat" "redump" "cfg" (World true None None [])
           (Completed 1 "No valid titles in input DAT file" EmptyString [])).
  - reflexivity.
  - reflexivity.
  - reflexivity.
  - vm_compute. reflexivity.
  - left. simpl. lia.
Defined.


(** ** The normalizer on the documented example *)

(** C7.  The stem "Sony - PlayStation (2025-10-23 18-11-28) - Datfile (77)"
    with collection "redump" normalizes to exactly "Sony - PlayStation":
    the Datfile infix is removed, the date pattern is found at offset 19,
    and what precedes it is returned trimmed. *)
Theorem C7_redump_example :
  extract_system_name
    "Sony - PlayStation (2025-10-23 18-11-28) - Datfile (77)" "redump"
  = "Sony - PlayStation"
  /\ sub datfile_infix EmptyString
       "Sony - PlayStation (2025-10-23 18-11-28) - Datfile (77)"
     = "Sony - PlayStation (2025-10-23 18-11-28)"
  /\ search redump_date "Sony - PlayStation (2025-10-23 18-11-28)"
     = Some (19, 40)
  /\ strip (take 19 "Sony - PlayStation (2025-10-23 18-11-28)")
     = "Sony - PlayStation".
Proof. vm_compute. repeat split; reflexivity. Qed.

(** ** Skipping inputs that are up to date *)

Lemma truthy_Some_iff (o : option string) (s : string) :
  s <> EmptyString ->
  (truthy o && bool_decide (Some s = o) = true <-> o = Some s).
Proof.
  intros Hs. split.
  - intros H. apply andb_true_iff in H as [_ H].
    apply bool_decide_eq_true in H. congruence.
  - intros ->. apply andb_true_iff. split.
    + simpl. destruct s; [congruence | reflexivity].
    + apply bool_decide_eq_true. reflexivity.
Qed.

(** *** Paths *)

Lemma split_lacks sep s :
  List.Forall (fun w => lacks sep w = true) (split sep s).
Proof.
  induction s as [|x s IH]; cbn.
  - constructor; [reflexivity | constructor].
  - destruct (Ascii.eqb x sep) eqn:Hx.
    + constructor; [reflexivity | exact IH].
    + destruct (split sep s) as [|w ws].
      * constructor; [cbn; now rewrite Hx | constructor].
      * inversion IH as [|? ? Hw Hws]; subst.
        constructor; [cbn; now rewrite Hx, Hw | exact Hws].
Qed.

Lemma split_single sep s : lacks sep s = true -> split sep s = [s].
Proof.
  induction s as [|x s IH]; cbn; [reflexivity|]. intros H.
  apply andb_prop in H as [Hx H]. apply negb_true_iff in Hx.
  now rewrite Hx, (IH H).
Qed.

Lemma last_in {A} (l : list A) d : l <> [] -> In (List.last l d) l.
Proof.
  intros H. destruct (exists_last H) as (l' & a & ->).
  rewrite last_last. apply in_or_app. right. now left.
Qed.

(** A path that is its own name is a single component, or empty. *)
Lemma name_fixed p :
  name p = p -> p = EmptyString \/ (parts p = [p] /\ is_absolute p = false).
Proof.
  unfold name. intros H.
  destruct (parts p) as [|c cs] eqn:Hp; [cbn in H; now left|]. right.
  assert (Hin : In p (parts p)).
  { rewrite <- H at 1. rewrite Hp. now apply last_in. }
  unfold parts in Hin, Hp. apply List.filter_In in Hin as [Hin Hf].
  pose proof (split_lacks "/" p) as Hl.
  rewrite List.Forall_forall in Hl. specialize (Hl p Hin).
  rewrite (split_single _ _ Hl) in Hp. cbn [List.filter] in Hp.
  rewrite Hf in Hp. split; [now rewrite <- Hp|].
  unfold is_absolute. destruct p as [|a p]; [reflexivity|].
  cbn [lacks] in Hl. cbn [startswith]. apply andb_prop in Hl as [Ha _].
  apply negb_true_iff in Ha. rewrite Ascii.eqb_sym in Ha. now rewrite Ha.
Qed.

Lemma name_fixed_normal p : name p = p -> normal p = p.
Proof.
  intros H. destruct (name_fixed p H) as [->|[Hp Ha]]; [reflexivity|].
  unfold normal. now rewrite Hp, Ha.
Qed.

(** A path that [files] lists exists. *)
Lemma file_exists_listed d p :
  is_Some (files d !! p) -> file_exists d p = true.
Proof.
  intros H. unfold file_exists. now rewrite (bool_decide_eq_true_2 _ H).
Qed.

(** Existence survives whatever removes no listed file and no metadata
    file. *)
Lemma file_exists_mono d d' p :
  (forall f, is_Some (files d !! f) -> is_Some (files d' !! f)) ->
  elsewhere d' = elsewhere d ->
  (is_Some (metadata_json d) -> is_Some (metadata_json d')) ->
  file_exists d p = true -> file_exists d' p = true.
Proof.
  intros Hf He Hm. unfold file_exists. rewrite He.
  rewrite !orb_true_iff, !andb_true_iff, !bool_decide_eq_true.
  intros [[[[H|H]|H]|H]|[H1 H2]]; auto 7.
Qed.

(** [check_if_already_processed] answers with a file exactly when the skip
    condition holds, and then with the recorded output. *)
Lemma check_if_already_processed_spec dat_file o collection recorded :
  dat_file <> EmptyString ->
  check_if_already_processed dat_file o collection = Some recorded
  <-> up_to_date dat_file collection o recorded.
Proof.
  intros Hne. unfold check_if_already_processed, up_to_date.
  destruct o as [d|].
  2:{ split; [discriminate | intros (d & e & H & _); discriminate]. }
  destruct (load_metadata d !! extract_system_name (stem dat_file) collection)
    as [e|] eqn:He.
  2:{ split; [discriminate | intros (d' & e & H & H' & _)].
      injection H as <-. congruence. }
  destruct (file_exists d (output_path e)) eqn:Hf.
  - destruct (truthy (stored_input_filename e)
              && bool_decide (Some dat_file = stored_input_filename e)) eqn:Ht.
    + apply truthy_Some_iff in Ht; [|assumption]. split.
      * intros [= <-]. exists d, e. auto.
      * intros (d' & e' & [= <-] & He' & _ & _ & ->). congruence.
    + split; [discriminate|].
      intros (d' & e' & [= <-] & He' & Hst & _ & _).
      assert (e' = e) as -> by congruence.
      apply (truthy_Some_iff _ _ Hne) in Hst. congruence.
  - split; [discriminate|].
    intros (d' & e' & [= <-] & He' & _ & Hex & _).
    assert (e' = e) as -> by congruence. congruence.
Qed.

Lemma run_retool_skipped_unchanged retool collection config_name w res dat_file :
  check_if_already_processed dat_file (output_dat_dir w) collection = None ->
  skipped (snd (process_one retool collection config_name (w, res) dat_file))
  = skipped res
  /\ fst (process_one retool collection config_name (w, res) dat_file)
     = fst (run_retool retool dat_file collection config_name w).
Proof.
  intros Hc. unfold process_one. simpl. rewrite Hc.
  destruct (run_retool retool dat_file collection config_name w)
    as [w' [[[od rt] st] em]].
  destruct st, od; simpl; auto.
Qed.

Lemma run_retool_calls retool input_dat collection config_name w :
  retool_script w = true ->
  calls (fst (run_retool retool input_dat collection config_name w))
  = input_dat :: calls w.
Proof.
  intros Hs. unfold run_retool. rewrite Hs. simpl.
  destruct (retool (calls w) input_dat) as [r|msg]; [|reflexivity].
  destruct (max_by_mtime (List.filter (fun p => is_dat (fst p)) (produced r)));
    destruct (max_by_mtime (List.filter (fun p => is_txt (fst p)) (produced r)));
    reflexivity.
Qed.

(** C2.  In a processing pass an input DAT is skipped exactly when the skip
    condition holds: then the recorded output is filed under "skipped" and
    the world, with the log of tool calls, is left as it was.  In every
    other case the input is handed to [run_retool], nothing is filed under
    "skipped", and with the script in place the external tool is called
    for it. *)
Theorem C2_skip_iff_up_to_date retool collection config_name w res dat_file :
  dat_file <> EmptyString ->
  (forall recorded,
     up_to_date dat_file collection (output_dat_dir w) recorded <->
     process_one retool collection config_name (w, res) dat_file
     = (w, add_skipped res dat_file recorded))
  /\ ((~ exists recorded,
          up_to_date dat_file collection (output_dat_dir w) recorded) ->
      skipped (snd (process_one retool collection config_name (w, res) dat_file))
      = skipped res
      /\ fst (process_one retool collection config_name (w, res) dat_file)
         = fst (run_retool retool dat_file collection config_name w)
      /\ (retool_script w = true ->
          calls (fst (process_one retool collection config_name (w, res) dat_file))
          = dat_file :: calls w)).
Proof.
  intros Hne. split.
  - intros recorded.
    rewrite <- (check_if_already_processed_spec _ _ _ _ Hne).
    destruct (check_if_already_processed dat_file (output_dat_dir w) collection)
      as [r|] eqn:Hc.
    + assert (Hp : process_one retool collection config_name (w, res) dat_file
                   = (w, add_skipped res dat_file r)).
      { unfold process_one. simpl. rewrite Hc. reflexivity. }
      rewrite Hp. split.
      * intros [= ->]. reflexivity.
      * intros [= H]. apply app_inv_head in H. congruence.
    + split; [discriminate|]. intros Hp.
      destruct (run_retool_skipped_unchanged retool collection config_name
                  w res dat_file Hc) as [Hs _].
      rewrite Hp in Hs. simpl in Hs.
      apply (f_equal (@List.length _)) in Hs.
      rewrite length_app in Hs. simpl in Hs. lia.
  - intros Hno.
    assert (Hc : check_if_already_processed dat_file (output_dat_dir w) collection
                 = None).
    { destruct (check_if_already_processed dat_file (output_dat_dir w) collection)
        as [r|] eqn:Hc; [|reflexivity].
      exfalso. apply Hno. exists r.
      apply (check_if_already_processed_spec _ _ _ _ Hne). exact Hc. }
    destruct (run_retool_skipped_unchanged retool collection config_name
                w res dat_file Hc) as [Hs Hw].
    repeat split; try assumption.
    intros Hscript. rewrite Hw. apply run_retool_calls. exact Hscript.
Qed.


(** C2 at a directory that holds the processed DAT of the input: the input
    is skipped and no tool is called. *)
Lemma C2_skip_iff_up_to_date_witness :
  process_one (fun _ _ => Raised "not called") "no-intro" "cfg"
    (example_world, no_results) "Acorn - Archimedes (20231029-220453).dat"
  = (example_world,
     add_skipped no_results "Acorn - Archimedes (20231029-220453).dat"
                 "Acorn - Archimedes (Fresh1G1R - cfg).dat").
Proof.
  refine (proj1 (proj1 (C2_skip_iff_up_to_date _ _ _ _ _ _ _) _) _).
  - discriminate.
  - exists example_outdir.
    exists (Entry (Some "Acorn - Archimedes (20231029-220453).dat") None
                  "Acorn - Archimedes (Fresh1G1R - cfg).dat").
    repeat split; vm_compute; reflexivity.
Defined.

(** The skip condition at paths other than a file name.  An entry with an
    empty recorded path names the directory itself, which exists: the input
    is skipped.  The name part of a legacy path is read without its
    trailing slash.  A recorded path into a sub-directory exists when the
    file system has it. *)
Example skip_on_empty_output_path :
  check_if_already_processed "Acorn - Archimedes (20231029-220453).dat"
    (Some (OutDir ∅
             (Some {[ "Acorn - Archimedes" :=
                      Entry (Some "Acorn - Archimedes (20231029-220453).dat")
                            None EmptyString ]})
             ∅))
    "no-intro"
  = Some EmptyString.
Proof. vm_compute. reflexivity. Qed.

Example skip_on_legacy_path_with_slash :
  check_if_already_processed "Acorn - Archimedes (20231029-220453).dat"
    (Some (OutDir {[ "Acorn - Archimedes (Fresh1G1R - cfg).dat" := "?" ]}
             (Some {[ "Acorn - Archimedes" :=
                      Entry None
                            (Some "/dats/no-intro/Acorn - Archimedes (20231029-220453).dat/")
                            "./Acorn - Archimedes (Fresh1G1R - cfg).dat" ]})
             ∅))
    "no-intro"
  = Some "./Acorn - Archimedes (Fresh1G1R - cfg).dat".
Proof. vm_compute. reflexivity. Qed.

Example skip_on_path_elsewhere :
  check_if_already_processed "Acorn - Archimedes (20231029-220453).dat"
    (Some (OutDir ∅
             (Some {[ "Acorn - Archimedes" :=
                      Entry (Some "Acorn - Archimedes (20231029-220453).dat")
                            None "old//Acorn - Archimedes.dat" ]})
             {[ "old/Acorn - Archimedes.dat" ]}))
    "no-intro"
  = Some "old//Acorn - Archimedes.dat"
  /\ check_if_already_processed "Acorn - Archimedes (20231029-220453).dat"
       (Some (OutDir ∅
                (Some {[ "Acorn - Archimedes" :=
                         Entry (Some "Acorn - Archimedes (20231029-220453).dat")
                               None "old//Acorn - Archimedes.dat" ]})
                ∅))
       "no-intro"
     = None.
Proof. split; vm_compute; reflexivity. Qed.


(** ** Every input lands in one bucket *)

Lemma process_one_files_once retool collection config_name w res dat_file :
  exists b0,
    forall b,
      inputs_in b (snd (process_one retool collection config_name (w, res) dat_file))
      = (inputs_in b res ++ if bool_decide (b0 = b) then [dat_file] else [])%list.
Proof.
  unfold process_one. simpl.
  destruct (check_if_already_processed dat_file (output_dat_dir w) collection).
  - exists b_skipped. intros []; simpl; rewrite ?List.map_app, ?app_nil_r; reflexivity.
  - destruct (run_retool retool dat_file collection config_name w)
      as [w' [[[od rt] st] em]].
    destruct st; [destruct od| | |].
    + exists b_successful.
      intros []; simpl; rewrite ?List.map_app, ?app_nil_r; reflexivity.
    + exists b_failed.
      intros []; simpl; rewrite ?List.map_app, ?app_nil_r; reflexivity.
    + exists b_not_required.
      intros []; simpl; rewrite ?List.map_app, ?app_nil_r; reflexivity.
    + exists b_no_games.
      intros []; simpl; rewrite ?List.map_app, ?app_nil_r; reflexivity.
    + exists b_failed.
      intros []; simpl; rewrite ?List.map_app, ?app_nil_r; reflexivity.
Qed.

Lemma process_all_files_each retool collection config_name dat_files :
  forall w res,
  exists assignment,
    List.map fst assignment = dat_files
    /\ forall b,
         inputs_in b (snd (fold_left (process_one retool collection config_name)
                                     dat_files (w, res)))
         = (inputs_in b res ++ filed assignment b)%list.
Proof.
  induction dat_files as [|x l IH]; intros w res.
  - exists []. split; [reflexivity|]. intros b. simpl. now rewrite app_nil_r.
  - cbn [fold_left].
    destruct (process_one_files_once retool collection config_name w res x)
      as [b0 Hb0].
    destruct (process_one retool collection config_name (w, res) x)
      as [w1 res1] eqn:Hp.
    destruct (IH w1 res1) as (asg & Hasg & Hin).
    exists ((x, b0) :: asg). split; [simpl; congruence|].
    intros b. rewrite Hin. cbn [snd] in Hb0. rewrite Hb0.
    unfold filed. cbn [List.filter snd].
    destruct (bool_decide (b0 = b)); simpl; rewrite <- app_assoc; reflexivity.
Qed.

Lemma filed_total (assignment : list (string * bucket)) :
  List.length (filed assignment b_successful)
  + List.length (filed assignment b_not_required)
  + List.length (filed assignment b_no_games)
  + List.length (filed assignment b_failed)
  + List.length (filed assignment b_skipped)
  = List.length assignment.
Proof.
  induction assignment as [|[x b] l IH]; [reflexivity|].
  unfold filed in *. destruct b; simpl in *; lia.
Qed.

(** C10.  [process_all_dats_with_retool] gives every input file, in order,
    one of the five buckets, and each bucket holds exactly the inputs given
    to it; so the sizes of the buckets add up to the number of inputs. *)
Theorem C10_each_input_in_one_bucket retool dat_files collection config_name w :
  exists assignment,
    List.map fst assignment = dat_files
    /\ (forall b,
          inputs_in b (snd (process_all_dats_with_retool retool dat_files
                              collection config_name w))
          = filed assignment b)
    /\ bucket_total (snd (process_all_dats_with_retool retool dat_files
                            collection config_name w))
       = List.length dat_files.
Proof.
  unfold process_all_dats_with_retool.
  destruct (process_all_files_each retool collection config_name dat_files
              w no_results) as (asg & Hasg & Hin).
  assert (Hin' : forall b,
            inputs_in b (snd (fold_left (process_one retool collection config_name)
                                        dat_files (w, no_results)))
            = filed asg b).
  { intros b. rewrite Hin. now destruct b. }
  clear Hin. rename Hin' into Hin.
  exists asg. split; [exact Hasg|]. split; [exact Hin|].
  pose proof (Hin b_successful) as H1. pose proof (Hin b_not_required) as H2.
  pose proof (Hin b_no_games) as H3. pose proof (Hin b_failed) as H4.
  pose proof (Hin b_skipped) as H5.
  simpl in H1, H2, H3, H4, H5.
  apply (f_equal (@List.length _)) in H1, H2, H3, H4, H5.
  rewrite List.length_map in H1, H2, H3, H4, H5.
  unfold bucket_total. rewrite H1, H2, H3, H4, H5, filed_total.
  rewrite <- Hasg. now rewrite List.length_map.
Qed.


(** ** One raw Redump file per system *)

Lemma remove_if_same_system_fold new_dat sys (l : list string) :
  forall (d : gset string) (n : nat) (f : string),
    f ∈ fst (fold_left (remove_if_same_system new_dat sys) l (d, n))
    <-> f ∈ d /\ ~ (In f l /\ f <> new_dat /\ redump_system f = sys).
Proof.
  induction l as [|x l IH]; intros d n f.
  - simpl. tauto.
  - cbn [fold_left]. unfold remove_if_same_system at 2.
    destruct (bool_decide (x = new_dat)) eqn:Hx.
    + apply bool_decide_eq_true in Hx. rewrite IH. simpl.
      split; intros [Hd Hn]; (split; [exact Hd|]).
      * intros [[->|Hin] [Hne Hs]]; [contradiction|]. apply Hn. tauto.
      * intros [Hin Hrest]. apply Hn. tauto.
    + apply bool_decide_eq_false in Hx.
      fold (redump_system x).
      destruct (bool_decide (redump_system x = sys)) eqn:Hs.
      * apply bool_decide_eq_true in Hs. rewrite IH. simpl.
        rewrite elem_of_difference, elem_of_singleton.
        split.
        -- intros [[Hd Hfx] Hn]. split; [exact Hd|].
           intros [[->|Hin] Hrest]; [contradiction|]. apply Hn. tauto.
        -- intros [Hd Hn]. split; [split; [exact Hd|]|].
           ++ intros ->. apply Hn. tauto.
           ++ intros [Hin Hrest]. apply Hn. tauto.
      * apply bool_decide_eq_false in Hs. rewrite IH. simpl.
        split; intros [Hd Hn]; (split; [exact Hd|]).
        -- intros [[->|Hin] [Hne Hs']]; [contradiction|]. apply Hn. tauto.
        -- intros [Hin Hrest]. apply Hn. tauto.
Qed.

(** What is left: the files that are not other [.dat] files of the new
    file's system. *)
Lemma after_redump_cleanup_spec new_dat (output_dir : gset string) (f : string) :
  new_dat ∈ output_dir ->
  f ∈ after_redump_cleanup new_dat output_dir
  <-> f ∈ output_dir
      /\ ~ (is_dat f = true /\ f <> new_dat
            /\ redump_system f = redump_system new_dat).
Proof.
  intros Hnew. unfold after_redump_cleanup, cleanup_old_redump_dat.
  rewrite (bool_decide_eq_true_2 _ Hnew). cbn [negb].
  fold (redump_system new_dat).
  rewrite remove_if_same_system_fold.
  rewrite List.filter_In, <- list_elem_of_In, elem_of_elements.
  tauto.
Qed.

(** C4.  After [cleanup_old_redump_dat] has run for a newly downloaded
    file, the new file is still there, every other [.dat] file of the
    download directory with the same normalized system name is gone, so the
    [.dat] files of that system are the new file alone, and every file with
    a different normalized system name is where it was. *)
Theorem C4_one_redump_dat_per_system new_dat (output_dir : gset string) :
  new_dat ∈ output_dir ->
  is_dat new_dat = true ->
  new_dat ∈ after_redump_cleanup new_dat output_dir
  /\ (forall f,
        f ∈ output_dir -> is_dat f = true -> f <> new_dat ->
        redump_system f = redump_system new_dat ->
        f ∉ after_redump_cleanup new_dat output_dir)
  /\ (forall f,
        f ∈ after_redump_cleanup new_dat output_dir /\ is_dat f = true
        /\ redump_system f = redump_system new_dat
        <-> f = new_dat)
  /\ (forall f,
        redump_system f <> redump_system new_dat ->
        (f ∈ after_redump_cleanup new_dat output_dir <-> f ∈ output_dir)).
Proof.
  intros Hnew Hdat. repeat split.
  - apply after_redump_cleanup_spec; [exact Hnew|]. split; [exact Hnew|].
    intros (_ & Hne & _). congruence.
  - intros f Hf Hd Hne Hs Hin.
    apply after_redump_cleanup_spec in Hin as [_ Hin]; [|exact Hnew].
    apply Hin. auto.
  - intros (Hin & Hd & Hs).
    apply after_redump_cleanup_spec in Hin as [_ Hin]; [|exact Hnew].
    destruct (decide (f = new_dat)) as [|Hne]; [assumption|].
    exfalso. apply Hin. auto.
  - subst f. apply after_redump_cleanup_spec; [exact Hnew|].
    split; [exact Hnew|]. intros (_ & Hne & _). congruence.
  - subst f. exact Hdat.
  - subst f. reflexivity.
  - intros Hin. apply after_redump_cleanup_spec in Hin; tauto.
  - intros Hin. apply after_redump_cleanup_spec; [exact Hnew|].
    split; [exact Hin|]. tauto.
Qed.


(** C4 at a directory with an older PlayStation file: the new file stays,
    the older one goes. *)
Lemma C4_one_redump_dat_per_system_witness :
  "Sony - PlayStation (2025-10-23 18-11-28) - Datfile (77).dat"
    ∈ after_redump_cleanup
        "Sony - PlayStation (2025-10-23 18-11-28) - Datfile (77).dat"
        example_downloads
  /\ "Sony - PlayStation (2025-09-01 10-00-00) - Datfile (70).dat"
       ∉ after_redump_cleanup
           "Sony - PlayStation (2025-10-23 18-11-28) - Datfile (77).dat"
           example_downloads.
Proof.
  assert (Hin : "Sony - PlayStation (2025-10-23 18-11-28) - Datfile (77).dat"
                  ∈ example_downloads)
    by (unfold example_downloads; set_solver).
  assert (Hdat : is_dat "Sony - PlayStation (2025-10-23 18-11-28) - Datfile (77).dat"
                 = true) by (vm_compute; reflexivity).
  destruct (C4_one_redump_dat_per_system _ _ Hin Hdat) as (H1 & H2 & _).
  split; [exact H1|].
  apply H2.
  - unfold example_downloads; set_solver.
  - vm_compute; reflexivity.
  - discriminate.
  - vm_compute; reflexivity.
Defined.


(** ** The exit code of the process *)

Import Main.

Lemma preload_config_settings_no_exit e configs collections code :
  preload_config_settings e configs collections <> SystemExit code.
Proof.
  induction configs as [|[nm dir] cs IH]; simpl; [congruence|].
  destruct (load_filters_config e dir); simpl; [|congruence].
  destruct (preload_config_settings e cs collections); simpl; congruence.
Qed.

Lemma process_pairs_no_exit e cd ss script :
  forall t acc code, process_pairs e cd ss script t acc <> SystemExit code.
Proof.
  induction ss as [|[[cn col] st] ss IH]; intros t acc code; simpl;
    [congruence|].
  destruct (lookup_dats cd col) as [|d ds]; [apply IH|].
  unfold process_pair.
  destruct (copy_user_config e cn); simpl; [|congruence].
  destruct (pass_fault e (cn, col)); simpl; [congruence|]. apply IH.
Qed.

(** Once Retool is in place nothing calls [sys.exit]. *)
Lemma process_configurations_no_exit e configs cd script t code :
  process_configurations e configs cd script t <> SystemExit code.
Proof.
  unfold process_configurations.
  destruct (install_retool_dependencies e); simpl; [|congruence].
  destruct (update_retool_main e); simpl; [|congruence].
  destruct (update_retool_clone_lists e); simpl; [|congruence].
  destruct (preload_config_settings e configs DAT_COLLECTIONS) eqn:Hp; simpl;
    [|exfalso; eapply preload_config_settings_no_exit; exact Hp|congruence].
  match goal with
  | |- context [process_pairs ?a ?b ?c ?d ?f ?g] =>
      destruct (process_pairs a b c d f g) eqn:Hq
  end; simpl; [|exfalso; eapply process_pairs_no_exit; exact Hq|congruence].
  destruct (remove_retool_user_config e); simpl; congruence.
Qed.

Lemma total_dats_zero redump_dats no_intro_dats :
  (list_sum (List.map (fun kv : string * list string => List.length (snd kv))
                      (collection_dats_of redump_dats no_intro_dats)) =? 0)%nat
  = true
  <-> redump_dats = [] /\ no_intro_dats = [].
Proof.
  unfold collection_dats_of.
  destruct redump_dats, no_intro_dats; simpl; split;
    try (intros [? ?]; congruence); try discriminate; auto.
Qed.

(** [main] calls [sys.exit] only with code 1, and exactly for one of the
    three terminal failures. *)
Lemma main_exit_causes e script t code :
  main e script t = SystemExit code <->
  code = 1%Z /\ (no_configurations e \/ no_dats_available e \/ setup_failure e).
Proof.
  unfold main, collect, no_configurations, no_dats_available, setup_failure.
  simpl.
  destruct (discover_configs e) as [[|c cs]|]; simpl.
  - split; [intros [= <-]; auto | intros [-> _]; reflexivity].
  - destruct (download_all_redump_dats e) as [r|]; simpl.
    2:{ split; [discriminate|].
        intros [_ [H|[(x & H & _ & H' & _)|(x & y & z & _ & _ & H' & _)]]];
          congruence. }
    destruct (download_no_intro_dats e) as [n|]; simpl.
    2:{ split; [discriminate|].
        intros [_ [H|[(x & H & _ & _ & H')|(x & y & z & _ & _ & _ & H' & _)]]];
          congruence. }
    destruct (_ =? 0)%nat eqn:Ht.
    + apply total_dats_zero in Ht as [-> ->].
      split; [intros [= <-]; split; [reflexivity|] | intros [-> _]; reflexivity].
      right. left. exists (c :: cs). repeat split; congruence.
    + assert (Hnz : r <> [] \/ n <> []).
      { destruct r; [|left; congruence]. destruct n; [|right; congruence].
        exfalso. assert (true = false) by
          (rewrite <- Ht; symmetry; apply total_dats_zero; auto).
        discriminate. }
      destruct (clone_retool_if_needed e) as [[|]|] eqn:Hc; simpl.
      * split.
        -- intros H. exfalso. eapply process_configurations_no_exit. exact H.
        -- intros [_ [H|[(x & _ & _ & [= ->] & [= ->])
                        |(x & y & z & _ & _ & _ & _ & _ & H)]]];
             try congruence. destruct Hnz; congruence.
      * split; [intros [= <-]; split; [reflexivity|] | intros [-> _]; reflexivity].
        right. right. exists (c :: cs), r, n. repeat split; congruence.
      * split; [discriminate|].
        intros [_ [H|[(x & _ & _ & [= ->] & [= ->])
                     |(x & y & z & _ & _ & _ & _ & _ & H)]]];
          try congruence. destruct Hnz; congruence.
  - split; [discriminate|].
    intros [_ [H|[(x & H & _)|(x & y & z & H & _)]]]; congruence.
Qed.

(** C9.  The exit code is 0 or 1.  It is 0 exactly when [main] returns,
    whatever the buckets of failed files hold.  It is 1 exactly when no
    valid configuration was discovered, or no DAT file of any collection is
    available, or Retool could not be set up, or a keyboard interrupt or
    another exception propagates out of [main]. *)
Theorem C9_exit_code e script t :
  (exit_code e script t = 0%Z \/ exit_code e script t = 1%Z)
  /\ (exit_code e script t = 0%Z <-> exists r, main e script t = Ret r)
  /\ (forall r, main e script t = Ret r -> exit_code e script t = 0%Z)
  /\ (exit_code e script t = 1%Z <->
      no_configurations e \/ no_dats_available e \/ setup_failure e
      \/ main e script t = Raise KeyboardInterrupt
      \/ exists msg, main e script t = Raise (Exception msg)).
Proof.
  pose proof (main_exit_causes e script t) as Hexit.
  unfold exit_code.
  destruct (main e script t) as [r|code|[|msg]] eqn:Hm.
  - split; [left; reflexivity|]. split; [split; eauto|].
    split; [reflexivity|]. split; [discriminate|].
    intros [H|[H|[H|[H|[msg H]]]]]; try discriminate;
      exfalso; assert (Ret r = SystemExit 1%Z :> ending (trees * list (string * string * results)))
        as Habs by (apply Hexit; auto); discriminate.
  - destruct (proj1 (Hexit code) eq_refl) as [-> Hc].
    split; [right; reflexivity|].
    split; [split; [discriminate | intros [r H]; discriminate]|].
    split; [discriminate|]. split; [intros _; tauto | reflexivity].
  - split; [right; reflexivity|].
    split; [split; [discriminate | intros [r H]; discriminate]|].
    split; [discriminate|]. split; [intros _; tauto | reflexivity].
  - split; [right; reflexivity|].
    split; [split; [discriminate | intros [r H]; discriminate]|].
    split; [discriminate|].
    split; [intros _; right; right; right; right; eauto | reflexivity].
Qed.

(** C9 at a run in which Retool fails on the one file there is: [main]
    returns with that file in the "failed" bucket, and the exit code is 0. *)
Lemma C9_exit_code_witness :
  exit_code example_env true ∅ = 0%Z.
Proof.
  apply (proj2 (proj1 (proj2 (C9_exit_code example_env true ∅)))).
  eexists. vm_compute. reflexivity.
Defined.


(** ** Idempotence of the normalizer *)

Lemma run_Lit_mismatch {A} (l : string) :
  forall (k : @cont A) pos s,
    startswith l s = false -> run (Lit l) k pos s = None.
Proof.
  induction l as [|c l IH]; intros k pos s H; simpl in *; [discriminate|].
  destruct s as [|a s]; [reflexivity|].
  rewrite Ascii.eqb_sym.
  destruct (Ascii.eqb c a); simpl in *; [apply IH; exact H | reflexivity].
Qed.

Lemma contains_cons_false p c s :
  contains p (String c s) = false ->
  startswith p (String c s) = false /\ contains p s = false.
Proof.
  cbn [contains]. intros H. apply orb_false_iff in H. exact H.
Qed.

Lemma contains_false_startswith p s :
  contains p s = false -> startswith p s = false.
Proof.
  destruct s; cbn [contains]; intros H; apply orb_false_iff in H; tauto.
Qed.

(** A pattern that matches nowhere leaves the text as it is. *)
Lemma sub_from_no_match r repl s :
  forall pos,
    (forall n, match_at r (pos + n) (drop n s) = None) ->
    sub_from r repl 0 pos s = s.
Proof.
  induction s as [|c s IH]; intros pos H.
  - simpl. specialize (H 0). rewrite Nat.add_0_r in H. simpl in H.
    now rewrite H.
  - cbn [sub_from]. pose proof (H 0) as H0. rewrite Nat.add_0_r in H0.
    simpl in H0. rewrite H0. f_equal. apply IH. intros n.
    specialize (H (S n)). simpl in H.
    now replace (S pos + n) with (pos + S n) by lia.
Qed.


Lemma contains_drop_false p s n :
  contains p s = false -> contains p (drop n s) = false.
Proof.
  revert s. induction n as [|n IH]; intros s H; destruct s; simpl; auto.
  apply IH. apply contains_cons_false in H. tauto.
Qed.

(** A pattern that opens with a literal matches nowhere in a text that
    does not contain the literal. *)
Lemma literal_absent_no_match l r s pos n :
  contains l s = false ->
  match_at (Seq (Lit l) r) (pos + n) (drop n s) = None.
Proof.
  intros H. unfold match_at. cbn [run].
  apply run_Lit_mismatch, contains_false_startswith, contains_drop_false, H.
Qed.

Lemma has_paren_digit_drop s n :
  has_paren_digit s = false -> has_paren_digit (drop n s) = false.
Proof.
  revert s. induction n as [|n IH]; intros s H; destruct s; simpl; auto.
  apply IH. simpl in H. apply orb_false_iff in H. tauto.
Qed.













(** ** The message of the no-valid-titles example *)

Lemma append_assoc' (a b c : string) : ((a ++ b) ++ c = a ++ (b ++ c))%string.
Proof.
  induction a as [|x a IH]; cbn [String.append]; [reflexivity | now rewrite IH].
Qed.

Lemma blank_app a b : blank (a ++ b) = blank a && blank b.
Proof.
  induction a as [|c a IH]; cbn [String.append blank]; [reflexivity|].
  rewrite IH. now rewrite andb_assoc.
Qed.

Lemma blank_replace_from old new s :
  blank new = true -> blank s = true ->
  forall k, blank (replace_from old new k s) = true.
Proof.
  intros Hn. induction s as [|c s IH]; intros Hs k; simpl; [reflexivity|].
  simpl in Hs. apply andb_true_iff in Hs as [Hc Hs].
  destruct k; [|now apply IH].
  destruct (startswith old (String c s)).
  - rewrite blank_app, Hn. simpl. now apply IH.
  - simpl. rewrite Hc. simpl. now apply IH.
Qed.







Lemma rstrip_blank b : blank b = true -> rstrip b = EmptyString.
Proof.
  induction b as [|c b IH]; simpl; [reflexivity|].
  intros H. apply andb_true_iff in H as [Hc Hb].
  rewrite (IH Hb), Hc. reflexivity.
Qed.

Lemma rstrip_app_blank x b : blank b = true -> rstrip (x ++ b) = rstrip x.
Proof.
  intros Hb. induction x as [|c x IH]; cbn [String.append rstrip];
    [now apply rstrip_blank|].
  now rewrite IH.
Qed.







Lemma contains_blank p0 p t :
  is_space p0 = false -> blank t = true -> contains (String p0 p) t = false.
Proof.
  intros Hp. induction t as [|x t IH]; intros Ht; [reflexivity|].
  simpl in Ht. apply andb_true_iff in Ht as [Hx Ht].
  cbn [contains startswith].
  destruct (Ascii.eqb p0 x) eqn:E.
  - apply Ascii.eqb_eq in E. congruence.
  - simpl. now apply IH.
Qed.







(** ** Retention of reports *)

Local Open Scope list_scope.

Lemma insert_desc_perm x l : Permutation (insert_desc x l) (x :: l).
Proof.
  induction l as [|y l IH]; simpl; [reflexivity|].
  destruct (snd y <=? snd x)%Z; [reflexivity|].
  rewrite IH. apply perm_swap.
Qed.

Lemma sort_desc_perm l : Permutation (sort_desc l) l.
Proof.
  induction l as [|x l IH]; simpl; [reflexivity|].
  rewrite insert_desc_perm. now apply perm_skip.
Qed.

Lemma insert_desc_sorted x l :
  StronglySorted later_first l -> StronglySorted later_first (insert_desc x l).
Proof.
  induction 1 as [|y l Hl IH Hy]; simpl.
  - constructor; constructor.
  - destruct (Z.leb_spec (snd y) (snd x)) as [Hle|Hlt].
    + constructor; [constructor; assumption|].
      constructor; [exact Hle|].
      eapply List.Forall_impl; [|exact Hy]. unfold later_first. intros z Hz. lia.
    + constructor; [exact IH|].
      rewrite List.Forall_forall. intros z Hz.
      apply (Permutation_in _ (insert_desc_perm x l)) in Hz.
      destruct Hz as [<-|Hz]; [unfold later_first; lia|].
      rewrite List.Forall_forall in Hy. now apply Hy.
Qed.

Lemma sort_desc_sorted l : StronglySorted later_first (sort_desc l).
Proof.
  induction l as [|x l IH]; simpl; [constructor|].
  now apply insert_desc_sorted.
Qed.

Lemma sorted_app_order (l1 l2 : list (string * Z)) :
  StronglySorted later_first (l1 ++ l2) ->
  forall a b, In a l1 -> In b l2 -> later_first a b.
Proof.
  induction l1 as [|x l1 IH]; simpl; intros Hs a b Ha Hb; [contradiction|].
  inversion Hs as [|? ? Hs' Hx]; subst.
  destruct Ha as [<-|Ha].
  - rewrite List.Forall_forall in Hx. apply Hx. apply in_or_app. now right.
  - now apply IH.
Qed.

Lemma add_to_group_lookup key f groups k :
  group_lookup k (add_to_group key f groups)
  = if String.eqb key k then group_lookup k groups ++ [f]
    else group_lookup k groups.
Proof.
  unfold group_lookup.
  induction groups as [|[k' fs] rest IH]; simpl.
  - destruct (String.eqb key k); reflexivity.
  - destruct (String.eqb_spec k' key) as [->|Hne]; simpl.
    + destruct (String.eqb key k); reflexivity.
    + destruct (String.eqb_spec k' k) as [->|Hne'].
      * destruct (String.eqb_spec key k); [congruence | reflexivity].
      * exact IH.
Qed.

Lemma add_to_group_keys key f groups k :
  In k (List.map fst (add_to_group key f groups))
  <-> k = key \/ In k (List.map fst groups).
Proof.
  induction groups as [|[k' fs] rest IH]; simpl.
  - intuition.
  - destruct (String.eqb_spec k' key) as [->|Hne]; simpl.
    + intuition.
    + rewrite IH. intuition.
Qed.

Lemma add_to_group_nodup key f groups :
  List.NoDup (List.map fst groups) ->
  List.NoDup (List.map fst (add_to_group key f groups)).
Proof.
  induction groups as [|[k' fs] rest IH]; simpl; intros H.
  - constructor; [simpl; tauto | constructor].
  - apply List.NoDup_cons_iff in H as [Hk Hr].
    destruct (String.eqb_spec k' key) as [->|Hne]; simpl.
    + apply List.NoDup_cons_iff. split; assumption.
    + apply List.NoDup_cons_iff. split; [|now apply IH].
      rewrite add_to_group_keys. intros [->|Hin]; [congruence | contradiction].
Qed.

Lemma group_files_fold collection files :
  forall groups,
    List.NoDup (List.map fst groups) ->
    let result :=
      fold_left
        (fun groups f =>
           add_to_group (normalized_system (stem (fst f)) collection) f groups)
        files groups in
    List.NoDup (List.map fst result)
    /\ forall k,
         group_lookup k result
         = group_lookup k groups
           ++ List.filter (fun f => String.eqb (report_key collection f) k) files.
Proof.
  induction files as [|f files IH]; intros groups Hnd; simpl.
  - split; [exact Hnd|]. intros k. now rewrite List.app_nil_r.
  - destruct (IH (add_to_group (normalized_system (stem (fst f)) collection)
                               f groups)
                 (add_to_group_nodup _ _ _ Hnd)) as [Hnd' Hl].
    split; [exact Hnd'|]. intros k. rewrite Hl, add_to_group_lookup.
    unfold report_key.
    destruct (String.eqb _ k); [now rewrite <- List.app_assoc | reflexivity].
Qed.

Lemma group_files_spec collection files :
  List.NoDup (List.map fst (group_files collection files))
  /\ forall k,
       group_lookup k (group_files collection files)
       = List.filter (fun f => String.eqb (report_key collection f) k) files.
Proof.
  unfold group_files.
  destruct (group_files_fold collection files [] (List.NoDup_nil _)) as [H1 H2].
  split; [exact H1|]. intros k. now rewrite H2.
Qed.

Lemma group_lookup_in k v groups :
  List.NoDup (List.map fst groups) -> In (k, v) groups ->
  group_lookup k groups = v.
Proof.
  unfold group_lookup.
  induction groups as [|[k' v'] rest IH]; simpl; intros Hnd Hin; [contradiction|].
  apply List.NoDup_cons_iff in Hnd as [Hk Hr].
  destruct Hin as [[= -> ->]|Hin].
  - now rewrite String.eqb_refl.
  - destruct (String.eqb_spec k' k) as [->|Hne]; [|now apply IH].
    exfalso. apply Hk. apply List.in_map_iff. now exists (k, v).
Qed.

Lemma group_lookup_nonempty k groups :
  group_lookup k groups <> [] -> In (k, group_lookup k groups) groups.
Proof.
  unfold group_lookup.
  induction groups as [|[k' v'] rest IH]; simpl; intros H; [congruence|].
  destruct (String.eqb_spec k' k) as [->|Hne]; [now left|].
  right. now apply IH.
Qed.

(** The two nested loops delete the files of [files_to_delete] of every
    group. *)
Lemma delete_loop_flat (step : list (string * Z) * nat -> string * Z ->
                               list (string * Z) * nat)
    (to_delete : list (string * Z) -> list (string * Z))
    (groups : list (string * list (string * Z))) :
  forall st,
    fold_left (fun st group => fold_left step (to_delete (snd group)) st)
              groups st
    = fold_left step (List.concat (List.map (fun g => to_delete (snd g)) groups)) st.
Proof.
  induction groups as [|g groups IH]; intros st; simpl; [reflexivity|].
  now rewrite IH, List.fold_left_app.
Qed.

Lemma filter_filter' {A} (p q : A -> bool) (l : list A) :
  List.filter p (List.filter q l) = List.filter (fun x => q x && p x) l.
Proof.
  induction l as [|x l IH]; simpl; [reflexivity|].
  destruct (q x); simpl; [destruct (p x)|]; now rewrite IH.
Qed.

Lemma unlink_loop deleted :
  forall listing n,
    fold_left (fun '(listing, deleted_count) (file_to_delete : string * Z) =>
                 (remove_file (fst file_to_delete) listing, S deleted_count))
              deleted (listing, n)
    = (List.filter (kept deleted) listing, n + List.length deleted).
Proof.
  induction deleted as [|d deleted IH]; intros listing n; simpl.
  - f_equal; [|lia]. induction listing as [|x l IHl]; simpl; congruence.
  - rewrite IH. f_equal; [|lia]. unfold remove_file.
    rewrite filter_filter'. apply List.filter_ext. intros x.
    unfold kept. simpl. rewrite negb_orb. now rewrite String.eqb_sym.
Qed.

Lemma filter_kept_nil (l : list (string * Z)) : List.filter (kept []) l = l.
Proof. induction l as [|x l IH]; simpl; congruence. Qed.

Lemma after_cleanup_filter listing pattern keep_count collection :
  after_cleanup listing pattern keep_count collection
  = List.filter (kept (all_deleted listing pattern keep_count collection)) listing.
Proof.
  unfold after_cleanup, all_deleted, cleanup_old_files.
  destruct (List.filter (fun f => pattern (fst f)) listing) as [|f fs] eqn:Hf.
  - simpl. now rewrite filter_kept_nil.
  - rewrite (delete_loop_flat _ (files_to_delete keep_count)).
    rewrite unlink_loop. reflexivity.
Qed.

Lemma in_skipn_in {A} (n : nat) (l : list A) (x : A) :
  In x (skipn n l) -> In x l.
Proof.
  intros H. rewrite <- (List.firstn_skipn n l). apply in_or_app. now right.
Qed.

Lemma files_to_delete_incl keep_count l x :
  In x (files_to_delete keep_count l) -> In x l.
Proof.
  unfold files_to_delete, slice_from. intros H.
  destruct (Z.of_nat (List.length l) <=? keep_count)%Z; [contradiction|].
  apply (Permutation_in _ (sort_desc_perm l)).
  destruct (0 <=? keep_count)%Z; eapply in_skipn_in; exact H.
Qed.

Lemma kept_false_iff deleted x :
  kept deleted x = false <-> exists d, In d deleted /\ fst d = fst x.
Proof.
  unfold kept. rewrite negb_false_iff, List.existsb_exists.
  split; intros (d & Hd & He); exists d; (split; [exact Hd|]).
  - now apply String.eqb_eq.
  - now apply String.eqb_eq.
Qed.

Lemma nodup_names_eq (l : list (string * Z)) x y :
  List.NoDup (List.map fst l) -> In x l -> In y l -> fst x = fst y -> x = y.
Proof.
  induction l as [|z l IH]; simpl; intros Hnd Hx Hy He; [contradiction|].
  apply List.NoDup_cons_iff in Hnd as [Hz Hl].
  destruct Hx as [<-|Hx], Hy as [<-|Hy]; auto.
  - exfalso. apply Hz. rewrite He. now apply List.in_map.
  - exfalso. apply Hz. rewrite <- He. now apply List.in_map.
Qed.

Lemma report_group_split pattern collection key listing :
  report_group pattern collection key listing
  = List.filter (fun f => String.eqb (report_key collection f) key)
                (List.filter (fun f => pattern (fst f)) listing).
Proof. unfold report_group. now rewrite filter_filter'. Qed.

(** On the files of one group, what is deleted anywhere is what the group
    itself gives up. *)
Lemma kept_in_group listing pattern keep_count collection key x :
  List.NoDup (List.map fst listing) ->
  In x (report_group pattern collection key listing) ->
  kept (all_deleted listing pattern keep_count collection) x
  = kept (files_to_delete keep_count
            (report_group pattern collection key listing)) x.
Proof.
  intros Hnd Hx.
  set (files := List.filter (fun f => pattern (fst f)) listing).
  destruct (group_files_spec collection files) as [Hkeys Hlook].
  assert (Hgrp : report_group pattern collection key listing
                 = group_lookup key (group_files collection files)).
  { now rewrite Hlook, report_group_split. }
  assert (Hxl : In x listing).
  { unfold report_group in Hx. apply List.filter_In in Hx. tauto. }
  assert (Hxk : report_key collection x = key).
  { unfold report_group in Hx. apply List.filter_In in Hx as [_ Hx].
    apply andb_true_iff in Hx as [_ Hx]. now apply String.eqb_eq. }
  destruct (kept (files_to_delete keep_count
                    (report_group pattern collection key listing)) x) eqn:Hk.
  - destruct (kept (all_deleted listing pattern keep_count collection) x)
      eqn:Hk'; [reflexivity|]. exfalso.
    apply kept_false_iff in Hk' as (d & Hd & He).
    unfold all_deleted in Hd. fold files in Hd.
    apply List.in_concat in Hd as (ds & Hds & Hdin).
    apply List.in_map_iff in Hds as ([k v] & <- & Hg). simpl in Hdin.
    pose proof (group_lookup_in k v _ Hkeys Hg) as Hv.
    rewrite Hlook in Hv.
    pose proof (files_to_delete_incl _ _ _ Hdin) as Hdv.
    rewrite <- Hv in Hdv. apply List.filter_In in Hdv as [Hdf Hdk].
    apply String.eqb_eq in Hdk.
    assert (Hdl : In d listing).
    { unfold files in Hdf. apply List.filter_In in Hdf. tauto. }
    assert (d = x) as -> by (eapply nodup_names_eq; eauto).
    assert (k = key) as -> by congruence.
    assert (v = report_group pattern collection key listing) as ->
      by (rewrite Hgrp, Hlook; congruence).
    assert (kept (files_to_delete keep_count
                    (report_group pattern collection key listing)) x = false)
      as Habs by (apply kept_false_iff; eauto).
    congruence.
  - apply kept_false_iff in Hk as (d & Hd & He).
    apply kept_false_iff. exists d. split; [|exact He].
    unfold all_deleted. fold files. apply List.in_concat.
    exists (files_to_delete keep_count
              (report_group pattern collection key listing)).
    split; [|exact Hd]. apply List.in_map_iff.
    exists (key, report_group pattern collection key listing).
    split; [reflexivity|]. rewrite Hgrp. apply group_lookup_nonempty.
    rewrite <- Hgrp. intros Hnil. rewrite Hnil in Hx. contradiction.
Qed.

(** The group after the cleanup: what it had, less what it gave up. *)
Lemma report_group_after listing pattern keep_count collection key :
  List.NoDup (List.map fst listing) ->
  report_group pattern collection key
    (after_cleanup listing pattern keep_count collection)
  = List.filter
      (kept (files_to_delete keep_count
               (report_group pattern collection key listing)))
      (report_group pattern collection key listing).
Proof.
  intros Hnd. rewrite after_cleanup_filter. unfold report_group at 1.
  rewrite filter_filter'.
  rewrite (List.filter_ext
             (fun x => kept (all_deleted listing pattern keep_count collection) x
                       && (pattern (fst x)
                           && String.eqb (report_key collection x) key))
             (fun x => (pattern (fst x)
                        && String.eqb (report_key collection x) key)
                       && kept (all_deleted listing pattern keep_count collection) x))
    by (intros x; apply andb_comm).
  rewrite <- filter_filter'. fold (report_group pattern collection key listing).
  apply List.filter_ext_in. intros x Hx. now apply kept_in_group.
Qed.

Lemma permutation_filter {A} (p : A -> bool) (l l' : list A) :
  Permutation l l' -> Permutation (List.filter p l) (List.filter p l').
Proof.
  induction 1 as [|x l l' H IH|x y l|l l' l'' H1 IH1 H2 IH2]; simpl.
  - constructor.
  - destruct (p x); [now constructor | exact IH].
  - destruct (p x), (p y); try reflexivity. apply perm_swap.
  - now transitivity (List.filter p l').
Qed.

Lemma nodup_names_app_l (a t : list (string * Z)) x :
  List.NoDup (List.map fst (a ++ t)) -> In x a -> kept t x = true.
Proof.
  intros Hnd Hx. destruct (kept t x) eqn:Hk; [reflexivity|]. exfalso.
  apply kept_false_iff in Hk as (d & Hd & He).
  rewrite List.map_app in Hnd.
  induction a as [|y a IH]; [contradiction|].
  simpl in Hnd. apply List.NoDup_cons_iff in Hnd as [Hy Ha].
  destruct Hx as [->|Hx]; [|now apply IH].
  apply Hy. apply in_or_app. right. rewrite <- He. now apply List.in_map.
Qed.

Lemma filter_kept_split (a t : list (string * Z)) :
  List.NoDup (List.map fst (a ++ t)) -> List.filter (kept t) (a ++ t) = a.
Proof.
  intros Hnd. rewrite List.filter_app.
  assert (Ha : List.filter (kept t) a = a).
  { assert (H : forall x, In x a -> kept t x = true)
      by (intros x Hx; eapply nodup_names_app_l; eauto).
    clear Hnd. induction a as [|y a IH]; simpl; [reflexivity|].
    rewrite (H y) by now left. f_equal. apply IH. intros x Hx. apply H. now right. }
  assert (Ht : List.filter (kept t) t = []).
  { assert (H : forall x, In x t -> kept t x = false)
      by (intros x Hx; apply kept_false_iff; eauto).
    clear Hnd Ha. generalize dependent (kept t). intros k H.
    induction t as [|y t IH]; simpl; [reflexivity|].
    rewrite (H y) by now left. apply IH. intros x Hx. apply H. now right. }
  rewrite Ha, Ht. apply List.app_nil_r.
Qed.

(** What one group keeps: the first [keep_count] of its files, latest
    first. *)
Lemma group_keeps_latest (before : list (string * Z)) (keep_count : Z) :
  (0 <= keep_count)%Z ->
  List.NoDup (List.map fst before) ->
  Permutation
    (List.filter (kept (files_to_delete keep_count before)) before)
    (firstn (Z.to_nat keep_count) (sort_desc before))
  /\ (forall g,
        In g before ->
        ~ In g (List.filter (kept (files_to_delete keep_count before)) before) ->
        In g (skipn (Z.to_nat keep_count) (sort_desc before))).
Proof.
  intros Hk Hnd. unfold files_to_delete, slice_from.
  pose proof (sort_desc_perm before) as Hperm.
  destruct (Z.leb_spec (Z.of_nat (List.length before)) keep_count) as [Hle|Hgt].
  - rewrite filter_kept_nil. split.
    + rewrite List.firstn_all2; [now symmetry|].
      rewrite (Permutation_length Hperm). lia.
    + intros g Hg Hn. contradiction.
  - destruct (Z.leb_spec 0 keep_count) as [_|Hneg]; [|lia].
    set (n := Z.to_nat keep_count). set (s := sort_desc before) in *.
    assert (Hs : List.NoDup (List.map fst (firstn n s ++ skipn n s))).
    { rewrite List.firstn_skipn.
      eapply Permutation_NoDup; [|exact Hnd].
      apply Permutation_map. now symmetry. }
    assert (Hfs : Permutation (List.filter (kept (skipn n s)) before) (firstn n s)).
    { rewrite (permutation_filter _ _ _ (Permutation_sym Hperm)).
      rewrite <- (List.firstn_skipn n s) at 2.
      now rewrite filter_kept_split. }
    split; [exact Hfs|].
    intros g Hg Hn.
    apply (Permutation_in _ (Permutation_sym Hperm)) in Hg.
    rewrite <- (List.firstn_skipn n s) in Hg.
    apply in_app_or in Hg as [Hg|Hg]; [|exact Hg].
    exfalso. apply Hn. eapply Permutation_in; [symmetry; exact Hfs | exact Hg].
Qed.

Lemma nodup_names_filter (p : string * Z -> bool) (l : list (string * Z)) :
  List.NoDup (List.map fst l) -> List.NoDup (List.map fst (List.filter p l)).
Proof.
  induction l as [|x l IH]; simpl; intros H; [constructor|].
  apply List.NoDup_cons_iff in H as [Hx Hl].
  destruct (p x); simpl; [|now apply IH].
  apply List.NoDup_cons_iff. split; [|now apply IH].
  intros Hin. apply Hx. apply List.in_map_iff in Hin as (y & He & Hy).
  apply List.filter_In in Hy as [Hy _]. apply List.in_map_iff. eauto.
Qed.

(** ** One processed DAT and one entry per system *)

Local Open Scope string_scope.







Lemma rfind_from_dat p :
  forall pos, rfind_from "." pos (p ++ ".dat") = Some (pos + String.length p).
Proof.
  induction p as [|c p IH]; intros pos; simpl.
  - f_equal. lia.
  - rewrite IH. f_equal. lia.
Qed.

Lemma length_append_s a b :
  String.length (a ++ b) = String.length a + String.length b.
Proof. induction a as [|c a IH]; simpl; [reflexivity | now rewrite IH]. Qed.

Lemma drop_append_s a b : drop (String.length a) (a ++ b) = b.
Proof. induction a as [|c a IH]; simpl; [now destruct b | exact IH]. Qed.



Lemma is_dat_append x : is_dat (x ++ ".dat") = true.
Proof.
  unfold is_dat, endswith. rewrite length_append_s. cbn [String.length].
  apply andb_true_intro. split; [apply Nat.leb_le; lia|].
  replace (String.length x + 4 - 4) with (String.length x) by lia.
  rewrite drop_append_s. reflexivity.
Qed.

Lemma processed_name_is_dat config_name system_name :
  is_dat (processed_name config_name system_name) = true.
Proof.
  unfold processed_name, new_name.
  destruct (negb (is_empty config_name)); [|apply is_dat_append].
  replace (system_name ++ " (Fresh1G1R - " ++ config_name ++ ")" ++ ".dat")
    with ((system_name ++ " (Fresh1G1R - " ++ config_name ++ ")") ++ ".dat")
    by (rewrite !append_assoc'; reflexivity).
  apply is_dat_append.
Qed.

Lemma remove_existing_other d nm f :
  f <> nm -> files (remove_existing d nm) !! f = files d !! f.
Proof.
  intros Hne. unfold remove_existing, unlink.
  destruct (file_exists d nm); [|reflexivity]. simpl.
  now apply lookup_delete_ne.
Qed.

Section Invariant.
Variables collection config_name : string.
Hypothesis config_named : config_name <> EmptyString.









End Invariant.






Lemma fold_max_in (rest : list (string * Z)) :
  forall p,
    In (fold_left (fun best q => if (snd best <? snd q)%Z then q else best) rest p)
       (p :: rest).
Proof.
  induction rest as [|q rest IH]; intros p; simpl; [now left|].
  destruct (snd p <? snd q)%Z.
  - right. apply IH.
  - destruct (IH p) as [H|H]; [now left | right; now right].
Qed.

Lemma max_by_mtime_in paths x : max_by_mtime paths = Some x -> In x paths.
Proof.
  destruct paths as [|p rest]; simpl; [discriminate|].
  intros [= <-]. apply fold_max_in.
Qed.

Section Passes.
Variables collection config_name : string.
Variable d0 : outdir.




End Passes.



(** C3 (as stated, refuted).  The invariant is not kept by every write.
    The directory holds one entry and one [.dat] file of its system, the
    file under the name of another configuration.  The writes of
    [run_retool] for a newer input of the system put the file with the
    constant name beside it; so does the loop body of [main] over both
    inputs, which preserves the recorded file, skips its input and
    processes the newer one.  Two [.dat] files of the system are left, by
    the inputs they were made from and by their names alike. *)
Theorem C3_stale_name_leaves_two_dats :
  List.length (entries_of stale_outdir "Acorn - Archimedes") = 1
  /\ List.map fst (dats_of "no-intro" stale_outdir "Acorn - Archimedes")
     = ["Acorn - Archimedes (Fresh1G1R - old).dat"]
  /\ List.map fst
       (dats_of "no-intro"
          (List.last
             (output_writes stale_outdir "out.dat"
                "Acorn - Archimedes (20240101-000000).dat" "no-intro" "cfg")
             stale_outdir)
          "Acorn - Archimedes")
     = ["Acorn - Archimedes (Fresh1G1R - old).dat";
        "Acorn - Archimedes (Fresh1G1R - cfg).dat"]
  /\ (exists r,
        process_pair example_env_success "cfg" "no-intro" two_inputs
          (World true (Some stale_outdir) None [])
        = Ret r
        /\ List.map fst (skipped (snd r))
           = ["Acorn - Archimedes (20231029-220453).dat"]
        /\ List.map (fun x => fst (fst x)) (successful (snd r))
           = ["Acorn - Archimedes (20240101-000000).dat"]
        /\ List.map fst
             (dats_of "no-intro" (mkdir (output_dat_dir (fst r)))
                "Acorn - Archimedes")
           = ["Acorn - Archimedes (Fresh1G1R - old).dat";
              "Acorn - Archimedes (Fresh1G1R - cfg).dat"])
  /\ List.map (fun f => extract_system_name (stem f) "no-intro")
       ["Acorn - Archimedes (Fresh1G1R - old).dat";
        "Acorn - Archimedes (Fresh1G1R - cfg).dat"]
     = ["Acorn - Archimedes"; "Acorn - Archimedes"].
Proof.
  split; [vm_compute; reflexivity|].
  split; [vm_compute; reflexivity|].
  split; [vm_compute; reflexivity|].
  split; [|vm_compute; reflexivity].
  eexists. split; [vm_compute; reflexivity|].
  split; [vm_compute; reflexivity|].
  split; vm_compute; reflexivity.
Qed.





(** ** A run, then a rerun *)

(** The directory [run_retool] leaves when the script is in place and the
    run completes with a DAT in the temporary directory. *)
Lemma run_retool_dat_written retool input_dat collection config_name w r :
  retool_script w = true ->
  retool (calls w) input_dat = Exited r ->
  produced_dat r = true ->
  exists temp_dat,
    is_dat temp_dat = true
    /\ output_dat_dir (fst (run_retool retool input_dat collection config_name w))
       = Some (List.last (output_writes (mkdir (output_dat_dir w)) temp_dat
                            input_dat collection config_name)
                         (mkdir (output_dat_dir w)))
    /\ (status_of (snd (run_retool retool input_dat collection config_name w))
        = st_success ->
        fst (fst (fst (snd (run_retool retool input_dat collection config_name w))))
        = Some (new_name (extract_system_name (stem input_dat) collection)
                         config_name (suffix temp_dat))).
Proof.
  intros Hs Hr Hp. unfold run_retool. rewrite Hs. simpl. rewrite Hr.
  destruct (max_by_mtime (List.filter (fun p => is_dat (fst p)) (produced r)))
    as [t|] eqn:Hm.
  2:{ apply max_by_mtime_none, filter_nil_existsb in Hm.
      unfold produced_dat in Hp. congruence. }
  exists (fst t). split.
  { apply max_by_mtime_in, List.filter_In in Hm. tauto. }
  destruct (max_by_mtime (List.filter (fun p => is_txt (fst p)) (produced r)));
    simpl; (split; [reflexivity|]);
    unfold determine_status, status_of; simpl;
    repeat match goal with
           | |- context [if ?b then _ else _] => destruct b
           end; simpl; intros; congruence.
Qed.

(** After a completed run that leaves a DAT the input is up to date. *)
Lemma run_retool_then_up_to_date retool input_dat collection config_name w r :
  input_dat <> EmptyString ->
  retool_script w = true ->
  retool (calls w) input_dat = Exited r ->
  produced_dat r = true ->
  exists written,
    check_if_already_processed input_dat
      (output_dat_dir (fst (run_retool retool input_dat collection config_name w)))
      collection
    = Some written
    /\ (status_of (snd (run_retool retool input_dat collection config_name w))
        = st_success ->
        fst (fst (fst (snd (run_retool retool input_dat collection config_name w))))
        = Some written).
Proof.
  intros Hne Hs Hr Hp.
  destruct (run_retool_dat_written retool input_dat collection config_name w r
              Hs Hr Hp) as (t & Ht & Hd & Hout).
  exists (new_name (extract_system_name (stem input_dat) collection)
                   config_name (suffix t)).
  split; [|exact Hout].
  rewrite Hd. apply check_if_already_processed_spec; [exact Hne|].
  unfold up_to_date, output_writes. cbn [List.last].
  eexists _, _. split; [reflexivity|].
  unfold record_mapping, save_metadata, load_metadata. cbn.
  rewrite lookup_insert_eq. split; [reflexivity|]. cbn.
  split; [|split; [|reflexivity]].
  - unfold stored_input_filename. cbn.
    destruct input_dat; [congruence | reflexivity].
  - apply file_exists_listed. cbn. rewrite lookup_insert_eq. eauto.
Qed.

(** X1.  Whenever a completed run leaves a DAT (whatever its exit status),
    the input is recorded as processed: right after [run_retool],
    [check_if_already_processed] answers with the file that was written,
    and on "success" this is the path [run_retool] returned. *)
Theorem X1_run_then_up_to_date retool input_dat collection config_name w r :
  input_dat <> EmptyString ->
  retool_script w = true ->
  retool (calls w) input_dat = Exited r ->
  produced_dat r = true ->
  exists written,
    check_if_already_processed input_dat
      (output_dat_dir (fst (run_retool retool input_dat collection config_name w)))
      collection
    = Some written
    /\ (status_of (snd (run_retool retool input_dat collection config_name w))
        = st_success ->
        fst (fst (fst (snd (run_retool retool input_dat collection config_name w))))
        = Some written).
Proof. apply run_retool_then_up_to_date. Qed.

(** ** What a pass leaves on disk *)

Lemma output_written_keeps d nm made_from s f :
  is_Some (files d !! f) ->
  is_Some (files (record_mapping (move_in (remove_existing d nm) nm made_from)
                                 s made_from nm) !! f).
Proof.
  intros H. unfold record_mapping, save_metadata, move_in. simpl.
  destruct (decide (f = nm)) as [->|Hne].
  - rewrite lookup_insert_eq. eauto.
  - rewrite lookup_insert_ne by congruence.
    now rewrite remove_existing_other.
Qed.

(** [run_retool] removes no file of the output directory for good. *)
Lemma run_retool_keeps_files retool input_dat collection config_name w f :
  on_disk w f ->
  on_disk (fst (run_retool retool input_dat collection config_name w)) f.
Proof.
  unfold on_disk, run_retool. intros H.
  destruct (retool_script w); simpl; [|exact H].
  destruct (retool (calls w) input_dat) as [r|msg]; simpl; [|exact H].
  destruct (max_by_mtime (List.filter (fun p => is_dat (fst p)) (produced r)));
    destruct (max_by_mtime (List.filter (fun p => is_txt (fst p)) (produced r)));
    cbn [fst snd output_dat_dir mkdir with_output with_call with_report];
    try exact H; apply output_written_keeps; exact H.
Qed.



Lemma output_written_exists d nm made_from s p :
  file_exists d p = true ->
  file_exists (record_mapping (move_in (remove_existing d nm) nm made_from)
                              s made_from nm) p
  = true.
Proof.
  apply file_exists_mono.
  - intros f. apply output_written_keeps.
  - unfold remove_existing. destruct (file_exists d nm); reflexivity.
  - intros _. cbn. eauto.
Qed.




(** ** The tool is called once for every input that is not skipped *)




(** ** A pass without the script *)

Lemma process_one_without_script retool collection config_name w res dat_file :
  retool_script w = false ->
  let st := process_one retool collection config_name (w, res) dat_file in
  fst st = w
  /\ successful (snd st) = successful res
  /\ not_required (snd st) = not_required res
  /\ no_games (snd st) = no_games res
  /\ (forall x, In x (failed (snd st)) ->
      In x (failed res) \/ x = (dat_file, "Retool script not found.")).
Proof.
  intros Hs. unfold process_one. cbn [fst snd].
  destruct (check_if_already_processed dat_file (output_dat_dir w) collection).
  - cbn. repeat split; auto.
  - unfold run_retool. rewrite Hs. cbn. repeat split; auto.
    intros x Hx. apply in_app_or in Hx as [Hx|[<-|[]]]; auto.
Qed.

(** X4.  When [retool.py] is missing, a pass changes nothing on disk and
    calls no tool; every input that is not skipped is filed under "failed"
    with the message "Retool script not found.", and nothing is filed under
    "successful", "not_required" or "no_games". *)
Theorem X4_pass_without_script retool dat_files collection config_name w :
  retool_script w = false ->
  let st := process_all_dats_with_retool retool dat_files collection
              config_name w in
  fst st = w
  /\ successful (snd st) = []
  /\ not_required (snd st) = []
  /\ no_games (snd st) = []
  /\ (forall x, In x (failed (snd st)) ->
      In (fst x) dat_files /\ snd x = "Retool script not found.").
Proof.
  intros Hs. unfold process_all_dats_with_retool.
  assert (H : forall l res,
            let st := fold_left (process_one retool collection config_name)
                                l (w, res) in
            fst st = w
            /\ successful (snd st) = successful res
            /\ not_required (snd st) = not_required res
            /\ no_games (snd st) = no_games res
            /\ (forall x, In x (failed (snd st)) ->
                In x (failed res)
                \/ (In (fst x) l /\ snd x = "Retool script not found."))).
  { induction l as [|y l IH]; intros res.
    - cbn. repeat split; auto.
    - cbn [fold_left].
      destruct (process_one_without_script retool collection config_name
                  w res y Hs) as (H1 & H2 & H3 & H4 & H5).
      destruct (process_one retool collection config_name (w, res) y)
        as [w1 res1].
      cbn [fst snd] in H1, H2, H3, H4, H5. subst w1.
      destruct (IH res1) as (K1 & K2 & K3 & K4 & K5).
      repeat split; try congruence.
      intros x Hx. destruct (K5 x Hx) as [Hx'|[Hx' Hm]].
      + destruct (H5 x Hx') as [Hf| ->]; [now left|].
        right. cbn. auto.
      + right. split; [now right | exact Hm]. }
  destruct (H dat_files no_results) as (K1 & K2 & K3 & K4 & K5).
  repeat split; auto; intros; destruct (K5 x) as [[]|[? ?]]; assumption.
Qed.

(** ** Output without anything to read *)

Lemma strip_blank s : blank s = true -> strip s = EmptyString.
Proof. intros H. unfold strip. now rewrite rstrip_blank. Qed.

(** The message for a text of white space only. *)
Lemma extract_retool_error_blank s :
  s <> EmptyString -> blank s = true ->
  extract_retool_error s = "Retool failed (unable to parse error message).".
Proof.
  intros Hne Hb. unfold extract_retool_error.
  destruct s as [|c s]; [congruence|]. cbn [is_empty].
  rewrite strip_blank; [vm_compute; reflexivity|].
  unfold replace. repeat apply blank_replace_from; auto.
Qed.

(** X5.  A completed run that leaves no DAT and prints nothing but white
    space is classified "failed" whatever its exit status, with the message
    "Retool failed (unable to parse error message)."; the combined text is
    never empty, so the message for missing output is not the one given. *)
Theorem X5_silent_run_fails retool input_dat collection config_name w r :
  retool_script w = true ->
  retool (calls w) input_dat = Exited r ->
  produced_dat r = false ->
  blank (stdout r) = true -> blank (stderr r) = true ->
  status_of (snd (run_retool retool input_dat collection config_name w))
  = st_failed
  /\ message_of (snd (run_retool retool input_dat collection config_name w))
     = Some "Retool failed (unable to parse error message).".
Proof.
  intros Hs Hr Hp Ho He.
  destruct (run_retool_exited retool input_dat collection config_name w r Hs Hr)
    as (od & rt & Heq & Hod).
  rewrite Hp in Hod. destruct od as [o|]; [discriminate|]. clear Hod.
  assert (Hb : blank (stdout r ++ LF ++ stderr r) = true).
  { rewrite !blank_app, Ho, He. reflexivity. }
  assert (Hne : (stdout r ++ LF ++ stderr r)%string <> EmptyString).
  { destruct (stdout r); discriminate. }
  rewrite Heq. unfold determine_status.
  rewrite (extract_retool_error_blank _ Hne Hb).
  rewrite !(contains_blank "N" _ _ eq_refl Hb).
  destruct (negb (returncode r =? 0)%Z); split; reflexivity.
Qed.

(** ** A second pass skips what the first one settled *)

(** Writing the DAT of another system leaves the answer for an input as it
    was. *)
Lemma check_after_other_write d nm made_from s dat_file collection existing :
  s <> extract_system_name (stem dat_file) collection ->
  check_if_already_processed dat_file (Some d) collection = Some existing ->
  check_if_already_processed dat_file
    (Some (record_mapping (move_in (remove_existing d nm) nm made_from)
                          s made_from nm))
    collection
  = Some existing.
Proof.
  intros Hne. unfold check_if_already_processed.
  assert (Hm : load_metadata
                 (record_mapping (move_in (remove_existing d nm) nm made_from)
                                 s made_from nm)
               !! extract_system_name (stem dat_file) collection
               = load_metadata d !! extract_system_name (stem dat_file) collection).
  { unfold record_mapping, save_metadata, load_metadata at 1. cbn.
    rewrite lookup_insert_ne by exact Hne.
    unfold load_metadata, move_in, remove_existing, unlink.
    destruct (file_exists d nm); reflexivity. }
  rewrite Hm.
  destruct (load_metadata d !! extract_system_name (stem dat_file) collection)
    as [e|]; [|discriminate].
  destruct (file_exists d (output_path e)) eqn:Hf; [|discriminate].
  rewrite (output_written_exists d nm made_from s (output_path e) Hf).
  tauto.
Qed.

Lemma run_retool_keeps_check retool input_dat collection config_name w
    dat_file existing :
  system_of_input collection input_dat <> system_of_input collection dat_file ->
  check_if_already_processed dat_file (output_dat_dir w) collection
  = Some existing ->
  check_if_already_processed dat_file
    (output_dat_dir (fst (run_retool retool input_dat collection config_name w)))
    collection
  = Some existing.
Proof.
  intros Hne Hc. unfold run_retool.
  destruct (output_dat_dir w) as [d|] eqn:Hd; [|discriminate].
  destruct (retool_script w); cbn; [|now rewrite Hd].
  destruct (retool (calls w) input_dat) as [r|msg]; cbn; [|exact Hc].
  destruct (max_by_mtime (List.filter (fun p => is_dat (fst p)) (produced r)));
    destruct (max_by_mtime (List.filter (fun p => is_txt (fst p)) (produced r)));
    cbn; try exact Hc; now apply check_after_other_write.
Qed.

Lemma process_one_keeps_check retool collection config_name w res input_dat
    dat_file existing :
  system_of_input collection input_dat <> system_of_input collection dat_file ->
  check_if_already_processed dat_file (output_dat_dir w) collection
  = Some existing ->
  check_if_already_processed dat_file
    (output_dat_dir
       (fst (process_one retool collection config_name (w, res) input_dat)))
    collection
  = Some existing.
Proof.
  intros Hne Hc. unfold process_one. cbn [fst snd].
  destruct (check_if_already_processed input_dat (output_dat_dir w) collection);
    [exact Hc|].
  pose proof (run_retool_keeps_check retool input_dat collection config_name w
                dat_file existing Hne Hc) as Hk.
  destruct (run_retool retool input_dat collection config_name w)
    as [w' [[[od rt] st] em]].
  destruct st, od; exact Hk.
Qed.

(** What one round files under "successful" or "skipped" is up to date
    right after it. *)
Lemma process_one_settles retool collection config_name w res dat_file :
  dat_file <> EmptyString ->
  let st := process_one retool collection config_name (w, res) dat_file in
  (forall x, In x (successful (snd st)) ->
     In x (successful res)
     \/ (fst (fst x) = dat_file
         /\ check_if_already_processed dat_file (output_dat_dir (fst st))
              collection = Some (snd (fst x))))
  /\ (forall x, In x (skipped (snd st)) ->
        In x (skipped res)
        \/ (fst x = dat_file
            /\ check_if_already_processed dat_file (output_dat_dir (fst st))
                 collection = Some (snd x))).
Proof.
  intros Hne. unfold process_one. cbn [fst snd].
  destruct (check_if_already_processed dat_file (output_dat_dir w) collection)
    as [existing|] eqn:Hc.
  - cbn. split; [auto|]. intros x Hx.
    apply in_app_or in Hx as [Hx|[<-|[]]]; auto.
  - destruct (retool_script w) eqn:Hs.
    2:{ unfold run_retool. rewrite Hs. cbn. split; auto. }
    destruct (retool (calls w) dat_file) as [r|msg] eqn:Hr.
    2:{ unfold run_retool. rewrite Hs. cbn. rewrite Hr. cbn. split; auto. }
    destruct (produced_dat r) eqn:Hp.
    + destruct (run_retool_then_up_to_date retool dat_file collection config_name w r
                  Hne Hs Hr Hp) as (written & Hw & Hout).
      destruct (run_retool retool dat_file collection config_name w)
        as [w' [[[od rt] st] em]].
      unfold status_of in Hout. cbn [fst snd] in Hw, Hout.
      destruct st; [destruct od as [out|]| | |]; cbn; (split; [|auto]); auto.
      intros x Hx. apply in_app_or in Hx as [Hx|[<-|[]]]; [auto|].
      right. cbn. split; [reflexivity|].
      specialize (Hout eq_refl). congruence.
    + destruct (run_retool_exited retool dat_file collection config_name w r
                  Hs Hr) as (od' & rt' & Heq & Hod).
      rewrite Hp in Hod. destruct od' as [o|]; [discriminate|].
      destruct (run_retool retool dat_file collection config_name w)
        as [w' [[[od rt] st] em]].
      cbn [snd] in Heq.
      assert (od = None).
      { unfold determine_status in Heq.
        repeat match type of Heq with
               | context [if ?b then _ else _] => destruct b
               end; congruence. }
      subst od. destruct st; cbn; split; auto.
Qed.

Lemma fold_settles retool collection config_name l :
  forall w res,
    List.NoDup (List.map (system_of_input collection) l) ->
    (forall i, In i l -> i <> EmptyString) ->
    (forall x, In x (successful res) ->
       check_if_already_processed (fst (fst x)) (output_dat_dir w) collection
       = Some (snd (fst x))
       /\ ~ In (system_of_input collection (fst (fst x)))
               (List.map (system_of_input collection) l)) ->
    (forall x, In x (skipped res) ->
       check_if_already_processed (fst x) (output_dat_dir w) collection
       = Some (snd x)
       /\ ~ In (system_of_input collection (fst x))
               (List.map (system_of_input collection) l)) ->
    let st := fold_left (process_one retool collection config_name) l (w, res) in
    (forall x, In x (successful (snd st)) ->
       check_if_already_processed (fst (fst x)) (output_dat_dir (fst st))
         collection = Some (snd (fst x)))
    /\ (forall x, In x (skipped (snd st)) ->
          check_if_already_processed (fst x) (output_dat_dir (fst st))
            collection = Some (snd x)).
Proof.
  induction l as [|y l IH]; intros w res Hnd Hne H1 H2.
  - cbn. split; intros x Hx; [now apply H1 | now apply H2].
  - cbn [fold_left]. cbn [List.map] in Hnd.
    apply List.NoDup_cons_iff in Hnd as [Hy Hnd].
    assert (Hyne : y <> EmptyString) by (apply Hne; now left).
    destruct (process_one_settles retool collection config_name w res y Hyne)
      as [S1 S2].
    pose proof (process_one_keeps_check retool collection config_name w res y)
      as Hk.
    destruct (process_one retool collection config_name (w, res) y)
      as [w1 res1].
    cbn [fst snd] in S1, S2, Hk.
    apply IH; [exact Hnd | intros i Hi; apply Hne; now right | |].
    + intros x Hx. destruct (S1 x Hx) as [Hold|[Hx1 Hx2]].
      * destruct (H1 x Hold) as [Hc Hn]. split.
        -- apply Hk; [|exact Hc]. intros He. apply Hn. left. exact He.
        -- intros Hin. apply Hn. now right.
      * rewrite Hx1. split; [exact Hx2 | exact Hy].
    + intros x Hx. destruct (S2 x Hx) as [Hold|[Hx1 Hx2]].
      * destruct (H2 x Hold) as [Hc Hn]. split.
        -- apply Hk; [|exact Hc]. intros He. apply Hn. left. exact He.
        -- intros Hin. apply Hn. now right.
      * rewrite Hx1. split; [exact Hx2 | exact Hy].
Qed.

(** After a pass over inputs of pairwise distinct systems, every input
    filed under "successful" or "skipped" is up to date. *)
Lemma pass_settles retool dat_files collection config_name w :
  List.NoDup (List.map (system_of_input collection) dat_files) ->
  (forall i, In i dat_files -> i <> EmptyString) ->
  let st := process_all_dats_with_retool retool dat_files collection
              config_name w in
  (forall x, In x (successful (snd st)) ->
     check_if_already_processed (fst (fst x)) (output_dat_dir (fst st))
       collection = Some (snd (fst x)))
  /\ (forall x, In x (skipped (snd st)) ->
        check_if_already_processed (fst x) (output_dat_dir (fst st))
          collection = Some (snd x)).
Proof.
  intros Hnd Hne. unfold process_all_dats_with_retool.
  apply fold_settles; auto; intros x [].
Qed.

Lemma process_one_skipped_mono retool collection config_name w res y x :
  In x (skipped res) ->
  In x (skipped (snd (process_one retool collection config_name (w, res) y))).
Proof.
  intros Hx. unfold process_one. cbn [fst snd].
  destruct (check_if_already_processed y (output_dat_dir w) collection).
  - cbn. apply in_or_app. now left.
  - destruct (run_retool retool y collection config_name w)
      as [w' [[[od rt] st] em]].
    destruct st, od; exact Hx.
Qed.

Lemma fold_skipped_mono retool collection config_name l :
  forall w res x,
    In x (skipped res) ->
    In x (skipped (snd (fold_left (process_one retool collection config_name)
                                  l (w, res)))).
Proof.
  induction l as [|y l IH]; intros w res x Hx; [exact Hx|].
  cbn [fold_left].
  pose proof (process_one_skipped_mono retool collection config_name w res y x Hx)
    as Hy.
  destruct (process_one retool collection config_name (w, res) y) as [w1 res1].
  now apply IH.
Qed.

(** An input that is up to date when a pass starts is skipped by it, when
    no other input of the pass shares its system. *)
Lemma fold_skips_up_to_date retool collection config_name l :
  forall w res i existing,
    List.NoDup (List.map (system_of_input collection) l) ->
    In i l ->
    check_if_already_processed i (output_dat_dir w) collection = Some existing ->
    In (i, existing)
       (skipped (snd (fold_left (process_one retool collection config_name)
                                l (w, res)))).
Proof.
  induction l as [|y l IH]; intros w res i existing Hnd Hi Hc; [contradiction|].
  cbn [fold_left]. cbn [List.map] in Hnd.
  apply List.NoDup_cons_iff in Hnd as [Hy Hnd].
  destruct Hi as [->|Hi].
  - assert (Hp : process_one retool collection config_name (w, res) i
                 = (w, add_skipped res i existing)).
    { unfold process_one. cbn. rewrite Hc. reflexivity. }
    rewrite Hp. apply fold_skipped_mono. cbn. apply in_or_app. right. now left.
  - assert (Hne : system_of_input collection y <> system_of_input collection i).
    { intros He. apply Hy. rewrite He. now apply List.in_map. }
    pose proof (process_one_keeps_check retool collection config_name w res y
                  i existing Hne Hc) as Hk.
    destruct (process_one retool collection config_name (w, res) y)
      as [w1 res1].
    now apply IH.
Qed.

(** X6.  Run a pass over inputs of pairwise distinct systems, then a second
    pass over the same inputs on the world the first one left (with any
    behaviour of the tool).  Every input the first pass filed under
    "successful" or "skipped" is skipped by the second pass, with the same
    output file. *)
Theorem X6_second_pass_skips retool retool' dat_files collection config_name w :
  List.NoDup (List.map (system_of_input collection) dat_files) ->
  (forall i, In i dat_files -> i <> EmptyString) ->
  let first := process_all_dats_with_retool retool dat_files collection
                 config_name w in
  let second := process_all_dats_with_retool retool' dat_files collection
                  config_name (fst first) in
  (forall x, In x (successful (snd first)) ->
     In (fst (fst x), snd (fst x)) (skipped (snd second)))
  /\ (forall x, In x (skipped (snd first)) -> In x (skipped (snd second))).
Proof.
  intros Hnd Hne first second.
  destruct (pass_settles retool dat_files collection config_name w Hnd Hne)
    as [H1 H2].
  destruct (process_all_files_each retool collection config_name dat_files
              w no_results) as (asg & Hasg & Hin0).
  assert (Hin : forall b, inputs_in b (snd first) = filed asg b).
  { intros b. unfold first, process_all_dats_with_retool. rewrite Hin0.
    now destruct b. }
  clear Hin0. fold first in H1, H2.
  split.
  - intros x Hx. unfold second, process_all_dats_with_retool.
    apply fold_skips_up_to_date; [exact Hnd | | now apply H1].
    assert (In (fst (fst x)) (inputs_in b_successful (snd first)))
      by (cbn; apply List.in_map_iff; eauto).
    rewrite Hin in H. unfold filed in H.
    apply List.in_map_iff in H as (p & Hp & Hpin).
    apply List.filter_In in Hpin as [Hpin _].
    rewrite <- Hasg, <- Hp. now apply List.in_map.
  - intros [i o] Hx. unfold second, process_all_dats_with_retool.
    apply fold_skips_up_to_date; [exact Hnd | | now apply (H2 (i, o))].
    assert (In i (inputs_in b_skipped (snd first)))
      by (cbn; apply List.in_map_iff; exists (i, o); auto).
    rewrite Hin in H. unfold filed in H.
    apply List.in_map_iff in H as (p & Hp & Hpin).
    apply List.filter_In in Hpin as [Hpin _].
    rewrite <- Hasg, <- Hp. now apply List.in_map.
Qed.

(** ** What [cleanup_previous_dats] removes and what it keeps *)

Lemma remove_previous_step st y :
  exists m',
    remove_previous st y = (unlink (fst st) y, m')
    /\ (forall s e, m' !! s = Some e -> snd st !! s = Some e)
    /\ (forall s e, snd st !! s = Some e ->
          m' !! s = Some e \/ output_path e = y).
Proof.
  destruct st as [d m]. unfold remove_previous. cbn [fst snd].
  destruct (match_group1 output_name_group output_name_rest y) as [s0|].
  2:{ exists m. auto. }
  destruct (m !! s0) as [e0|] eqn:He0.
  2:{ exists m. auto. }
  destruct (bool_decide (output_path e0 = y)) eqn:Hb.
  2:{ exists m. auto. }
  apply bool_decide_eq_true in Hb.
  exists (delete s0 m). split; [reflexivity|]. split.
  - intros s e H. apply lookup_delete_Some in H. tauto.
  - intros s e H. destruct (decide (s = s0)) as [->|Hne].
    + right. congruence.
    + left. now rewrite lookup_delete_ne.
Qed.

Lemma remove_previous_fold l :
  forall d m,
    let st := fold_left remove_previous l (d, m) in
    (forall f x, files (fst st) !! f = Some x
                 <-> files d !! f = Some x /\ ~ In f l)
    /\ (forall s e, snd st !! s = Some e -> m !! s = Some e)
    /\ (forall s e, m !! s = Some e ->
          snd st !! s = Some e \/ In (output_path e) l).
Proof.
  induction l as [|y l IH]; intros d m.
  - cbn. repeat split; try tauto; auto.
  - cbn [fold_left].
    destruct (remove_previous_step (d, m) y) as (m' & Hst & Hsub & Hkeep).
    rewrite Hst. cbn [fst snd] in *.
    destruct (IH (unlink d y) m') as (F & S1 & S2).
    split; [|split].
    + intros f x. rewrite F. unfold unlink. cbn.
      rewrite lookup_delete_Some. cbn. split.
      * intros [[Hne Hf] Hn]. split; [exact Hf|]. intros [->|Hin]; auto.
      * intros [Hf Hn]. split; [split; [|exact Hf]|]; intros H; apply Hn; auto.
    + intros s e H. apply Hsub, S1, H.
    + intros s e H. destruct (Hkeep s e H) as [H'| <-].
      * destruct (S2 s e H') as [K|K]; [now left | right; now right].
      * right. now left.
Qed.

Lemma filter_nil_all {A} (p : A -> bool) (l : list A) x :
  List.filter p l = [] -> In x l -> p x = false.
Proof.
  intros H Hx. destruct (p x) eqn:Hp; [|reflexivity].
  assert (In x (List.filter p l)) by (apply List.filter_In; auto).
  rewrite H in H0. contradiction.
Qed.

Lemma in_names_of_files (d : outdir) f :
  In f (List.map fst (map_to_list (files d))) <-> is_Some (files d !! f).
Proof.
  rewrite List.in_map_iff. split.
  - intros ([k v] & <- & Hin). cbn.
    apply list_elem_of_In, elem_of_map_to_list in Hin. eauto.
  - intros [v Hv]. exists (f, v). split; [reflexivity|].
    apply list_elem_of_In, elem_of_map_to_list. exact Hv.
Qed.

(** The directory after [cleanup_previous_dats]. *)
Lemma cleanup_previous_dats_spec d (preserve_files : gset string) d' :
  cleanup_previous_dats (Some d) preserve_files = Some d' ->
  (forall f x,
     files d' !! f = Some x
     <-> files d !! f = Some x
         /\ (is_dat f = false \/ f ∈ preserve_files))
  /\ (forall s e, load_metadata d' !! s = Some e -> load_metadata d !! s = Some e)
  /\ (forall s e,
        load_metadata d !! s = Some e ->
        is_Some (files d' !! output_path e) ->
        load_metadata d' !! s = Some e).
Proof.
  unfold cleanup_previous_dats.
  set (l := List.filter
              (fun f => negb (bool_decide (f ∈ preserve_files)))
              (List.filter is_dat (List.map fst (map_to_list (files d))))).
  assert (Hl : forall f x, files d !! f = Some x ->
                 (~ In f l <-> is_dat f = false \/ f ∈ preserve_files)).
  { intros f x Hf. unfold l. rewrite !List.filter_In, in_names_of_files.
    rewrite negb_true_iff, bool_decide_eq_false.
    assert (Hs : is_Some (files d !! f)) by eauto.
    destruct (is_dat f) eqn:Hd; destruct (decide (f ∈ preserve_files)) as [Hp|Hp].
    - split; [intros _; now right | intros _ [_ Hn]; contradiction].
    - split.
      + intros H. exfalso. apply H. auto.
      + intros [H|H]; [discriminate | contradiction].
    - split; [intros _; now left | intros _ [[_ H] _]; discriminate].
    - split; [intros _; now left | intros _ [[_ H] _]; discriminate]. }
  destruct l as [|y l'] eqn:El.
  - intros [= <-]. split; [|split; auto].
    intros f x. split; [|tauto]. intros Hf. split; [exact Hf|].
    apply (Hl f x Hf). intros [].
  - rewrite <- El in *. clear El.
    destruct (remove_previous_fold l d (load_metadata d)) as (F & S1 & S2).
    destruct (fold_left remove_previous l (d, load_metadata d)) as [d1 m1].
    cbn [fst snd] in F, S1, S2.
    assert (Hload : forall d2, Some d2 = (if bool_decide (m1 <> ∅)
                                          then Some (save_metadata d1 m1)
                                          else Some (OutDir (files d1) None
                                                            (elsewhere d1))) ->
                      files d2 = files d1 /\ load_metadata d2 = m1).
    { intros d2. destruct (bool_decide (m1 <> ∅)) eqn:Hb; intros [= ->].
      - split; reflexivity.
      - apply bool_decide_eq_false in Hb. split; [reflexivity|].
        unfold load_metadata. cbn. destruct (decide (m1 = ∅)); [congruence|].
        contradiction. }
    intros H. symmetry in H. destruct (Hload d' H) as [Hf Hm].
    rewrite Hf, Hm. split; [|split].
    + intros f x. rewrite F. split.
      * intros [Hx Hn]. split; [exact Hx|]. now apply (Hl f x Hx).
      * intros [Hx Hn]. split; [exact Hx|]. now apply (Hl f x Hx).
    + exact S1.
    + intros s e He [x Hx]. destruct (S2 s e He) as [K|K]; [exact K|].
      apply F in Hx as [_ Hn]. contradiction.
Qed.

(** X7.  [cleanup_previous_dats] on an existing directory leaves exactly the
    files that are not [.dat] files or are named in the preserve set; it
    adds or changes no metadata entry, and it keeps every entry whose
    recorded output file is still there. *)
Theorem X7_cleanup_previous_dats_effect d (preserve_files : gset string) :
  exists d',
    cleanup_previous_dats (Some d) preserve_files = Some d'
    /\ (forall f x,
          files d' !! f = Some x
          <-> files d !! f = Some x
              /\ (is_dat f = false \/ f ∈ preserve_files))
    /\ (forall s e,
          load_metadata d' !! s = Some e -> load_metadata d !! s = Some e)
    /\ (forall s e,
          load_metadata d !! s = Some e ->
          is_Some (files d' !! output_path e) ->
          load_metadata d' !! s = Some e).
Proof.
  destruct (cleanup_previous_dats (Some d) preserve_files) as [d'|] eqn:H.
  - exists d'. split; [reflexivity|]. now apply cleanup_previous_dats_spec.
  - exfalso. unfold cleanup_previous_dats in H.
    destruct (List.filter _ (List.filter is_dat _)); [discriminate|].
    destruct (fold_left remove_previous _ _) as [d1 m1].
    destruct (bool_decide (m1 <> ∅)); discriminate.
Qed.

Lemma existing_processed_files_fold collection o l :
  forall (acc : gset string) f,
    f ∈ fold_left
          (fun acc dat_file =>
             match check_if_already_processed dat_file o collection with
             | Some existing => acc ∪ {[ PathName.name existing ]}
             | None => acc
             end) l acc
    <-> f ∈ acc
        \/ exists i existing,
             In i l
             /\ check_if_already_processed i o collection = Some existing
             /\ f = PathName.name existing.
Proof.
  induction l as [|y l IH]; intros acc f; cbn [fold_left].
  - split; [auto | intros [H|(i & e & [] & _)]; exact H].
  - rewrite IH. split.
    + intros [H|(i & e & Hi & Hc & ->)].
      * destruct (check_if_already_processed y o collection) as [e|] eqn:Hc.
        -- apply elem_of_union in H as [H|H]; [now left|].
           apply elem_of_singleton in H. right. exists y, e. cbn. auto.
        -- now left.
      * right. exists i, e. cbn. auto.
    + intros [H|(i & e & [->|Hi] & Hc & ->)].
      * left. destruct (check_if_already_processed y o collection);
          [apply elem_of_union; now left | exact H].
      * left. rewrite Hc. apply elem_of_union. right. now apply elem_of_singleton.
      * right. eauto.
Qed.

(** The preserve set of [main]: the names of the recorded outputs of the
    inputs that are up to date. *)
Lemma existing_processed_files_spec dat_files o collection f :
  f ∈ existing_processed_files dat_files o collection
  <-> exists i existing,
        In i dat_files
        /\ check_if_already_processed i o collection = Some existing
        /\ f = PathName.name existing.
Proof.
  unfold existing_processed_files. cbn [ALWAYS_REPROCESS negb].
  rewrite existing_processed_files_fold. split; [|auto].
  intros [H|H]; [|exact H]. apply elem_of_empty in H. contradiction.
Qed.

Lemma remove_previous_fold_elsewhere l :
  forall d m,
    elsewhere (fst (fold_left remove_previous l (d, m))) = elsewhere d.
Proof.
  induction l as [|y l IH]; intros d m; [reflexivity|]. cbn [fold_left].
  destruct (remove_previous_step (d, m) y) as (m' & Hst & _).
  rewrite Hst. cbn [fst]. now rewrite IH.
Qed.

(** [cleanup_previous_dats] keeps the entries whose recorded output is in
    the preserve set, and touches nothing outside the listed files. *)
Lemma cleanup_previous_dats_keeps d (preserve_files : gset string) d' :
  cleanup_previous_dats (Some d) preserve_files = Some d' ->
  elsewhere d' = elsewhere d
  /\ (forall s e,
        load_metadata d !! s = Some e ->
        output_path e ∈ preserve_files ->
        load_metadata d' !! s = Some e).
Proof.
  unfold cleanup_previous_dats.
  set (l := List.filter
              (fun f => negb (bool_decide (f ∈ preserve_files)))
              (List.filter is_dat (List.map fst (map_to_list (files d))))).
  assert (Hl : forall f, In f l -> f ∉ preserve_files).
  { intros f Hf. unfold l in Hf. apply List.filter_In in Hf as [_ Hf].
    apply negb_true_iff, bool_decide_eq_false in Hf. exact Hf. }
  destruct l as [|y l'] eqn:El.
  - intros [= <-]. auto.
  - rewrite <- El in *. clear El.
    destruct (remove_previous_fold l d (load_metadata d)) as (_ & _ & S2).
    pose proof (remove_previous_fold_elsewhere l d (load_metadata d)) as E.
    destruct (fold_left remove_previous l (d, load_metadata d)) as [d1 m1].
    cbn [fst snd] in S2, E.
    assert (K : forall s e, load_metadata d !! s = Some e ->
                  output_path e ∈ preserve_files -> m1 !! s = Some e).
    { intros s e He Hp. destruct (S2 s e He) as [H|H]; [exact H|].
      exfalso. exact (Hl _ H Hp). }
    destruct (bool_decide (m1 <> ∅)) eqn:Hb; intros [= <-].
    + split; [exact E | exact K].
    + apply bool_decide_eq_false in Hb. split; [exact E|].
      intros s e He Hp. specialize (K s e He Hp).
      destruct (decide (m1 = ∅)) as [->|]; [|contradiction].
      now rewrite lookup_empty in K.
Qed.

Lemma check_after_cleanup d (preserve_files : gset string) d' dat_file
    collection existing :
  cleanup_previous_dats (Some d) preserve_files = Some d' ->
  check_if_already_processed dat_file (Some d) collection = Some existing ->
  normal existing = existing ->
  existing ∈ preserve_files ->
  check_if_already_processed dat_file (Some d') collection = Some existing.
Proof.
  intros Hc Hchk Hn Hp.
  destruct (cleanup_previous_dats_spec d preserve_files d' Hc) as (F & _ & _).
  destruct (cleanup_previous_dats_keeps d preserve_files d' Hc) as (E & K).
  unfold check_if_already_processed in *.
  destruct (load_metadata d !! extract_system_name (stem dat_file) collection)
    as [e|] eqn:He; [|discriminate].
  destruct (file_exists d (output_path e)) eqn:Hf; [|discriminate].
  destruct (truthy (stored_input_filename e)
            && bool_decide (Some dat_file = stored_input_filename e)) eqn:Ht;
    [|discriminate].
  injection Hchk as <-.
  rewrite (K _ e He Hp).
  assert (Hf' : file_exists d' (output_path e) = true).
  { assert (Hm : is_Some (metadata_json d')).
    { pose proof (K _ e He Hp) as H. unfold load_metadata in H.
      destruct (metadata_json d'); [eauto|]. now rewrite lookup_empty in H. }
    revert Hf. unfold file_exists. rewrite E, Hn.
    rewrite !orb_true_iff, !andb_true_iff, !bool_decide_eq_true.
    intros [[[[[x H]|[x H]]|H]|H]|[H1 H2]]; auto 7;
      left; left; left; left; exists x; apply F; auto. }
  rewrite Hf', Ht. reflexivity.
Qed.

(** X8.  The preserve-check and the cleanup of [main] work together: an
    input that is up to date before the cleanup, with a recorded output
    that is a plain file name, is still up to date after
    [cleanup_previous_dats] has run with the preserve set computed from the
    inputs. *)
Theorem X8_cleanup_keeps_up_to_date dat_files d collection dat_file existing :
  In dat_file dat_files ->
  check_if_already_processed dat_file (Some d) collection = Some existing ->
  PathName.name existing = existing ->
  check_if_already_processed dat_file
    (cleanup_previous_dats (Some d)
       (existing_processed_files dat_files (Some d) collection))
    collection
  = Some existing.
Proof.
  intros Hin Hc Hn.
  destruct (cleanup_previous_dats (Some d)
              (existing_processed_files dat_files (Some d) collection))
    as [d'|] eqn:Hcl.
  - eapply check_after_cleanup; eauto using name_fixed_normal.
    apply existing_processed_files_spec. exists dat_file, existing. auto.
  - exfalso. unfold cleanup_previous_dats in Hcl.
    destruct (List.filter _ (List.filter is_dat _)); [discriminate|].
    destruct (fold_left remove_previous _ _) as [d1 m1].
    destruct (bool_decide (m1 <> ∅)); discriminate.
Qed.

(** ** The properties above at concrete inputs *)

(** X1 at a first run on a fresh world. *)
Lemma X1_run_then_up_to_date_witness :
  exists written,
    check_if_already_processed example_input
      (output_dat_dir
         (fst (run_retool example_tool example_input "no-intro" "cfg" fresh_world)))
      "no-intro"
    = Some written
    /\ (status_of (snd (run_retool example_tool example_input "no-intro" "cfg"
                          fresh_world)) = st_success ->
        fst (fst (fst (snd (run_retool example_tool example_input "no-intro"
                              "cfg" fresh_world))))
        = Some written).
Proof.
  apply (X1_run_then_up_to_date example_tool example_input "no-intro" "cfg"
           fresh_world (Completed 0 EmptyString EmptyString [("out.dat", 1%Z)])).
  - discriminate.
  - reflexivity.
  - reflexivity.
  - vm_compute. reflexivity.
Defined.


(** X4 at a world without the script. *)
Lemma X4_pass_without_script_witness :
  fst (process_all_dats_with_retool example_tool [example_input] "no-intro"
         "cfg" (World false None None []))
  = World false None None [].
Proof.
  apply (X4_pass_without_script example_tool [example_input] "no-intro" "cfg"
           (World false None None [])).
  reflexivity.
Defined.

(** X5 at a run that exits with status 1 and prints nothing. *)
Lemma X5_silent_run_fails_witness :
  status_of (snd (run_retool
    (fun _ _ => Exited (Completed 1 EmptyString EmptyString []))
    example_input "no-intro" "cfg" fresh_world)) = st_failed
  /\ message_of (snd (run_retool
       (fun _ _ => Exited (Completed 1 EmptyString EmptyString []))
       example_input "no-intro" "cfg" fresh_world))
     = Some "Retool failed (unable to parse error message).".
Proof.
  apply (X5_silent_run_fails
           (fun _ _ => Exited (Completed 1 EmptyString EmptyString []))
           example_input "no-intro" "cfg" fresh_world
           (Completed 1 EmptyString EmptyString [])); reflexivity.
Defined.

(** X6 at two passes over one input. *)
Lemma X6_second_pass_skips_witness :
  In (example_input, "Acorn - Archimedes (Fresh1G1R - cfg).dat")
     (skipped (snd (process_all_dats_with_retool example_tool [example_input]
                      "no-intro" "cfg"
                      (fst (process_all_dats_with_retool example_tool
                              [example_input] "no-intro" "cfg" fresh_world))))).
Proof.
  refine (proj1 (X6_second_pass_skips example_tool example_tool [example_input]
                   "no-intro" "cfg" fresh_world _ _)
                (example_input, "Acorn - Archimedes (Fresh1G1R - cfg).dat", None)
                _).
  - cbn. apply List.NoDup_cons; [intros [] | apply List.NoDup_nil].
  - intros i [<-|[]]. discriminate.
  - vm_compute. left. reflexivity.
Defined.

(** X8 at the example directory. *)
Lemma X8_cleanup_keeps_up_to_date_witness :
  check_if_already_processed example_input
    (cleanup_previous_dats (Some example_outdir)
       (existing_processed_files [example_input] (Some example_outdir) "no-intro"))
    "no-intro"
  = Some "Acorn - Archimedes (Fresh1G1R - cfg).dat".
Proof.
  apply (X8_cleanup_keeps_up_to_date [example_input] example_outdir "no-intro"
           example_input "Acorn - Archimedes (Fresh1G1R - cfg).dat").
  - now left.
  - vm_compute. reflexivity.
  - vm_compute. reflexivity.
Defined.


(** ** The count and the second run of [cleanup_old_redump_dat] *)

Lemma remove_if_same_system_count new_dat sys (l : list string) :
  forall (d : gset string) (n : nat),
    List.NoDup l -> (forall f, In f l -> f ∈ d) ->
    size (fst (fold_left (remove_if_same_system new_dat sys) l (d, n)))
    + snd (fold_left (remove_if_same_system new_dat sys) l (d, n))
    = size d + n.
Proof.
  induction l as [|x l IH]; intros d n Hnd Hin; [reflexivity|].
  cbn [fold_left]. apply List.NoDup_cons_iff in Hnd as [Hx Hnd].
  unfold remove_if_same_system at 2 4.
  destruct (bool_decide (x = new_dat)).
  - apply IH; [exact Hnd | intros f Hf; apply Hin; now right].
  - destruct (bool_decide (extract_system_name (stem x) "redump" = sys)).
    + rewrite IH; [|exact Hnd|].
      * assert (Hxd : x ∈ d) by (apply Hin; now left).
        assert (Hs : size d = S (size (d ∖ {[x]}))).
        { rewrite (union_difference_L {[x]} d) at 1
            by (now apply singleton_subseteq_l).
          rewrite size_union, size_singleton; [reflexivity|].
          apply disjoint_difference_r1. reflexivity. }
        lia.
      * intros f Hf. apply elem_of_difference. split; [apply Hin; now right|].
        intros He. apply elem_of_singleton in He. subst f. contradiction.
    + apply IH; [exact Hnd | intros f Hf; apply Hin; now right].
Qed.

Lemma redump_cleanup_count new_dat (output_dir : gset string) :
  size (fst (cleanup_old_redump_dat new_dat output_dir))
  + snd (cleanup_old_redump_dat new_dat output_dir)
  = size output_dir.
Proof.
  unfold cleanup_old_redump_dat.
  destruct (bool_decide (new_dat ∈ output_dir)); cbn [negb]; [|cbn; lia].
  rewrite remove_if_same_system_count; [lia| |].
  - apply List.NoDup_filter, NoDup_ListNoDup, NoDup_elements.
  - intros f Hf. apply List.filter_In in Hf as [Hf _].
    now apply list_elem_of_In, elem_of_elements in Hf.
Qed.

Lemma redump_cleanup_again new_dat (output_dir : gset string) :
  fst (cleanup_old_redump_dat new_dat
         (fst (cleanup_old_redump_dat new_dat output_dir)))
  = fst (cleanup_old_redump_dat new_dat output_dir).
Proof.
  destruct (decide (new_dat ∈ output_dir)) as [Hin|Hout].
  - fold (after_redump_cleanup new_dat output_dir).
    fold (after_redump_cleanup new_dat (after_redump_cleanup new_dat output_dir)).
    assert (Hnew : new_dat ∈ after_redump_cleanup new_dat output_dir).
    { apply after_redump_cleanup_spec; [exact Hin|]. split; [exact Hin|].
      intros (_ & Hne & _). congruence. }
    apply set_eq. intros f.
    rewrite (after_redump_cleanup_spec _ _ _ Hnew).
    rewrite (after_redump_cleanup_spec _ _ _ Hin). tauto.
  - unfold cleanup_old_redump_dat.
    rewrite (bool_decide_eq_false_2 _ Hout). cbn.
    now rewrite (bool_decide_eq_false_2 _ Hout).
Qed.

(** X9.  The number [cleanup_old_redump_dat] returns is the number of files
    that left the directory, and running it again for the same new file
    removes nothing more. *)
Theorem X9_redump_cleanup_count_and_rerun new_dat (output_dir : gset string) :
  snd (cleanup_old_redump_dat new_dat output_dir)
  = size output_dir - size (fst (cleanup_old_redump_dat new_dat output_dir))
  /\ size (fst (cleanup_old_redump_dat new_dat output_dir)) <= size output_dir
  /\ cleanup_old_redump_dat new_dat
       (fst (cleanup_old_redump_dat new_dat output_dir))
     = (fst (cleanup_old_redump_dat new_dat output_dir), 0).
Proof.
  pose proof (redump_cleanup_count new_dat output_dir) as H1.
  pose proof (redump_cleanup_count new_dat
                (fst (cleanup_old_redump_dat new_dat output_dir))) as H2.
  pose proof (redump_cleanup_again new_dat output_dir) as H3.
  split; [lia|]. split; [lia|].
  destruct (cleanup_old_redump_dat new_dat
              (fst (cleanup_old_redump_dat new_dat output_dir))) as [d n].
  cbn [fst snd] in *. subst d. f_equal. lia.
Qed.

(** ** What [cleanup_old_files] counts, and its second run *)

Lemma cleanup_old_files_eq listing pattern keep_count collection :
  cleanup_old_files (Some listing) pattern keep_count collection
  = (Some (List.filter (kept (all_deleted listing pattern keep_count collection))
                       listing),
     List.length (all_deleted listing pattern keep_count collection)).
Proof.
  unfold all_deleted, cleanup_old_files.
  destruct (List.filter (fun f => pattern (fst f)) listing) as [|f fs] eqn:Hf.
  - simpl. now rewrite filter_kept_nil.
  - rewrite (delete_loop_flat _ (files_to_delete keep_count)).
    rewrite unlink_loop. reflexivity.
Qed.

Lemma add_to_group_perm key f groups :
  Permutation (List.concat (List.map snd (add_to_group key f groups)))
              (f :: List.concat (List.map snd groups)).
Proof.
  induction groups as [|[k fs] rest IH]; simpl; [reflexivity|].
  destruct (String.eqb k key); simpl.
  - rewrite <- List.app_assoc. simpl. symmetry. apply Permutation_middle.
  - rewrite IH. symmetry. apply Permutation_middle.
Qed.

Lemma group_files_perm collection files :
  Permutation (List.concat (List.map snd (group_files collection files))) files.
Proof.
  unfold group_files.
  enough (H : forall groups,
             Permutation
               (List.concat
                  (List.map snd
                     (fold_left
                        (fun groups f =>
                           add_to_group
                             (normalized_system (stem (fst f)) collection)
                             f groups)
                        files groups)))
               (List.concat (List.map snd groups) ++ files)).
  { apply (H []). }
  induction files as [|f files IH]; intros groups; simpl.
  - now rewrite List.app_nil_r.
  - rewrite IH, add_to_group_perm. apply Permutation_middle.
Qed.

Lemma files_to_delete_part keep_count (v : list (string * Z)) :
  exists remaining,
    Permutation v (remaining ++ files_to_delete keep_count v).
Proof.
  unfold files_to_delete, slice_from.
  destruct (Z.of_nat (List.length v) <=? keep_count)%Z.
  - exists v. now rewrite List.app_nil_r.
  - destruct (0 <=? keep_count)%Z.
    + exists (firstn (Z.to_nat keep_count) (sort_desc v)).
      rewrite List.firstn_skipn. symmetry. apply sort_desc_perm.
    + exists (firstn (Z.to_nat (Z.of_nat (List.length (sort_desc v)) + keep_count))
                     (sort_desc v)).
      rewrite List.firstn_skipn. symmetry. apply sort_desc_perm.
Qed.

Lemma groups_deleted_part keep_count (groups : list (string * list (string * Z))) :
  exists remaining,
    Permutation
      (List.concat (List.map snd groups))
      (remaining
       ++ List.concat
            (List.map (fun g => files_to_delete keep_count (snd g)) groups)).
Proof.
  induction groups as [|[k v] groups [r IH]]; simpl.
  - exists []. reflexivity.
  - destruct (files_to_delete_part keep_count v) as [rv Hv].
    exists (rv ++ r)%list. rewrite IH, Hv at 1.
    rewrite <- !List.app_assoc. apply Permutation_app_head.
    rewrite !List.app_assoc. apply Permutation_app_tail.
    apply Permutation_app_comm.
Qed.

Lemma filter_split_perm {A} (p : A -> bool) (l : list A) :
  Permutation l (List.filter (fun x => negb (p x)) l ++ List.filter p l).
Proof.
  induction l as [|x l IH]; simpl; [reflexivity|].
  destruct (p x); simpl.
  - rewrite IH at 1. apply Permutation_middle.
  - now constructor.
Qed.

(** The listing is what stays and what is deleted. *)
Lemma listing_deleted_part listing pattern keep_count collection :
  exists remaining,
    Permutation listing
      (remaining ++ all_deleted listing pattern keep_count collection)
    /\ forall f, In f listing -> pattern (fst f) = false -> In f remaining.
Proof.
  unfold all_deleted.
  set (files := List.filter (fun f => pattern (fst f)) listing).
  destruct (groups_deleted_part keep_count (group_files collection files))
    as [r Hr].
  rewrite group_files_perm in Hr.
  exists (List.filter (fun f => negb (pattern (fst f))) listing ++ r)%list.
  split.
  - rewrite <- List.app_assoc, <- Hr. apply filter_split_perm.
  - intros f Hf Hp. apply in_or_app. left. apply List.filter_In.
    now rewrite Hp.
Qed.

(** X10.  In a directory without two files of one name, [cleanup_old_files]
    leaves every file that does not match the pattern, adds nothing, and
    returns the number of files that are gone. *)
Theorem X10_cleanup_old_files_accounting
    listing pattern keep_count collection :
  List.NoDup (List.map fst listing) ->
  let after := after_cleanup listing pattern keep_count collection in
  (forall f, In f listing -> pattern (fst f) = false -> In f after)
  /\ (forall f, In f after -> In f listing)
  /\ snd (cleanup_old_files (Some listing) pattern keep_count collection)
     + List.length after
     = List.length listing.
Proof.
  intros Hnd after.
  destruct (listing_deleted_part listing pattern keep_count collection)
    as (r & Hperm & Hrest).
  assert (Hnd' : List.NoDup
                   (List.map fst
                      (r ++ all_deleted listing pattern keep_count collection))).
  { eapply Permutation_NoDup; [|exact Hnd]. now apply Permutation_map. }
  assert (Hafter : Permutation after r).
  { unfold after. rewrite after_cleanup_filter.
    rewrite (permutation_filter _ _ _ Hperm). now rewrite filter_kept_split. }
  split; [|split].
  - intros f Hf Hp. eapply Permutation_in; [symmetry; exact Hafter|].
    now apply Hrest.
  - intros f Hf. unfold after in Hf. rewrite after_cleanup_filter in Hf.
    apply List.filter_In in Hf. tauto.
  - rewrite cleanup_old_files_eq. cbn [snd].
    rewrite (Permutation_length Hafter), (Permutation_length Hperm).
    rewrite List.length_app. lia.
Qed.

Lemma numbered_reports_nodup :
  List.NoDup (List.map fst (numbered_reports 10)).
Proof.
  vm_compute.
  repeat (apply List.NoDup_cons; [simpl; intuition discriminate|]).
  apply List.NoDup_nil.
Qed.

Lemma X10_cleanup_old_files_accounting_witness :
  snd (cleanup_old_files (Some (numbered_reports 10)) is_txt 7 "redump")
  + List.length (after_cleanup (numbered_reports 10) is_txt 7 "redump")
  = List.length (numbered_reports 10).
Proof.
  refine (proj2 (proj2 (X10_cleanup_old_files_accounting
                          (numbered_reports 10) is_txt 7 "redump" _))).
  exact numbered_reports_nodup.
Defined.

Lemma concat_map_nil {A B} (f : A -> list B) (l : list A) :
  (forall x, In x l -> f x = []) -> List.concat (List.map f l) = [].
Proof.
  induction l as [|x l IH]; simpl; intros H; [reflexivity|].
  rewrite (H x) by now left. apply IH. intros y Hy. apply H. now right.
Qed.

Lemma all_deleted_after listing pattern keep_count collection :
  (0 <= keep_count)%Z ->
  List.NoDup (List.map fst listing) ->
  all_deleted (after_cleanup listing pattern keep_count collection)
              pattern keep_count collection
  = [].
Proof.
  intros Hk Hnd. unfold all_deleted at 1.
  set (after := after_cleanup listing pattern keep_count collection).
  set (files := List.filter (fun f => pattern (fst f)) after).
  destruct (group_files_spec collection files) as [Hkeys Hlook].
  apply concat_map_nil. intros [k v] Hg. cbn [snd].
  pose proof (group_lookup_in k v _ Hkeys Hg) as Hv.
  rewrite Hlook in Hv. unfold files in Hv.
  rewrite <- report_group_split in Hv. unfold after in Hv.
  rewrite report_group_after in Hv by exact Hnd.
  set (before := report_group pattern collection k listing) in *.
  assert (Hb : List.NoDup (List.map fst before))
    by (apply nodup_names_filter; exact Hnd).
  destruct (group_keeps_latest before keep_count Hk Hb) as [Hperm _].
  rewrite Hv in Hperm. apply Permutation_length in Hperm.
  rewrite List.length_firstn in Hperm.
  unfold files_to_delete.
  destruct (Z.leb_spec (Z.of_nat (List.length v)) keep_count); [reflexivity|].
  lia.
Qed.

(** X11.  With a keep count that is not negative, and no two files of one
    name, a second run of [cleanup_old_files] on the directory the first one
    left deletes nothing. *)
Theorem X11_cleanup_old_files_again listing pattern keep_count collection :
  (0 <= keep_count)%Z ->
  List.NoDup (List.map fst listing) ->
  let after := after_cleanup listing pattern keep_count collection in
  cleanup_old_files (Some after) pattern keep_count collection
  = (Some after, 0).
Proof.
  intros Hk Hnd after. rewrite cleanup_old_files_eq. unfold after.
  rewrite all_deleted_after by assumption.
  now rewrite filter_kept_nil.
Qed.

Lemma X11_cleanup_old_files_again_witness :
  cleanup_old_files
    (Some (after_cleanup (numbered_reports 10) is_txt 7 "redump"))
    is_txt 7 "redump"
  = (Some (after_cleanup (numbered_reports 10) is_txt 7 "redump"), 0).
Proof.
  refine (X11_cleanup_old_files_again (numbered_reports 10) is_txt 7 "redump" _ _).
  - lia.
  - exact numbered_reports_nodup.
Defined.


(** ** The loop body of [main], run again *)

Lemma process_pair_ret e config_name collection dats w r :
  process_pair e config_name collection dats w = Ret r ->
  r = process_all_dats_with_retool (retool e) dats collection config_name
        (World (retool_script w)
           (cleanup_previous_dats (Some (mkdir (output_dat_dir w)))
              (existing_processed_files dats (Some (mkdir (output_dat_dir w)))
                 collection))
           (fst (cleanup_old_files
                   (Some (match report_dir w with Some r => r | None => [] end))
                   is_txt 7 collection))
           (calls w)).
Proof.
  unfold process_pair.
  destruct (copy_user_config e config_name); cbn; [|discriminate].
  destruct (pass_fault e (config_name, collection)); [discriminate|].
  now intros [= <-].
Qed.

(** X12.  Run the loop body of [main] for one configuration and collection
    over inputs of pairwise distinct systems, and run it again over the same
    inputs on what the first run left.  An input the first run filed under
    "successful" or "skipped", with an output that is a plain file name, is
    skipped by the second run: the cleanup before the pass preserves its
    output and the pass finds it. *)
Theorem X12_rerun_skips_settled e e' config_name collection dats w r1 r2 :
  List.NoDup (List.map (system_of_input collection) dats) ->
  (forall i, In i dats -> i <> EmptyString) ->
  process_pair e config_name collection dats w = Ret r1 ->
  process_pair e' config_name collection dats (fst r1) = Ret r2 ->
  (forall x, In x (successful (snd r1)) ->
     PathName.name (snd (fst x)) = snd (fst x) ->
     In (fst (fst x), snd (fst x)) (skipped (snd r2)))
  /\ (forall x, In x (skipped (snd r1)) ->
        PathName.name (snd x) = snd x ->
        In x (skipped (snd r2))).
Proof.
  intros Hnd Hne H1 H2.
  apply process_pair_ret in H1. apply process_pair_ret in H2.
  match type of H1 with
  | _ = process_all_dats_with_retool _ _ _ _ ?w0 => set (w1 := w0) in H1
  end.
  destruct (pass_settles (retool e) dats collection config_name w1 Hnd Hne)
    as [S1 S2].
  destruct (process_all_files_each (retool e) collection config_name dats
              w1 no_results) as (asg & Hasg & Hin0).
  rewrite <- H1 in S1, S2.
  assert (Hin : forall b, inputs_in b (snd r1) = filed asg b).
  { intros b. rewrite H1. unfold process_all_dats_with_retool.
    rewrite Hin0. now destruct b. }
  clear Hin0.
  assert (Hmem : forall b i, In i (inputs_in b (snd r1)) -> In i dats).
  { intros b i Hi. rewrite Hin in Hi. unfold filed in Hi.
    apply List.in_map_iff in Hi as (p & Hp & Hpin).
    apply List.filter_In in Hpin as [Hpin _].
    rewrite <- Hasg, <- Hp. now apply List.in_map. }
  assert (Hskip : forall i out,
            In i dats ->
            check_if_already_processed i (output_dat_dir (fst r1)) collection
            = Some out ->
            PathName.name out = out ->
            In (i, out) (skipped (snd r2))).
  { intros i out Hi Hc Hn. rewrite H2. unfold process_all_dats_with_retool.
    apply fold_skips_up_to_date; [exact Hnd | exact Hi |]. cbn [output_dat_dir].
    destruct (output_dat_dir (fst r1)) as [d|] eqn:Hd; [|discriminate].
    cbn [mkdir].
    destruct (cleanup_previous_dats (Some d)
                (existing_processed_files dats (Some d) collection))
      as [d'|] eqn:Hcl.
    - eapply check_after_cleanup; eauto using name_fixed_normal.
      apply existing_processed_files_spec. exists i, out. auto.
    - exfalso. unfold cleanup_previous_dats in Hcl.
      destruct (List.filter _ (List.filter is_dat _)); [discriminate|].
      destruct (fold_left remove_previous _ _) as [d1 m1].
      destruct (bool_decide (m1 <> ∅)); discriminate. }
  split.
  - intros x Hx Hn. apply Hskip; [|now apply S1|exact Hn].
    apply (Hmem b_successful). cbn. apply List.in_map_iff. eauto.
  - intros [i out] Hx Hn. apply Hskip; [|now apply (S2 (i, out))|exact Hn].
    apply (Hmem b_skipped). cbn. apply List.in_map_iff. exists (i, out). auto.
Qed.

(** X12 at two runs over one input, starting without directories. *)
Lemma X12_rerun_skips_settled_witness :
  exists r1 r2,
    process_pair example_env_success "cfg" "no-intro" [example_input] fresh_world
    = Ret r1
    /\ process_pair example_env_success "cfg" "no-intro" [example_input] (fst r1)
       = Ret r2
    /\ In (example_input, "Acorn - Archimedes (Fresh1G1R - cfg).dat")
          (skipped (snd r2)).
Proof.
  eexists. eexists.
  assert (H1 : process_pair example_env_success "cfg" "no-intro" [example_input]
                 fresh_world
               = Ret (process_all_dats_with_retool example_tool [example_input]
                        "no-intro" "cfg" (World true (Some empty_outdir) (Some []) [])))
    by (vm_compute; reflexivity).
  split; [exact H1|].
  assert (H2 : process_pair example_env_success "cfg" "no-intro" [example_input]
                 (fst (process_all_dats_with_retool example_tool [example_input]
                         "no-intro" "cfg"
                         (World true (Some empty_outdir) (Some []) [])))
               = Ret (process_all_dats_with_retool example_tool [example_input]
                        "no-intro" "cfg"
                        (fst (process_all_dats_with_retool example_tool
                                [example_input] "no-intro" "cfg"
                                (World true (Some empty_outdir) (Some []) [])))))
    by (vm_compute; reflexivity).
  split; [exact H2|].
  refine (proj1 (X12_rerun_skips_settled example_env_success example_env_success
                   "cfg" "no-intro" [example_input] fresh_world _ _ _ _ H1 H2)
                (example_input, "Acorn - Archimedes (Fresh1G1R - cfg).dat", None)
                _ _).
  - cbn. apply List.NoDup_cons; [intros [] | apply List.NoDup_nil].
  - intros i [<-|[]]. discriminate.
  - vm_compute. left. reflexivity.
  - vm_compute. reflexivity.
Defined.

(** ** What [main] returns *)

Lemma pass_bucket_total retool dat_files collection config_name w :
  bucket_total (snd (process_all_dats_with_retool retool dat_files collection
                       config_name w))
  = List.length dat_files.
Proof.
  unfold process_all_dats_with_retool.
  destruct (process_all_files_each retool collection config_name dat_files
              w no_results) as (asg & Hasg & Hin).
  pose proof (Hin b_successful) as H1. pose proof (Hin b_not_required) as H2.
  pose proof (Hin b_no_games) as H3. pose proof (Hin b_failed) as H4.
  pose proof (Hin b_skipped) as H5.
  cbn in H1, H2, H3, H4, H5.
  apply (f_equal (@List.length _)) in H1, H2, H3, H4, H5.
  rewrite List.length_map in H1, H2, H3, H4, H5.
  unfold bucket_total. rewrite H1, H2, H3, H4, H5, filed_total.
  rewrite <- Hasg. now rewrite List.length_map.
Qed.

Lemma preload_config_settings_keys e configs collections cs :
  preload_config_settings e configs collections = Ret cs ->
  List.map fst cs
  = flat_map (fun c => List.map (pair (fst c)) collections) configs.
Proof.
  revert cs. induction configs as [|[nm dir] configs IH]; intros cs; cbn.
  - now intros [= <-].
  - destruct (load_filters_config e dir) as [fe|]; cbn; [|discriminate].
    destruct (preload_config_settings e configs collections) as [more| |];
      cbn; try discriminate.
    intros [= <-]. rewrite List.map_app, List.map_map. cbn.
    now rewrite (IH more eq_refl).
Qed.

Lemma process_pairs_results e cd cs script :
  forall t acc t' all,
    process_pairs e cd cs script t acc = Ret (t', all) ->
    List.map fst all
    = (List.map fst acc
       ++ List.filter
            (fun k => match lookup_dats cd (snd k) with [] => false | _ => true end)
            (List.map fst cs))%list
    /\ forall cfg col res,
         In (cfg, col, res) all ->
         In (cfg, col, res) acc
         \/ bucket_total res = List.length (lookup_dats cd col).
Proof.
  induction cs as [|[[cn col] st] cs IH]; intros t acc t' all; cbn.
  - intros [= <- <-]. rewrite List.app_nil_r. auto.
  - destruct (lookup_dats cd col) as [|x dats] eqn:Hl.
    + apply IH.
    + destruct (process_pair e cn col (x :: dats)
                  (tree_of t (cn, col) script)) as [r| |] eqn:Hp;
        cbn; try discriminate.
      intros H. apply IH in H as [Hk Hb]. split.
      * rewrite Hk, List.map_app. cbn. now rewrite <- List.app_assoc.
      * intros cfg c res Hin. destruct (Hb cfg c res Hin) as [Ha|Ha]; [|auto].
        apply in_app_or in Ha as [Ha|[[= <- <- <-]|[]]]; [auto|].
        right. apply process_pair_ret in Hp. rewrite Hp, Hl.
        apply pass_bucket_total.
Qed.

Lemma lookup_collection_dats redump_dats no_intro_dats :
  lookup_dats (collection_dats_of redump_dats no_intro_dats) "redump"
  = redump_dats
  /\ lookup_dats (collection_dats_of redump_dats no_intro_dats) "no-intro"
     = no_intro_dats.
Proof. destruct redump_dats, no_intro_dats; split; reflexivity. Qed.

Lemma passes_of_filter configs redump_dats no_intro_dats :
  List.filter
    (fun k =>
       match lookup_dats (collection_dats_of redump_dats no_intro_dats) (snd k)
       with [] => false | _ => true end)
    (flat_map (fun c => List.map (pair (fst c)) DAT_COLLECTIONS) configs)
  = passes_of configs redump_dats no_intro_dats.
Proof.
  destruct (lookup_collection_dats redump_dats no_intro_dats) as [Hr Hn].
  induction configs as [|c configs IH]; [reflexivity|].
  cbn [flat_map passes_of]. rewrite List.filter_app.
  fold (passes_of configs redump_dats no_intro_dats). rewrite IH.
  f_equal. cbn [DAT_COLLECTIONS List.map List.filter snd]. rewrite Hr, Hn.
  destruct redump_dats, no_intro_dats; reflexivity.
Qed.

Lemma passes_of_nodup configs redump_dats no_intro_dats :
  List.NoDup (List.map fst configs) ->
  List.NoDup (passes_of configs redump_dats no_intro_dats).
Proof.
  assert (Hin : forall cs k,
            In k (passes_of cs redump_dats no_intro_dats) ->
            In (fst k) (List.map fst cs)).
  { induction cs as [|c cs IH]; intros k; cbn; [auto|].
    rewrite !List.in_app_iff. intros [[H|H]|H].
    - destruct redump_dats; [contradiction|]. destruct H as [<-|[]]. now left.
    - destruct no_intro_dats; [contradiction|]. destruct H as [<-|[]]. now left.
    - right. now apply IH. }
  induction configs as [|c configs IH]; cbn; intros Hnd; [constructor|].
  apply List.NoDup_cons_iff in Hnd as [Hc Hnd].
  apply List.NoDup_app; [|now apply IH|].
  - destruct redump_dats, no_intro_dats; cbn;
      repeat (apply List.NoDup_cons; [cbn; intuition congruence|]);
      apply List.NoDup_nil.
  - intros k Hk Hk'. apply Hin in Hk'. apply Hc.
    apply in_app_or in Hk as [Hk|Hk].
    + destruct redump_dats; [contradiction|]. destruct Hk as [<-|[]]. exact Hk'.
    + destruct no_intro_dats; [contradiction|]. destruct Hk as [<-|[]]. exact Hk'.
Qed.

Lemma process_configurations_ret e configs cd script t r :
  process_configurations e configs cd script t = Ret r ->
  exists cs,
    preload_config_settings e configs DAT_COLLECTIONS = Ret cs
    /\ process_pairs e cd cs script t [] = Ret r.
Proof.
  unfold process_configurations.
  destruct (install_retool_dependencies e); cbn [call bind]; [|discriminate].
  destruct (update_retool_main e); cbn [call bind]; [|discriminate].
  destruct (update_retool_clone_lists e); cbn [call bind]; [|discriminate].
  destruct (preload_config_settings e configs DAT_COLLECTIONS)
    as [cs| |]; cbn [call bind]; try discriminate.
  destruct (process_pairs e cd cs script t []) as [r'| |] eqn:Hp;
    cbn [call bind]; try discriminate.
  destruct (remove_retool_user_config e); cbn [call bind]; [|discriminate].
  intros [= <-]. exists cs. split; [reflexivity | exact Hp].
Qed.

Lemma main_ret e script t r configs redump_dats no_intro_dats :
  discover_configs e = Returns configs ->
  download_all_redump_dats e = Returns redump_dats ->
  download_no_intro_dats e = Returns no_intro_dats ->
  main e script t = Ret r ->
  exists cs,
    preload_config_settings e configs DAT_COLLECTIONS = Ret cs
    /\ process_pairs e (collection_dats_of redump_dats no_intro_dats) cs
         script t []
       = Ret r.
Proof.
  intros Hd Hr Hn. unfold main, collect. rewrite Hd, Hr, Hn.
  cbn -[process_configurations collection_dats_of].
  destruct configs as [|c configs]; [discriminate|].
  destruct (_ =? 0)%nat; [discriminate|].
  destruct (clone_retool_if_needed e) as [[|]|];
    cbn -[process_configurations collection_dats_of]; try discriminate.
  apply process_configurations_ret.
Qed.

(** X13.  When [main] returns, [all_results] has one entry for every
    discovered configuration, in order, with each collection that has DAT
    files, and no key twice when the configurations have distinct names;
    the five buckets of an entry add up to the number of DAT files of its
    collection. *)
Theorem X13_main_results e script t t' all_results configs redump_dats
    no_intro_dats :
  discover_configs e = Returns configs ->
  download_all_redump_dats e = Returns redump_dats ->
  download_no_intro_dats e = Returns no_intro_dats ->
  main e script t = Ret (t', all_results) ->
  List.map fst all_results = passes_of configs redump_dats no_intro_dats
  /\ (List.NoDup (List.map fst configs) ->
      List.NoDup (List.map fst all_results))
  /\ (forall config_name res,
        In (config_name, "redump", res) all_results ->
        bucket_total res = List.length redump_dats)
  /\ (forall config_name res,
        In (config_name, "no-intro", res) all_results ->
        bucket_total res = List.length no_intro_dats).
Proof.
  intros Hd Hr Hn Hm.
  destruct (main_ret e script t _ _ _ _ Hd Hr Hn Hm) as (cs & Hcs & Hp).
  apply process_pairs_results in Hp as [Hk Hb].
  apply preload_config_settings_keys in Hcs.
  cbn [List.map app] in Hk. rewrite Hcs, passes_of_filter in Hk.
  destruct (lookup_collection_dats redump_dats no_intro_dats) as [Lr Ln].
  split; [exact Hk|]. split; [|split].
  - intros Hnd. rewrite Hk. now apply passes_of_nodup.
  - intros cn res Hin. destruct (Hb cn _ res Hin) as [[]|H]. now rewrite Lr in H.
  - intros cn res Hin. destruct (Hb cn _ res Hin) as [[]|H]. now rewrite Ln in H.
Qed.

(** X13 at a run with one configuration and one No-Intro file. *)
Lemma X13_main_results_witness :
  exists t' all_results,
    main example_env_success true ∅ = Ret (t', all_results)
    /\ List.map fst all_results = [("cfg", "no-intro")].
Proof.
  assert (H : exists r, main example_env_success true ∅ = Ret r)
    by (eexists; vm_compute; reflexivity).
  destruct H as [[t' all_results] H].
  exists t', all_results. split; [exact H|].
  exact (proj1 (X13_main_results example_env_success true ∅ t' all_results
                  [("cfg", "config/cfg")] [] [example_input]
                  eq_refl eq_refl eq_refl H)).
Defined.


(** ** The name of a processed DAT, read back *)

Lemma run_Lit_match {A} (l : string) :
  forall (k : @cont A) pos x,
    run (Lit l) k pos (l ++ x) = k (pos + String.length l) x.
Proof.
  induction l as [|c l IH]; intros k pos x; cbn.
  - now rewrite Nat.add_0_r.
  - rewrite Ascii.eqb_refl, IH. f_equal. lia.
Qed.

(** The marker does not start inside a text that lacks its first thirteen
    characters. *)
Lemma marker_not_early t x :
  t <> EmptyString ->
  contains " (Fresh1G1R -" t = false ->
  startswith " (Fresh1G1R - " (t ++ " (Fresh1G1R - " ++ x) = false.
Proof.
  intros Hne Hc.
  destruct (startswith " (Fresh1G1R - " (t ++ " (Fresh1G1R - " ++ x)) eqn:H;
    [exfalso|reflexivity].
  destruct t as [|c t]; [congruence|].
  cbn [startswith String.append] in H.
  apply andb_prop in H as [Hc1 H]; apply Ascii.eqb_eq in Hc1; subst c.
  do 12 (destruct t as [|c t];
         [vm_compute in H; discriminate H|];
         cbn [startswith String.append] in H;
         apply andb_prop in H as [Hc1 H]; apply Ascii.eqb_eq in Hc1; subst c).
  apply contains_false_startswith in Hc. vm_compute in Hc. discriminate Hc.
Qed.

(** The lazy [.+?] runs on to the first place where what follows it
    matches. *)
Lemma lazy_dot_skip {A} (K : @cont A) b x :
  (forall t pos, t <> EmptyString -> contains " (Fresh1G1R -" t = false ->
                 K pos (t ++ b) = None) ->
  forall a fuel pos,
    lacks "010" a = true ->
    contains " (Fresh1G1R -" a = false ->
    String.length a < fuel ->
    K (pos + String.length a) b = Some x ->
    lazy (run Dot) K fuel pos (a ++ b) = Some x.
Proof.
  intros HK. induction a as [|c a IH]; intros fuel pos Hlf Hc Hfuel Hx.
  - destruct fuel as [|n]; [inversion Hfuel|]. cbn in *.
    rewrite Nat.add_0_r in Hx. now rewrite Hx.
  - destruct fuel as [|n]; [inversion Hfuel|].
    cbn [lazy]. rewrite (HK (String c a) pos) by (congruence || exact Hc).
    cbn [String.append run Dot]. cbn [lacks] in Hlf.
    apply andb_prop in Hlf as [Hc1 Hlf]. rewrite Hc1.
    assert (Hlt : (pos <? S pos)%nat = true) by (apply Nat.ltb_lt; lia).
    rewrite Hlt. apply IH; [exact Hlf| | |].
    + apply contains_cons_false in Hc. tauto.
    + cbn in Hfuel. lia.
    + cbn in Hx. now replace (S pos + String.length a)
                      with (pos + S (String.length a)) by lia.
Qed.

(** The greedy [[^)]+] takes everything up to the closing parenthesis. *)
Lemma greedy_to_paren {A} (k : @cont A) y x :
  forall a fuel pos,
    lacks ")" a = true ->
    String.length a < fuel ->
    k (pos + String.length a) (String ")" y) = Some x ->
    greedy (run (Not ")")) k fuel pos (a ++ String ")" y) = Some x.
Proof.
  induction a as [|c a IH]; intros fuel pos Hl Hfuel Hx.
  - destruct fuel as [|n]; [inversion Hfuel|]. cbn in *.
    rewrite Nat.add_0_r in Hx. exact Hx.
  - destruct fuel as [|n]; [inversion Hfuel|].
    cbn [greedy String.append run Not]. cbn [lacks] in Hl.
    apply andb_prop in Hl as [Hc1 Hl]. rewrite Hc1.
    assert (Hlt : (pos <? S pos)%nat = true) by (apply Nat.ltb_lt; lia).
    rewrite Hlt. rewrite IH; [reflexivity | exact Hl | cbn in Hfuel; lia |].
    cbn in Hx. now replace (S pos + String.length a)
                  with (pos + S (String.length a)) by lia.
Qed.

Lemma take_append_s a b : take (String.length a) (a ++ b) = a.
Proof. induction a as [|c a IH]; cbn; [now destruct b | now rewrite IH]. Qed.

Lemma output_name_read_back system_name config_name :
  system_name <> EmptyString ->
  lacks "010" system_name = true ->
  contains " (Fresh1G1R -" system_name = false ->
  config_name <> EmptyString ->
  lacks ")" config_name = true ->
  match_group1 output_name_group output_name_rest
    (new_name system_name config_name ".dat")
  = Some system_name.
Proof.
  intros Hs Hlf Hm Hcfg Hp.
  unfold new_name. destruct config_name as [|c0 cfg]; [congruence|].
  cbn [is_empty negb].
  set (full := system_name ++ " (Fresh1G1R - " ++ String c0 cfg ++ ")" ++ ".dat").
  unfold match_group1, output_name_group, LazyPlus.
  set (K := fun (p1 : nat) (s1 : string) =>
              run output_name_rest (fun _ _ => Some (take p1 full)) p1 s1).
  destruct system_name as [|c s]; [congruence|].
  cbn [lacks] in Hlf. apply andb_prop in Hlf as [Hc1 Hlf].
  apply contains_cons_false in Hm as [_ Hm].
  subst full. cbn [String.append]. cbn [run Dot Nat.eqb]. rewrite Hc1.
  set (full := String c (s ++ " (Fresh1G1R - " ++ String c0 (cfg ++ ")" ++ ".dat")))
    in *.
  apply lazy_dot_skip; [|exact Hlf|exact Hm| |].
  - intros t pos Ht Hct. unfold K, output_name_rest. cbn [run].
    apply run_Lit_mismatch.
    exact (marker_not_early t (String c0 (cfg ++ ")" ++ ".dat")) Ht Hct).
  - rewrite length_append_s. lia.
  - unfold K, output_name_rest, Plus.
    cbn [lacks] in Hp. apply andb_prop in Hp as [Hc0 Hp].
    transitivity
      (run ((Not ")" ;; Star (Not ")")) ;; Chr ")" ;; Lit ".dat" ;; Eol)
         (fun _ _ => Some (take (1 + String.length s) full))
         (1 + String.length s + String.length " (Fresh1G1R - ")
         (String c0 (cfg ++ String ")" ".dat"))).
    { exact (run_Lit_match " (Fresh1G1R - " _ _ _). }
    cbn [run Not]. rewrite Hc0.
    rewrite greedy_to_paren with (x := String c s);
      [reflexivity | exact Hp | rewrite length_append_s; cbn; lia |].
    cbn [run Lit at_eol Ascii.eqb Bool.eqb]. f_equal.
    exact (take_append_s (String c s) _).
Qed.

(** X14.  The name [run_retool] gives the processed DAT of a system is read
    back by the pattern of [cleanup_previous_dats] as that system, when the
    system name is not empty, has no line feed and does not contain the
    opening of the marker, and the configuration name is not empty and has
    no closing parenthesis. *)
Theorem X14_processed_name_read_back system_name config_name :
  system_name <> EmptyString ->
  lacks "010" system_name = true ->
  contains " (Fresh1G1R -" system_name = false ->
  config_name <> EmptyString ->
  lacks ")" config_name = true ->
  match_group1 output_name_group output_name_rest
    (processed_name config_name system_name)
  = Some system_name.
Proof. apply output_name_read_back. Qed.

Lemma X14_processed_name_read_back_witness :
  match_group1 output_name_group output_name_rest
    (processed_name "cfg" "Acorn - Archimedes")
  = Some "Acorn - Archimedes".
Proof.
  apply (X14_processed_name_read_back "Acorn - Archimedes" "cfg");
    (discriminate || reflexivity).
Defined.

(** ** A removed processed DAT takes its metadata entry with it *)

(** Once the loop has met a file whose name reads back as a system, the
    entry of the system does not point to that file. *)
Lemma remove_previous_drops f system_name l :
  match_group1 output_name_group output_name_rest f = Some system_name ->
  forall d m,
    In f l ->
    forall e,
      snd (fold_left remove_previous l (d, m)) !! system_name = Some e ->
      output_path e <> f.
Proof.
  intros Hg. induction l as [|y l IH]; intros d m Hin e He; [contradiction|].
  cbn [fold_left] in He. destruct Hin as [->|Hin].
  - destruct (remove_previous_fold l (fst (remove_previous (d, m) f))
                (snd (remove_previous (d, m) f))) as (_ & S1 & _).
    rewrite <- surjective_pairing in S1. apply S1 in He. clear S1.
    unfold remove_previous in He. rewrite Hg in He.
    destruct (m !! system_name) as [e0|] eqn:He0; cbn [snd] in He.
    + destruct (bool_decide (output_path e0 = f)) eqn:Hb; cbn [snd] in He.
      * rewrite lookup_delete_eq in He. discriminate.
      * apply bool_decide_eq_false in Hb. congruence.
    + congruence.
  - destruct (remove_previous (d, m) y) as [d1 m1]. now apply (IH d1 m1).
Qed.

(** X15.  When [cleanup_previous_dats] removes the processed DAT that the
    metadata entry of a system points to, and the file carries the name
    [run_retool] gives it, the entry of the system is removed with the
    file. *)
Theorem X15_cleanup_drops_entry d (preserve_files : gset string)
    system_name config_name e :
  system_name <> EmptyString ->
  lacks "010" system_name = true ->
  contains " (Fresh1G1R -" system_name = false ->
  config_name <> EmptyString ->
  lacks ")" config_name = true ->
  load_metadata d !! system_name = Some e ->
  output_path e = processed_name config_name system_name ->
  is_Some (files d !! output_path e) ->
  output_path e ∉ preserve_files ->
  exists d',
    cleanup_previous_dats (Some d) preserve_files = Some d'
    /\ files d' !! output_path e = None
    /\ load_metadata d' !! system_name = None.
Proof.
  intros Hs Hlf Hm Hc Hp He Hout Hfile Hpres.
  pose proof (output_name_read_back system_name config_name Hs Hlf Hm Hc Hp)
    as Hg.
  fold (processed_name config_name system_name) in Hg. rewrite <- Hout in Hg.
  assert (Hdat : is_dat (output_path e) = true)
    by (rewrite Hout; apply processed_name_is_dat).
  destruct (cleanup_previous_dats (Some d) preserve_files) as [d'|] eqn:Hcl.
  2:{ exfalso. unfold cleanup_previous_dats in Hcl.
      destruct (List.filter _ (List.filter is_dat _)); [discriminate|].
      destruct (fold_left remove_previous _ _) as [d1 m1].
      destruct (bool_decide (m1 <> ∅)); discriminate. }
  exists d'. split; [reflexivity|].
  destruct (cleanup_previous_dats_spec d preserve_files d' Hcl) as (F & S1 & _).
  split.
  - destruct (files d' !! output_path e) as [x|] eqn:Hx; [|reflexivity].
    apply F in Hx as [_ [H|H]]; [congruence | contradiction].
  - destruct (load_metadata d' !! system_name) as [e'|] eqn:He'; [|reflexivity].
    exfalso.
    assert (e' = e) as -> by (apply S1 in He'; congruence).
    revert Hcl He'. unfold cleanup_previous_dats.
    set (l := List.filter
                (fun f => negb (bool_decide (f ∈ preserve_files)))
                (List.filter is_dat (List.map fst (map_to_list (files d))))).
    assert (Hin : In (output_path e) l).
    { unfold l. rewrite !List.filter_In, in_names_of_files.
      rewrite negb_true_iff, bool_decide_eq_false. auto. }
    pose proof (remove_previous_drops (output_path e) system_name l Hg d
                  (load_metadata d) Hin) as Hdrop.
    destruct l as [|y l']; [contradiction|].
    destruct (fold_left remove_previous (y :: l') (d, load_metadata d))
      as [d1 m1].
    cbn [snd] in Hdrop.
    destruct (bool_decide (m1 <> ∅)) eqn:Hb; intros [= <-] He'.
    + unfold load_metadata, save_metadata in He'. cbn in He'.
      exact (Hdrop e He' eq_refl).
    + unfold load_metadata in He'. cbn in He'.
      rewrite lookup_empty in He'. discriminate.
Qed.

(** X15 at the example directory, cleaned with nothing to preserve. *)
Lemma X15_cleanup_drops_entry_witness :
  exists d',
    cleanup_previous_dats (Some example_outdir) ∅ = Some d'
    /\ files d' !! "Acorn - Archimedes (Fresh1G1R - cfg).dat" = None
    /\ load_metadata d' !! "Acorn - Archimedes" = None.
Proof.
  apply (X15_cleanup_drops_entry example_outdir ∅ "Acorn - Archimedes" "cfg"
           (Entry (Some "Acorn - Archimedes (20231029-220453).dat") None
                  "Acorn - Archimedes (Fresh1G1R - cfg).dat")).
  - discriminate.
  - reflexivity.
  - reflexivity.
  - discriminate.
  - reflexivity.
  - vm_compute. reflexivity.
  - reflexivity.
  - vm_compute. eexists. reflexivity.
  - apply not_elem_of_empty.
Defined.


(** ** What a download does to the directory *)

Import Redump.





(** X17.  A file that is already there is not fetched again: when the
    answer to the HEAD request names a file that is not a zip archive, and
    the [.dat] file of that name is in the directory, [download_redump_dat]
    with [skip_if_exists] reports a skip of that file after the HEAD request
    alone, and the directory is as it was. *)
Theorem X17_existing_file_not_fetched n dat_name st content_header file_name :
  head n (requests st) dat_name = Some content_header ->
  header_group filename_open filename_close content_header = Some file_name ->
  file_name <> EmptyString ->
  endswith ".zip" file_name = false ->
  direct_name file_name ∈ dir st ->
  download_redump_dat n dat_name true st
  = ((Some (direct_name file_name), true), asked (Head dat_name) st).
Proof.
  intros Hh Hg Hne Hz Hin.
  unfold download_redump_dat, get_redump_dat_info. rewrite Hh, Hg.
  destruct file_name as [|c f]; [congruence|].
  cbn [truthy is_empty negb or_default]. rewrite Hz. cbn [andb asked dir].
  now rewrite (bool_decide_eq_true_2 _ Hin).
Qed.

(** ** One file for every system that was downloaded *)




(** X17 at a server that names the Saturn file of the example directory. *)
Lemma X17_existing_file_not_fetched_witness :
  download_redump_dat example_net_same "ss" true (State example_downloads [])
  = ((Some "Sega - Saturn (2025-10-01 09-30-00) - Datfile (12).dat", true),
     State example_downloads [Head "ss"]).
Proof.
  apply (X17_existing_file_not_fetched example_net_same "ss"
           (State example_downloads [])
           (attachment "Sega - Saturn (2025-10-01 09-30-00) - Datfile (12).dat")
           "Sega - Saturn (2025-10-01 09-30-00) - Datfile (12).dat").
  - reflexivity.
  - vm_compute. reflexivity.
  - discriminate.
  - vm_compute. reflexivity.
  - apply (bool_decide_unpack _). vm_compute. exact I.
Defined.



(** ** The error message is one line *)

Lemma lacks_app c a b : lacks c (a ++ b) = lacks c a && lacks c b.
Proof.
  induction a as [|x a IH]; cbn; [reflexivity|].
  now rewrite IH, andb_assoc.
Qed.

Lemma lacks_lstrip c s : lacks c s = true -> lacks c (lstrip s) = true.
Proof.
  induction s as [|x s IH]; cbn; [auto|]. intros H.
  destruct (is_space x); [|exact H].
  apply andb_prop in H as [_ H]. now apply IH.
Qed.

Lemma lacks_rstrip c s : lacks c s = true -> lacks c (rstrip s) = true.
Proof.
  induction s as [|x s IH]; cbn; [auto|]. intros H.
  apply andb_prop in H as [Hx H].
  destruct (is_space x && is_empty (rstrip s)); [reflexivity|].
  cbn. now rewrite Hx, IH.
Qed.

Lemma lacks_strip c s : lacks c s = true -> lacks c (strip s) = true.
Proof. intros H. unfold strip. now apply lacks_lstrip, lacks_rstrip. Qed.

Lemma lacks_take c n s : lacks c s = true -> lacks c (take n s) = true.
Proof.
  revert s. induction n as [|n IH]; intros [|x s]; cbn; auto.
  intros H. apply andb_prop in H as [Hx H]. now rewrite Hx, IH.
Qed.

Lemma lacks_drop c n s : lacks c s = true -> lacks c (drop n s) = true.
Proof.
  revert s. induction n as [|n IH]; intros [|x s]; cbn; auto.
  intros H. apply andb_prop in H as [_ H]. now apply IH.
Qed.

Lemma lacks_join c sep parts :
  lacks c sep = true ->
  List.Forall (fun w => lacks c w = true) parts ->
  lacks c (join sep parts) = true.
Proof.
  intros Hs H. induction H as [|w ws Hw Hws IH]; [reflexivity|].
  cbn [join]. destruct ws as [|w' ws']; [exact Hw|].
  rewrite !lacks_app, Hw, Hs. exact IH.
Qed.

Lemma sub_from_lacks c r repl s :
  lacks c repl = true ->
  forall skip pos,
    lacks c s = true -> lacks c (sub_from r repl skip pos s) = true.
Proof.
  intros Hr. induction s as [|x s IH]; intros skip pos H.
  - destruct skip; cbn; [|reflexivity].
    destruct (match_at r pos EmptyString); [exact Hr | reflexivity].
  - cbn [lacks] in H. apply andb_prop in H as [Hx H].
    destruct skip as [|n]; cbn [sub_from]; [|now apply IH].
    destruct (match_at r pos (String x s)) as [e|].
    + destruct (pos <? e)%nat; rewrite lacks_app, Hr; cbn [andb].
      * now apply IH.
      * cbn [lacks]. rewrite Hx. now apply IH.
    + cbn [lacks]. rewrite Hx. now apply IH.
Qed.

Lemma lacks_sub c r repl s :
  lacks c repl = true -> lacks c s = true -> lacks c (sub r repl s) = true.
Proof. intros Hr H. unfold sub. now apply sub_from_lacks. Qed.

Lemma lacks_strip_bullet_point c msg :
  lacks c msg = true -> lacks c (strip_bullet_point msg) = true.
Proof.
  intros H. unfold strip_bullet_point. now apply lacks_strip, lacks_sub.
Qed.

Lemma wrapped_lines_lacks c lines :
  List.Forall (fun w => lacks c w = true) lines ->
  List.Forall (fun w => lacks c w = true) (wrapped_lines lines).
Proof.
  induction 1 as [|w ws Hw Hws IH]; cbn [wrapped_lines]; [constructor|].
  destruct (is_empty (strip w)); [constructor|].
  destruct (is_some (rmatch drive_prompt (strip w))); [constructor|].
  constructor; [now apply lacks_strip | exact IH].
Qed.

Lemma error_section_lines_lacks c lines :
  List.Forall (fun w => lacks c w = true) lines ->
  List.Forall (fun w => lacks c w = true) (error_section_lines lines).
Proof.
  induction 1 as [|w ws Hw Hws IH]; cbn [error_section_lines]; [constructor|].
  destruct (is_empty (strip w)); [constructor|].
  destruct (is_some (rmatch drive_prompt (strip w))); [constructor|].
  destruct (startswith "• " (strip w) && negb (startswith "• Error:" (strip w)));
    [constructor|].
  constructor; [now apply lacks_strip | exact IH].
Qed.

Lemma last_plain_line_lacks c candidates msg :
  List.Forall (fun w => lacks c w = true) candidates ->
  last_plain_line candidates = Some msg -> lacks c msg = true.
Proof.
  induction 1 as [|w ws Hw Hws IH]; cbn [last_plain_line]; [discriminate|].
  destruct (negb (is_some (rmatch drive_prompt w)) && negb (contains "Retool" w)).
  - intros [= <-]. now apply lacks_strip_bullet_point.
  - exact IH.
Qed.

(** What a match returns comes from its continuation. *)
Lemma greedy_from_cont {A} (step : @cont A -> @cont A) (k : @cont A) :
  (forall k' pos s x, step k' pos s = Some x ->
                      exists p' s', k' p' s' = Some x) ->
  forall fuel pos s x,
    greedy step k fuel pos s = Some x -> exists p' s', k p' s' = Some x.
Proof.
  intros Hstep. induction fuel as [|n IH]; intros pos s x; cbn [greedy];
    [eauto|].
  destruct (step _ pos s) as [y|] eqn:Hs; [|eauto].
  intros [= ->]. apply Hstep in Hs as (p' & s' & Hk). revert Hk.
  destruct (pos <? p')%nat; [apply IH | discriminate].
Qed.

Lemma lazy_from_cont {A} (step : @cont A -> @cont A) (k : @cont A) :
  (forall k' pos s x, step k' pos s = Some x ->
                      exists p' s', k' p' s' = Some x) ->
  forall fuel pos s x,
    lazy step k fuel pos s = Some x -> exists p' s', k p' s' = Some x.
Proof.
  intros Hstep. induction fuel as [|n IH]; intros pos s x; cbn [lazy];
    [eauto|].
  destruct (k pos s) as [y|] eqn:Hk; [intros [= ->]; eauto|].
  intros Hs. apply Hstep in Hs as (p' & s' & Hk'). revert Hk'.
  destruct (pos <? p')%nat; [apply IH | discriminate].
Qed.

Lemma run_from_cont {A} (r : re) :
  forall (k : @cont A) pos s x,
    run r k pos s = Some x -> exists p' s', k p' s' = Some x.
Proof.
  induction r as [|c|p|r1 IH1 r2 IH2|r1 IH1 r2 IH2|r IH|r IH| |];
    intros k pos s x; cbn [run].
  - eauto.
  - destruct s as [|a s]; [discriminate|].
    destruct (Ascii.eqb a c); [eauto | discriminate].
  - destruct s as [|a s]; [discriminate|].
    destruct (p a); [eauto | discriminate].
  - intros H. apply IH1 in H as (p1 & s1 & H). now apply IH2 in H.
  - destruct (run r1 k pos s) as [y|] eqn:H1.
    + intros [= ->]. now apply IH1 in H1.
    + apply IH2.
  - apply greedy_from_cont. intros k' p0 s0 x0. apply IH.
  - apply lazy_from_cont. intros k' p0 s0 x0. apply IH.
  - destruct (pos =? 0)%nat; [eauto | discriminate].
  - destruct (at_eol s); [eauto | discriminate].
Qed.

Lemma search_group2_from_lacks c r1 r2 all :
  lacks c all = true ->
  forall s pos g,
    search_group2_from r1 r2 all pos s = Some g -> lacks c g = true.
Proof.
  intros Hall. induction s as [|x s IH]; intros pos g; cbn [search_group2_from].
  - destruct (run r1 _ pos EmptyString) as [y|] eqn:H; [|discriminate].
    intros [= ->]. apply run_from_cont in H as (p1 & s1 & H).
    apply run_from_cont in H as (p2 & s2 & [= <-]).
    now apply lacks_take, lacks_drop.
  - destruct (run r1 _ pos (String x s)) as [y|] eqn:H.
    + intros [= ->]. apply run_from_cont in H as (p1 & s1 & H).
      apply run_from_cont in H as (p2 & s2 & [= <-]).
      now apply lacks_take, lacks_drop.
    + apply IH.
Qed.

Lemma fallback_message_lacks text : lacks "010" (fallback_message text) = true.
Proof.
  unfold fallback_message.
  match goal with
  | |- context [last_plain_line ?l] => destruct (last_plain_line l) eqn:H
  end; [|reflexivity].
  eapply last_plain_line_lacks; [|exact H].
  apply List.Forall_rev, List.Forall_map.
  apply List.Forall_forall. intros w Hw. apply List.filter_In in Hw as [Hw _].
  apply lacks_strip.
  pose proof (split_lacks "010" text) as Hs.
  rewrite List.Forall_forall in Hs. now apply Hs.
Qed.

(** X19.  The message [extract_retool_error] returns is one line: whatever
    the captured output, it contains no line feed. *)
Theorem X19_error_message_one_line output :
  lacks "010" (extract_retool_error output) = true.
Proof.
  unfold extract_retool_error.
  destruct (is_empty output); [reflexivity|].
  set (text := sub ansi_escape EmptyString _).
  destruct (search no_valid_titles_re text) as [[start e]|].
  - apply lacks_strip_bullet_point, lacks_join; [reflexivity|].
    apply wrapped_lines_lacks, split_lacks.
  - destruct (find "• Error:" text) as [idx|]; [|apply fallback_message_lacks].
    set (joined := join " " _).
    assert (Hj : lacks "010" joined = true).
    { apply lacks_join; [reflexivity|].
      apply error_section_lines_lacks, split_lacks. }
    destruct (search_group2_from quoted_path_re quoted_path_group joined 0 joined)
      as [g|] eqn:Hg.
    + apply lacks_strip_bullet_point, lacks_strip.
      eapply search_group2_from_lacks; [exact Hj | exact Hg].
    + destruct (negb (is_empty joined)); [|apply fallback_message_lacks].
      apply lacks_strip_bullet_point, lacks_strip, lacks_sub;
        [reflexivity | exact Hj].
Qed.

(** ** A pass only adds *)

Lemma process_one_world retool collection config_name w res dat_file :
  fst (process_one retool collection config_name (w, res) dat_file) = w
  \/ fst (process_one retool collection config_name (w, res) dat_file)
     = fst (run_retool retool dat_file collection config_name w).
Proof.
  unfold process_one. cbn [negb ALWAYS_REPROCESS].
  destruct (check_if_already_processed dat_file (output_dat_dir w) collection);
    [now left|].
  right.
  destruct (run_retool retool dat_file collection config_name w)
    as [w' [[[od rt] st] em]].
  destruct st, od; reflexivity.
Qed.

Lemma run_retool_keeps_entries retool input_dat collection config_name w s :
  has_entry w s ->
  has_entry (fst (run_retool retool input_dat collection config_name w)) s.
Proof.
  unfold has_entry, run_retool. intros H.
  destruct (retool_script w); cbn; [|exact H].
  destruct (retool (calls w) input_dat) as [r|msg]; cbn; [|exact H].
  destruct (max_by_mtime (List.filter (fun p => is_dat (fst p)) (produced r)));
    destruct (max_by_mtime (List.filter (fun p => is_txt (fst p)) (produced r)));
    cbn [fst snd output_dat_dir mkdir with_output with_call with_report];
    try exact H;
    unfold record_mapping, save_metadata, load_metadata at 1;
    cbn [metadata_json];
    (match goal with
     | |- is_Some (<[?k := _]> _ !! s) =>
         destruct (decide (s = k)) as [->|Hne];
         [rewrite lookup_insert_eq; eauto
         |rewrite lookup_insert_ne by congruence]
     end);
    unfold load_metadata, move_in, remove_existing, unlink in *;
    cbn [metadata_json];
    match goal with
    | |- context [file_exists ?d ?f] => destruct (file_exists d f)
    end; exact H.
Qed.

Lemma place_file_keeps f listing nm :
  In nm (List.map fst listing) -> In nm (List.map fst (place_file f listing)).
Proof.
  unfold place_file, remove_file. intros H.
  rewrite List.map_app, List.in_app_iff.
  destruct (String.eqb_spec nm (fst f)) as [->|Hne]; [right; now left|].
  left. apply List.in_map_iff in H as (x & <- & Hx).
  apply List.in_map, List.filter_In. split; [exact Hx|].
  apply negb_true_iff, String.eqb_neq. exact Hne.
Qed.

Lemma run_retool_keeps_reports retool input_dat collection config_name w nm :
  In nm (List.map fst (reports_of w)) ->
  In nm (List.map fst
           (reports_of (fst (run_retool retool input_dat collection config_name w)))).
Proof.
  unfold reports_of, run_retool. intros H.
  destruct (retool_script w); cbn; [|exact H].
  destruct (retool (calls w) input_dat) as [r|msg]; cbn; [|exact H].
  destruct (max_by_mtime (List.filter (fun p => is_dat (fst p)) (produced r)));
    destruct (max_by_mtime (List.filter (fun p => is_txt (fst p)) (produced r)));
    cbn [fst snd report_dir with_output with_call with_report];
    try exact H; now apply place_file_keeps.
Qed.

Lemma pass_keeps (P : world -> Prop) retool collection config_name :
  (forall w x, P w -> P (fst (run_retool retool x collection config_name w))) ->
  forall l w res,
    P w ->
    P (fst (fold_left (process_one retool collection config_name) l (w, res))).
Proof.
  intros Hrun. induction l as [|x l IH]; intros w res H; [exact H|].
  cbn [fold_left].
  destruct (process_one_world retool collection config_name w res x) as [E|E];
    destruct (process_one retool collection config_name (w, res) x)
      as [w1 res1]; cbn [fst] in E; subst w1; apply IH; auto.
Qed.

(** X20.  A pass removes nothing for good: a file of the output directory,
    a system with a metadata entry and a report name that are there before
    [process_all_dats_with_retool] are there after it, whatever the tool
    does. *)
Theorem X20_pass_only_adds retool dat_files collection config_name w :
  let w' := fst (process_all_dats_with_retool retool dat_files collection
                   config_name w) in
  (forall f, on_disk w f -> on_disk w' f)
  /\ (forall s, has_entry w s -> has_entry w' s)
  /\ (forall nm, In nm (List.map fst (reports_of w)) ->
                 In nm (List.map fst (reports_of w'))).
Proof.
  unfold process_all_dats_with_retool. split; [|split].
  - intros f. apply (pass_keeps (fun w => on_disk w f)).
    intros w0 x. apply run_retool_keeps_files.
  - intros s. apply (pass_keeps (fun w => has_entry w s)).
    intros w0 x. apply run_retool_keeps_entries.
  - intros nm. apply (pass_keeps (fun w => In nm (List.map fst (reports_of w)))).
    intros w0 x. apply run_retool_keeps_reports.
Qed.


(** ** The normalizer on dated file names *)

Lemma contains_app_false L a b :
  (forall j, j < String.length a -> startswith L (drop j a ++ b) = false) ->
  contains L b = false ->
  contains L (a ++ b) = false.
Proof.
  induction a as [|c a IH]; intros H Hb; [exact Hb|].
  cbn [String.append contains].
  pose proof (H 0 ltac:(cbn; lia)) as H0. cbn [drop String.append] in H0.
  rewrite H0. cbn [orb]. apply IH; [|exact Hb].
  intros j Hj. apply (H (S j)). cbn. lia.
Qed.

Lemma search_from_skip r a b :
  forall pos,
    (forall j, j < String.length a ->
               match_at r (pos + j) (drop j a ++ b) = None) ->
    search_from r pos (a ++ b) = search_from r (pos + String.length a) b.
Proof.
  induction a as [|c a IH]; intros pos H.
  - cbn. now rewrite Nat.add_0_r.
  - pose proof (H 0 ltac:(cbn; lia)) as H0.
    rewrite Nat.add_0_r in H0. cbn [drop] in H0.
    cbn [String.append] in *. cbn [search_from]. rewrite H0.
    rewrite IH.
    + f_equal. cbn. lia.
    + intros j Hj. specialize (H (S j) ltac:(cbn; lia)). cbn [drop] in H.
      now replace (S pos + j) with (pos + S j) by lia.
Qed.

Lemma sub_from_skip_prefix r repl a b :
  forall pos,
    (forall j, j < String.length a ->
               match_at r (pos + j) (drop j a ++ b) = None) ->
    sub_from r repl 0 pos (a ++ b)
    = a ++ sub_from r repl 0 (pos + String.length a) b.
Proof.
  induction a as [|c a IH]; intros pos H.
  - cbn. now rewrite Nat.add_0_r.
  - pose proof (H 0 ltac:(cbn; lia)) as H0.
    rewrite Nat.add_0_r in H0. cbn [drop] in H0.
    cbn [String.append] in *. cbn [sub_from]. rewrite H0. f_equal.
    rewrite IH.
    + do 2 f_equal. cbn. lia.
    + intros j Hj. specialize (H (S j) ltac:(cbn; lia)). cbn [drop] in H.
      now replace (S pos + j) with (pos + S j) by lia.
Qed.

Lemma sub_from_skipped r repl a b :
  forall pos,
    sub_from r repl (String.length a) pos (a ++ b)
    = sub_from r repl 0 (pos + String.length a) b.
Proof.
  induction a as [|c a IH]; intros pos.
  - cbn [String.length String.append]. now rewrite Nat.add_0_r.
  - cbn [String.length String.append sub_from]. rewrite IH. f_equal. lia.
Qed.

(** A match of [m] at the front is replaced, and the replacing goes on
    behind it. *)
Lemma sub_from_match r repl c m b pos :
  match_at r pos (String c m ++ b) = Some (pos + S (String.length m)) ->
  sub_from r repl 0 pos (String c m ++ b)
  = repl ++ sub_from r repl 0 (pos + S (String.length m)) b.
Proof.
  intros H. cbn [String.append] in *. cbn [sub_from]. rewrite H.
  assert (Hlt : (pos <? pos + S (String.length m))%nat = true)
    by (apply Nat.ltb_lt; lia).
  rewrite Hlt. f_equal.
  replace (pos + S (String.length m) - pos - 1) with (String.length m) by lia.
  rewrite sub_from_skipped. f_equal. lia.
Qed.

Lemma drop_nonempty j a :
  j < String.length a -> drop j a <> EmptyString.
Proof.
  revert a. induction j as [|j IH]; intros [|c a]; cbn; try lia; try congruence.
  intros H. apply IH. lia.
Qed.

(** No character of a pattern is missing from a text it occurs in. *)
Lemma startswith_lacks c L s :
  startswith L s = true -> lacks c s = true -> lacks c L = true.
Proof.
  revert s. induction L as [|a L IH]; intros [|b s]; cbn; try discriminate; auto.
  intros H Hs. apply andb_prop in H as [Hab H]. apply andb_prop in Hs as [Hb Hs].
  apply Ascii.eqb_eq in Hab. subst b. rewrite Hb. cbn. now apply (IH s).
Qed.

Lemma lacks_not_contains c L s :
  lacks c L = false -> lacks c s = true -> contains L s = false.
Proof.
  intros HL. induction s as [|b s IH]; intros Hs.
  - cbn. destruct (startswith L EmptyString) eqn:H; [|reflexivity].
    apply (startswith_lacks c) in H; [congruence | reflexivity].
  - cbn [contains]. cbn [lacks] in Hs. apply andb_prop in Hs as [Hb Hs'].
    rewrite (IH Hs'), orb_false_r.
    destruct (startswith L (String b s)) eqn:H; [|reflexivity].
    apply (startswith_lacks c) in H; [congruence|]. cbn. now rewrite Hb.
Qed.

Lemma digits_lack c d :
  is_digit c = false -> all_digits d = true -> lacks c d = true.
Proof.
  intros Hc. induction d as [|a d IH]; cbn; [reflexivity|].
  intros H. apply andb_prop in H as [Ha Hd]. rewrite (IH Hd), andb_true_r.
  apply negb_true_iff. destruct (Ascii.eqb_spec a c) as [->|]; congruence.
Qed.

(** The marker cannot begin in a text that lacks its first eleven
    characters and run on into a blank. *)
Lemma fresh_not_straddling t x :
  t <> EmptyString ->
  contains " (Fresh1G1R" t = false ->
  startswith " (Fresh1G1R - " (t ++ String " " x) = false.
Proof.
  intros Hne Hc.
  destruct (startswith " (Fresh1G1R - " (t ++ String " " x)) eqn:H;
    [exfalso|reflexivity].
  destruct t as [|c t]; [congruence|].
  cbn [startswith String.append] in H.
  apply andb_prop in H as [Hc1 H]; apply Ascii.eqb_eq in Hc1; subst c.
  do 10 (destruct t as [|c t];
         [vm_compute in H; discriminate H|];
         cbn [startswith String.append] in H;
         apply andb_prop in H as [Hc1 H]; apply Ascii.eqb_eq in Hc1; subst c).
  apply contains_false_startswith in Hc. vm_compute in Hc. discriminate Hc.
Qed.

(** The Datfile infix cannot begin in a text that does not contain it and
    run on into another infix. *)
Lemma datfile_not_straddling t x :
  t <> EmptyString ->
  contains " - Datfile (" t = false ->
  startswith " - Datfile (" (t ++ " - Datfile (" ++ x) = false.
Proof.
  intros Hne Hc.
  destruct (startswith " - Datfile (" (t ++ " - Datfile (" ++ x)) eqn:H;
    [exfalso|reflexivity].
  destruct t as [|c t]; [congruence|].
  cbn [startswith String.append] in H.
  apply andb_prop in H as [Hc1 H]; apply Ascii.eqb_eq in Hc1; subst c.
  do 11 (destruct t as [|c t];
         [vm_compute in H; discriminate H|];
         cbn [startswith String.append] in H;
         apply andb_prop in H as [Hc1 H]; apply Ascii.eqb_eq in Hc1; subst c).
  apply contains_false_startswith in Hc. vm_compute in Hc. discriminate Hc.
Qed.

Lemma run_rep_digits {A} (k : @cont A) n :
  forall d x pos,
    digits n d = true ->
    run (Rep n Digit) k pos (d ++ x) = k (pos + n) x.
Proof.
  induction n as [|n IH]; intros d x pos H; unfold digits in H;
    apply andb_prop in H as [Hl Hd]; apply Nat.eqb_eq in Hl.
  - destruct d; [|discriminate]. cbn. now rewrite Nat.add_0_r.
  - destruct d as [|c d]; [discriminate|]. cbn [all_digits] in Hd.
    apply andb_prop in Hd as [Hc Hd]. cbn [Rep run Digit String.append].
    rewrite Hc, IH.
    + f_equal. lia.
    + unfold digits. cbn in Hl. injection Hl as Hl.
      now rewrite Hl, Nat.eqb_refl, Hd.
Qed.

(** The greedy [\d+] takes all the digits before a closing parenthesis. *)
Lemma greedy_digits {A} (k : @cont A) y x :
  forall a fuel pos,
    all_digits a = true ->
    String.length a < fuel ->
    k (pos + String.length a) (String ")" y) = Some x ->
    greedy (run Digit) k fuel pos (a ++ String ")" y) = Some x.
Proof.
  induction a as [|c a IH]; intros fuel pos Hd Hfuel Hx.
  - destruct fuel as [|n]; [inversion Hfuel|]. cbn in *.
    rewrite Nat.add_0_r in Hx. exact Hx.
  - destruct fuel as [|n]; [inversion Hfuel|].
    cbn [greedy String.append run Digit]. cbn [all_digits] in Hd.
    apply andb_prop in Hd as [Hc Hd]. rewrite Hc.
    assert (Hlt : (pos <? S pos)%nat = true) by (apply Nat.ltb_lt; lia).
    rewrite Hlt. rewrite IH; [reflexivity | exact Hd | cbn in Hfuel; lia |].
    cbn in Hx. now replace (S pos + String.length a)
                  with (pos + S (String.length a)) by lia.
Qed.

Lemma datfile_infix_matches number x pos :
  number <> EmptyString ->
  all_digits number = true ->
  match_at datfile_infix pos (" - Datfile (" ++ number ++ ")" ++ x)
  = Some (pos + String.length (" - Datfile (" ++ number ++ ")")).
Proof.
  intros Hne Hd. unfold match_at, datfile_infix, Plus.
  transitivity
    (run ((Digit ;; Star Digit) ;; Chr ")") (fun e _ => Some e)
       (pos + String.length " - Datfile (") (number ++ ")" ++ x)).
  { exact (run_Lit_match " - Datfile (" _ _ _). }
  destruct number as [|c n]; [congruence|]. cbn [all_digits] in Hd.
  apply andb_prop in Hd as [Hc Hd].
  cbn [run Digit String.append]. rewrite Hc.
  rewrite greedy_digits with (x := pos + String.length " - Datfile (" + S (String.length n) + 1);
    [ | exact Hd | rewrite length_append_s; cbn; lia | ].
  - f_equal. cbn [String.length String.append].
    rewrite ?length_append_s. cbn. lia.
  - cbn. f_equal. lia.
Qed.

Lemma redump_date_run {A} (k : @cont A) pos y mo d h mi s sep1 sep2 x :
  digits 4 y = true -> digits 2 mo = true -> digits 2 d = true ->
  digits 2 h = true -> digits 2 mi = true -> digits 2 s = true ->
  sep1 = "-"%char \/ sep1 = ":"%char ->
  sep2 = "-"%char \/ sep2 = ":"%char ->
  exists e,
    run redump_date k pos
        ("(" ++ y ++ "-" ++ mo ++ "-" ++ d ++ " " ++ h
             ++ String sep1 (mi ++ String sep2 (s ++ ")" ++ x)))
    = k e x.
Proof.
  intros Hy Hmo Hd Hh Hmi Hs H1 H2. eexists. unfold redump_date.
  assert (E1 : contains (String sep1 EmptyString) "-:" = true)
    by (destruct H1 as [->| ->]; reflexivity).
  assert (E2 : contains (String sep2 EmptyString) "-:" = true)
    by (destruct H2 as [->| ->]; reflexivity).
  repeat first
    [ rewrite run_rep_digits by assumption
    | rewrite Ascii.eqb_refl
    | rewrite E1
    | rewrite E2
    | progress cbn [run String.append OneOf] ].
  reflexivity.
Qed.

Lemma no_intro_date_run {A} (k : @cont A) pos day time x :
  digits 8 day = true -> digits 6 time = true ->
  exists e,
    run no_intro_date k pos ("(" ++ day ++ "-" ++ time ++ ")" ++ x) = k e x.
Proof.
  intros Hd Ht. eexists. unfold no_intro_date.
  repeat first
    [ rewrite run_rep_digits by assumption
    | rewrite Ascii.eqb_refl
    | progress cbn [run String.append] ].
  reflexivity.
Qed.

(** Neither date pattern starts inside a text without a parenthesis before
    a digit, when a blank follows the text. *)
Lemma paren_digit_fails {A} (k : @cont A) t b pos :
  t <> EmptyString ->
  has_paren_digit t = false ->
  run (Chr "(") (run Digit k) pos (t ++ String " " b) = None.
Proof.
  intros Hne H. destruct t as [|c t]; [congruence|].
  cbn [String.append run]. destruct (Ascii.eqb c "(") eqn:Hc; [|reflexivity].
  cbn [has_paren_digit] in H. rewrite Hc in H.
  apply orb_false_iff in H as [H _]. cbn [andb] in H.
  destruct t as [|d t]; cbn [String.append run Digit]; [reflexivity|].
  now rewrite H.
Qed.

Lemma date_start_fails n r t b pos :
  t <> EmptyString ->
  has_paren_digit t = false ->
  match_at (Seq (Chr "(") (Seq (Rep (S n) Digit) r)) pos (t ++ String " " b)
  = None.
Proof. intros Hne H. now apply paren_digit_fails. Qed.

Lemma date_not_at_blank r x pos :
  match_at (Seq (Chr "(") r) pos (String " " x) = None.
Proof. reflexivity. Qed.

Lemma stem_dat x : x <> EmptyString -> stem (x ++ ".dat") = x.
Proof.
  intros Hne. unfold stem, rfind. rewrite rfind_from_dat. cbn [Nat.add].
  rewrite length_append_s. cbn [String.length].
  assert (H0 : (0 <? String.length x)%nat = true).
  { apply Nat.ltb_lt. destruct x; [congruence | cbn; lia]. }
  assert (H1 : (String.length x <? String.length x + 4 - 1)%nat = true)
    by (apply Nat.ltb_lt; lia).
  rewrite H0, H1. apply take_append_s.
Qed.

Lemma fresh_absent system_name x :
  contains " (Fresh1G1R" system_name = false ->
  lacks "F" x = true ->
  contains " (Fresh1G1R - " (system_name ++ String " " x) = false.
Proof.
  intros Hs Hx. apply contains_app_false.
  - intros j Hj. apply fresh_not_straddling.
    + now apply drop_nonempty.
    + now apply contains_drop_false.
  - apply (lacks_not_contains "F"); [reflexivity|].
    cbn [lacks]. now rewrite Hx.
Qed.

Lemma fresh_suffix_absent s :
  contains " (Fresh1G1R - " s = false ->
  sub fresh_suffix EmptyString s = s.
Proof.
  intros H. apply sub_from_no_match. intros n.
  now apply literal_absent_no_match.
Qed.

Lemma strip_with_blank s : strip s = s -> strip (s ++ " ") = s.
Proof.
  intros H. unfold strip in *. now rewrite rstrip_app_blank.
Qed.

Lemma take_with_blank s x :
  take (String.length s + 1) (s ++ String " " x) = s ++ " ".
Proof.
  induction s as [|c s IH]; cbn; [now destruct x | now rewrite IH].
Qed.

(** The search for a date in [system_name ++ " " ++ date] finds the date. *)
Lemma search_date_after_name n r system_name date_text :
  has_paren_digit system_name = false ->
  (exists e, match_at (Seq (Chr "(") (Seq (Rep (S n) Digit) r))
               (S (String.length system_name)) date_text = Some e) ->
  exists e,
    search (Seq (Chr "(") (Seq (Rep (S n) Digit) r))
           (system_name ++ String " " date_text)
    = Some (String.length system_name + 1, e).
Proof.
  intros Hp [e He]. exists e. unfold search.
  rewrite search_from_skip.
  - cbn [Nat.add search_from]. rewrite date_not_at_blank.
    destruct date_text; cbn [search_from]; rewrite He;
      now rewrite Nat.add_1_r.
  - intros j Hj. apply date_start_fails.
    + now apply drop_nonempty.
    + now apply has_paren_digit_drop.
Qed.

Lemma all_digits_app a b :
  all_digits (a ++ b) = all_digits a && all_digits b.
Proof.
  induction a as [|c a IH]; cbn; [reflexivity|].
  now rewrite IH, andb_assoc.
Qed.

Lemma digits_all n d : digits n d = true -> all_digits d = true.
Proof. unfold digits. intros H. apply andb_prop in H. tauto. Qed.

Lemma no_intro_date_lacks c day time :
  is_digit c = false -> c <> "("%char -> c <> "-"%char -> c <> ")"%char ->
  digits 8 day = true -> digits 6 time = true ->
  lacks c (no_intro_date_text day time) = true.
Proof.
  intros Hc H1 H2 H3 Hd Ht. unfold no_intro_date_text.
  rewrite !lacks_app.
  rewrite (digits_lack c day Hc (digits_all _ _ Hd)).
  rewrite (digits_lack c time Hc (digits_all _ _ Ht)).
  cbn [lacks andb].
  repeat match goal with
         | |- context [Ascii.eqb ?a c] =>
             destruct (Ascii.eqb_spec a c); [congruence|]
         end.
  reflexivity.
Qed.

Lemma extract_system_name_no_intro system_name day time :
  contains " (Fresh1G1R" system_name = false ->
  has_paren_digit system_name = false ->
  strip system_name = system_name ->
  digits 8 day = true -> digits 6 time = true ->
  extract_system_name (system_name ++ " " ++ no_intro_date_text day time)
                      "no-intro"
  = system_name.
Proof.
  intros Hf Hp Hs Hd Ht. unfold extract_system_name.
  change (system_name ++ " " ++ no_intro_date_text day time)
    with (system_name ++ String " " (no_intro_date_text day time)).
  rewrite fresh_suffix_absent.
  2:{ apply fresh_absent; [exact Hf|].
      apply no_intro_date_lacks; auto; discriminate. }
  cbn [String.eqb Ascii.eqb Bool.eqb].
  destruct (search_date_after_name 7
              (Chr "-" ;; Rep 6 Digit ;; Chr ")")%re
              system_name (no_intro_date_text day time) Hp) as [e He].
  { destruct (no_intro_date_run (fun e _ => Some e)
                (S (String.length system_name)) day time EmptyString Hd Ht)
      as [e He]. exists e. exact He. }
  change (search no_intro_date
            (system_name ++ String " " (no_intro_date_text day time)))
    with (search (Seq (Chr "(") (Seq (Rep 8 Digit)
                    (Chr "-" ;; Rep 6 Digit ;; Chr ")")%re))
            (system_name ++ String " " (no_intro_date_text day time))).
  rewrite He. rewrite take_with_blank. now apply strip_with_blank.
Qed.

Lemma redump_date_lacks c y mo d h mi s sep1 sep2 :
  is_digit c = false ->
  c <> "("%char -> c <> "-"%char -> c <> ")"%char -> c <> " "%char ->
  c <> ":"%char ->
  digits 4 y = true -> digits 2 mo = true -> digits 2 d = true ->
  digits 2 h = true -> digits 2 mi = true -> digits 2 s = true ->
  sep1 = "-"%char \/ sep1 = ":"%char ->
  sep2 = "-"%char \/ sep2 = ":"%char ->
  lacks c (redump_date_text y mo d h mi s sep1 sep2) = true.
Proof.
  intros Hc H1 H2 H3 H4 H5 Hy Hmo Hd Hh Hmi Hs S1 S2.
  unfold redump_date_text.
  repeat first [ rewrite lacks_app | progress cbn [lacks] ].
  rewrite (digits_lack c y Hc (digits_all _ _ Hy)).
  rewrite (digits_lack c mo Hc (digits_all _ _ Hmo)).
  rewrite (digits_lack c d Hc (digits_all _ _ Hd)).
  rewrite (digits_lack c h Hc (digits_all _ _ Hh)).
  rewrite (digits_lack c mi Hc (digits_all _ _ Hmi)).
  rewrite (digits_lack c s Hc (digits_all _ _ Hs)).
  destruct S1 as [->| ->], S2 as [->| ->];
    repeat match goal with
           | |- context [Ascii.eqb ?a c] =>
               destruct (Ascii.eqb_spec a c); [congruence|]
           end;
    reflexivity.
Qed.

Lemma sub_datfile_infix number x pos :
  number <> EmptyString ->
  all_digits number = true ->
  sub_from datfile_infix EmptyString 0 pos (" - Datfile (" ++ number ++ ")" ++ x)
  = sub_from datfile_infix EmptyString 0
      (pos + String.length (" - Datfile (" ++ number ++ ")")) x.
Proof.
  intros Hne Hd.
  pose proof (datfile_infix_matches number x pos Hne Hd) as Hm.
  assert (E : " - Datfile (" ++ number ++ ")" ++ x
              = String " " ("- Datfile (" ++ number ++ ")") ++ x).
  { cbn [String.append]. rewrite !append_assoc'. reflexivity. }
  rewrite E in *.
  assert (L : String.length (" - Datfile (" ++ number ++ ")")
              = S (String.length ("- Datfile (" ++ number ++ ")")))
    by reflexivity.
  rewrite L in *.
  exact (sub_from_match datfile_infix EmptyString " "
           ("- Datfile (" ++ number ++ ")") x pos Hm).
Qed.

Lemma extract_system_name_redump system_name number y mo d h mi s sep1 sep2 :
  contains " (Fresh1G1R" system_name = false ->
  contains " - Datfile (" system_name = false ->
  has_paren_digit system_name = false ->
  strip system_name = system_name ->
  number <> EmptyString -> all_digits number = true ->
  digits 4 y = true -> digits 2 mo = true -> digits 2 d = true ->
  digits 2 h = true -> digits 2 mi = true -> digits 2 s = true ->
  sep1 = "-"%char \/ sep1 = ":"%char ->
  sep2 = "-"%char \/ sep2 = ":"%char ->
  extract_system_name
    (system_name ++ " - Datfile (" ++ number ++ ")" ++ " "
       ++ redump_date_text y mo d h mi s sep1 sep2)
    "redump"
  = system_name.
Proof.
  intros Hf Hi Hp Hs Hne Hn Hy Hmo Hd Hh Hmi Hse S1 S2.
  set (date_text := redump_date_text y mo d h mi s sep1 sep2).
  assert (LF_ : lacks "F" date_text = true)
    by (apply redump_date_lacks; auto; discriminate).
  assert (LD : lacks "D" date_text = true)
    by (apply redump_date_lacks; auto; discriminate).
  unfold extract_system_name.
  change (system_name ++ " - Datfile (" ++ number ++ ")" ++ " " ++ date_text)
    with (system_name
            ++ String " " ("- Datfile (" ++ number ++ ")" ++ " " ++ date_text)).
  rewrite fresh_suffix_absent.
  2:{ apply fresh_absent; [exact Hf|].
      repeat first [ rewrite lacks_app | progress cbn [lacks String.append] ].
      rewrite (digits_lack "F" number eq_refl Hn), LF_. reflexivity. }
  cbn [String.eqb Ascii.eqb Bool.eqb].
  change (system_name
            ++ String " " ("- Datfile (" ++ number ++ ")" ++ " " ++ date_text))
    with (system_name ++ " - Datfile (" ++ number ++ ")" ++ String " " date_text).
  assert (Hsub : sub datfile_infix EmptyString
                   (system_name ++ " - Datfile (" ++ number ++ ")"
                      ++ String " " date_text)
                 = system_name ++ String " " date_text).
  { unfold sub. rewrite sub_from_skip_prefix.
    - f_equal. rewrite sub_datfile_infix by assumption.
      apply sub_from_no_match. intros n. apply literal_absent_no_match.
      apply (lacks_not_contains "D"); [reflexivity|].
      cbn [lacks]. now rewrite LD.
    - intros j Hj. unfold match_at, datfile_infix. cbn [run].
      apply run_Lit_mismatch. apply datfile_not_straddling.
      + now apply drop_nonempty.
      + now apply contains_drop_false. }
  rewrite Hsub.
  destruct (search_date_after_name 3
              (Chr "-" ;; Rep 2 Digit ;; Chr "-" ;; Rep 2 Digit ;;
               Chr " " ;; Rep 2 Digit ;; OneOf "-:" ;; Rep 2 Digit ;;
               OneOf "-:" ;; Rep 2 Digit ;; Chr ")")%re
              system_name date_text Hp) as [e He].
  { destruct (redump_date_run (fun e _ => Some e)
                (S (String.length system_name)) y mo d h mi s sep1 sep2
                EmptyString Hy Hmo Hd Hh Hmi Hse S1 S2) as [e He].
    exists e. exact He. }
  change (search redump_date (system_name ++ String " " date_text))
    with (search (Seq (Chr "(") (Seq (Rep 4 Digit)
                    (Chr "-" ;; Rep 2 Digit ;; Chr "-" ;; Rep 2 Digit ;;
                     Chr " " ;; Rep 2 Digit ;; OneOf "-:" ;; Rep 2 Digit ;;
                     OneOf "-:" ;; Rep 2 Digit ;; Chr ")")%re))
            (system_name ++ String " " date_text)).
  rewrite He. rewrite take_with_blank. now apply strip_with_blank.
Qed.

(** X21.  The system of a No-Intro file [<system> (YYYYMMDD-HHMMSS).dat] is
    the system name, whatever the date, when the name is ASCII text, is
    trimmed and has no [ (Fresh1G1R] and no parenthesis directly before a
    digit. *)
Theorem X21_no_intro_file_system system_name day time :
  is_ascii system_name = true ->
  contains " (Fresh1G1R" system_name = false ->
  has_paren_digit system_name = false ->
  strip system_name = system_name ->
  digits 8 day = true -> digits 6 time = true ->
  system_of_input "no-intro" (no_intro_file system_name day time) = system_name.
Proof.
  intros _ Hf Hp Hs Hd Ht. unfold system_of_input, no_intro_file.
  replace (system_name ++ " " ++ no_intro_date_text day time ++ ".dat")
    with ((system_name ++ " " ++ no_intro_date_text day time) ++ ".dat")
    by (rewrite !append_assoc'; reflexivity).
  rewrite stem_dat by (destruct system_name; discriminate).
  now apply extract_system_name_no_intro.
Qed.

Lemma redump_file_system system_name number date_text :
  contains " (Fresh1G1R" system_name = false ->
  contains " - Datfile (" system_name = false ->
  has_paren_digit system_name = false ->
  strip system_name = system_name ->
  number <> EmptyString -> all_digits number = true ->
  is_redump_date date_text ->
  redump_system (redump_file system_name number date_text) = system_name.
Proof.
  intros Hf Hi Hp Hs Hne Hn
    (y & mo & d & h & mi & s & sep1 & sep2 & -> & Hy & Hmo & Hd & Hh & Hmi
     & Hse & S1 & S2).
  unfold redump_system, redump_file.
  replace (system_name ++ " - Datfile (" ++ number ++ ")" ++ " "
             ++ redump_date_text y mo d h mi s sep1 sep2 ++ ".dat")
    with ((system_name ++ " - Datfile (" ++ number ++ ")" ++ " "
             ++ redump_date_text y mo d h mi s sep1 sep2) ++ ".dat")
    by (rewrite !append_assoc'; reflexivity).
  rewrite stem_dat by (destruct system_name; discriminate).
  now apply extract_system_name_redump.
Qed.

(** X22.  The system of a Redump file
    [<system> - Datfile (<number>) (YYYY-MM-DD HH-MM-SS).dat] is the system
    name, whatever the number and the date, when the name is ASCII text, is
    trimmed and has no [ (Fresh1G1R], no [ - Datfile (] and no parenthesis
    directly before a digit. *)
Theorem X22_redump_file_system system_name number date_text :
  is_ascii system_name = true ->
  contains " (Fresh1G1R" system_name = false ->
  contains " - Datfile (" system_name = false ->
  has_paren_digit system_name = false ->
  strip system_name = system_name ->
  number <> EmptyString -> all_digits number = true ->
  is_redump_date date_text ->
  redump_system (redump_file system_name number date_text) = system_name.
Proof. intros _. apply redump_file_system. Qed.

Lemma redump_file_is_dat system_name number date_text :
  is_dat (redump_file system_name number date_text) = true.
Proof.
  unfold redump_file.
  replace (system_name ++ " - Datfile (" ++ number ++ ")" ++ " "
             ++ date_text ++ ".dat")
    with ((system_name ++ " - Datfile (" ++ number ++ ")" ++ " "
             ++ date_text) ++ ".dat")
    by (rewrite !append_assoc'; reflexivity).
  apply is_dat_append.
Qed.

(** X23.  When a Redump file of a system has been downloaded, the cleanup
    removes every other file of that system, whatever its number and date,
    and keeps the new one. *)
Theorem X23_newer_redump_file_replaces_older
    system_name number date_text number' date_text' (output_dir : gset string) :
  contains " (Fresh1G1R" system_name = false ->
  contains " - Datfile (" system_name = false ->
  has_paren_digit system_name = false ->
  strip system_name = system_name ->
  number <> EmptyString -> all_digits number = true ->
  is_redump_date date_text ->
  number' <> EmptyString -> all_digits number' = true ->
  is_redump_date date_text' ->
  redump_file system_name number date_text ∈ output_dir ->
  redump_file system_name number' date_text'
  <> redump_file system_name number date_text ->
  redump_file system_name number date_text
    ∈ fst (cleanup_old_redump_dat
             (redump_file system_name number date_text) output_dir)
  /\ redump_file system_name number' date_text'
       ∉ fst (cleanup_old_redump_dat
                (redump_file system_name number date_text) output_dir).
Proof.
  intros Hf Hi Hp Hs Hne Hn Hd Hne' Hn' Hd' Hin Hother.
  pose proof (redump_file_system system_name number date_text
                Hf Hi Hp Hs Hne Hn Hd) as E.
  pose proof (redump_file_system system_name number' date_text'
                Hf Hi Hp Hs Hne' Hn' Hd') as E'.
  fold (after_redump_cleanup (redump_file system_name number date_text)
          output_dir).
  split.
  - apply after_redump_cleanup_spec; [exact Hin|]. split; [exact Hin|].
    intros (_ & H & _). congruence.
  - intros H. apply after_redump_cleanup_spec in H as [_ H]; [|exact Hin].
    apply H. split; [apply redump_file_is_dat|]. split; [exact Hother|].
    congruence.
Qed.

(** X21 at the file of the example. *)
Lemma X21_no_intro_file_system_witness :
  system_of_input "no-intro" (no_intro_file "Acorn - Archimedes" "20231029" "220453")
  = "Acorn - Archimedes".
Proof.
  apply (X21_no_intro_file_system "Acorn - Archimedes" "20231029" "220453");
    reflexivity.
Defined.

Lemma example_redump_date : is_redump_date "(2025-10-23 18-11-28)".
Proof.
  exists "2025", "10", "23", "18", "11", "28", "-"%char, "-"%char.
  repeat split; auto.
Qed.

Lemma example_redump_date_older : is_redump_date "(2025-09-01 10:00:00)".
Proof.
  exists "2025", "09", "01", "10", "00", "00", ":"%char, ":"%char.
  repeat split; auto.
Qed.

(** X22 at a PlayStation file. *)
Lemma X22_redump_file_system_witness :
  redump_system (redump_file "Sony - PlayStation" "10978" "(2025-10-23 18-11-28)")
  = "Sony - PlayStation".
Proof.
  apply (X22_redump_file_system "Sony - PlayStation" "10978"
           "(2025-10-23 18-11-28)");
    try reflexivity; try discriminate.
  exact example_redump_date.
Defined.

(** X23 at a directory with an older PlayStation file. *)
Lemma X23_newer_redump_file_replaces_older_witness :
  redump_file "Sony - PlayStation" "10900" "(2025-09-01 10:00:00)"
  ∉ fst (cleanup_old_redump_dat
           (redump_file "Sony - PlayStation" "10978" "(2025-10-23 18-11-28)")
           {[ redump_file "Sony - PlayStation" "10978" "(2025-10-23 18-11-28)";
              redump_file "Sony - PlayStation" "10900" "(2025-09-01 10:00:00)" ]}).
Proof.
  refine (proj2 (X23_newer_redump_file_replaces_older
                   "Sony - PlayStation" "10978" "(2025-10-23 18-11-28)"
                   "10900" "(2025-09-01 10:00:00)" _ _ _ _ _ _ _ _ _ _ _ _ _));
    try reflexivity; try discriminate.
  - exact example_redump_date.
  - exact example_redump_date_older.
Defined.


(** ** The retention key of a report *)

Lemma search_date_after_name_end n r system_name date_text e :
  has_paren_digit system_name = false ->
  match_at (Seq (Chr "(") (Seq (Rep (S n) Digit) r))
    (S (String.length system_name)) date_text = Some e ->
  search (Seq (Chr "(") (Seq (Rep (S n) Digit) r))
         (system_name ++ String " " date_text)
  = Some (String.length system_name + 1, e).
Proof.
  intros Hp He. unfold search.
  rewrite search_from_skip.
  - cbn [Nat.add search_from]. rewrite date_not_at_blank.
    destruct date_text; cbn [search_from]; rewrite He;
      now rewrite Nat.add_1_r.
  - intros j Hj. apply date_start_fails.
    + now apply drop_nonempty.
    + now apply has_paren_digit_drop.
Qed.

Lemma no_intro_date_end pos day time x :
  digits 8 day = true -> digits 6 time = true ->
  match_at no_intro_date pos ("(" ++ day ++ "-" ++ time ++ ")" ++ x)
  = Some (pos + 17).
Proof.
  intros Hd Ht. unfold match_at, no_intro_date.
  repeat first
    [ rewrite run_rep_digits by assumption
    | rewrite Ascii.eqb_refl
    | progress cbn [run String.append] ].
  f_equal. lia.
Qed.

Lemma no_intro_date_length day time :
  digits 8 day = true -> digits 6 time = true ->
  String.length (no_intro_date_text day time) = 17.
Proof.
  unfold digits, no_intro_date_text. intros Hd Ht.
  apply andb_prop in Hd as [Hd _]. apply andb_prop in Ht as [Ht _].
  apply Nat.eqb_eq in Hd, Ht.
  rewrite !length_append_s, Hd, Ht. reflexivity.
Qed.

Lemma no_intro_report_key system_name day time rest :
  contains " (Fresh1G1R - "
    (system_name ++ " " ++ no_intro_date_text day time ++ rest) = false ->
  has_paren_digit system_name = false ->
  digits 8 day = true -> digits 6 time = true ->
  normalized_system
    (system_name ++ " " ++ no_intro_date_text day time ++ rest) "no-intro"
  = system_name ++ " " ++ no_intro_date_text day time.
Proof.
  intros Hf Hp Hd Ht. unfold normalized_system.
  rewrite fresh_suffix_absent by exact Hf.
  cbn [String.eqb Ascii.eqb Bool.eqb].
  change (system_name ++ " " ++ no_intro_date_text day time ++ rest)
    with (system_name ++ String " " (no_intro_date_text day time ++ rest)).
  assert (He : match_at no_intro_date (S (String.length system_name))
                 (no_intro_date_text day time ++ rest)
               = Some (S (String.length system_name) + 17)).
  { unfold no_intro_date_text. rewrite !append_assoc'.
    now apply no_intro_date_end. }
  change no_intro_date
    with (Seq (Chr "(") (Seq (Rep 8 Digit)
            (Chr "-" ;; Rep 6 Digit ;; Chr ")")%re)) in *.
  rewrite (search_date_after_name_end 7 _ system_name _ _ Hp He).
  replace (system_name ++ String " " (no_intro_date_text day time ++ rest))
    with ((system_name ++ " " ++ no_intro_date_text day time) ++ rest)
    by (rewrite !append_assoc'; reflexivity).
  replace (S (String.length system_name) + 17)
    with (String.length (system_name ++ " " ++ no_intro_date_text day time)).
  - apply take_append_s.
  - rewrite !length_append_s, (no_intro_date_length day time Hd Ht). cbn. lia.
Qed.

(** X24.  The retention key of a No-Intro report is its system name and
    date: whatever follows the date in the name (the part Retool appends)
    does not change the key, when the name carries no Fresh1G1R marker and
    the system name is ASCII text without a parenthesis directly before a
    digit. *)
Theorem X24_no_intro_report_key system_name day time rest :
  is_ascii system_name = true ->
  contains " (Fresh1G1R - "
    (system_name ++ " " ++ no_intro_date_text day time ++ rest) = false ->
  has_paren_digit system_name = false ->
  digits 8 day = true -> digits 6 time = true ->
  normalized_system
    (system_name ++ " " ++ no_intro_date_text day time ++ rest) "no-intro"
  = system_name ++ " " ++ no_intro_date_text day time.
Proof. intros _. apply no_intro_report_key. Qed.

Lemma X24_no_intro_report_key_witness :
  normalized_system
    ("Acorn - Archimedes" ++ " " ++ no_intro_date_text "20231029" "220453"
       ++ " (Retool 2025-10-23 18-11-28) (77) [-d]")
    "no-intro"
  = "Acorn - Archimedes" ++ " " ++ no_intro_date_text "20231029" "220453".
Proof.
  apply (X24_no_intro_report_key "Acorn - Archimedes" "20231029" "220453"
           " (Retool 2025-10-23 18-11-28) (77) [-d]"); reflexivity.
Defined.

(** The [ (Retool] of the pattern cannot begin in a text that does not
    contain it and run on into another one. *)
Lemma retool_not_straddling t x :
  t <> EmptyString ->
  contains " (Retool" t = false ->
  startswith " (Retool" (t ++ " (Retool" ++ x) = false.
Proof.
  intros Hne Hc.
  destruct (startswith " (Retool" (t ++ " (Retool" ++ x)) eqn:H;
    [exfalso|reflexivity].
  destruct t as [|c t]; [congruence|].
  cbn [startswith String.append] in H.
  apply andb_prop in H as [Hc1 H]; apply Ascii.eqb_eq in Hc1; subst c.
  do 7 (destruct t as [|c t];
        [vm_compute in H; discriminate H|];
        cbn [startswith String.append] in H;
        apply andb_prop in H as [Hc1 H]; apply Ascii.eqb_eq in Hc1; subst c).
  apply contains_false_startswith in Hc. vm_compute in Hc. discriminate Hc.
Qed.

(** The greedy [.*] takes a text without line feed to its end. *)
Lemma greedy_dot_all {A} (k : @cont A) x :
  forall a fuel pos,
    lacks "010" a = true ->
    String.length a < fuel ->
    k (pos + String.length a) EmptyString = Some x ->
    greedy (run Dot) k fuel pos a = Some x.
Proof.
  induction a as [|c a IH]; intros fuel pos Hl Hfuel Hx.
  - destruct fuel as [|n]; [inversion Hfuel|]. cbn in *.
    rewrite Nat.add_0_r in Hx. exact Hx.
  - destruct fuel as [|n]; [inversion Hfuel|].
    cbn [greedy run Dot]. cbn [lacks] in Hl.
    apply andb_prop in Hl as [Hc1 Hl]. rewrite Hc1.
    assert (Hlt : (pos <? S pos)%nat = true) by (apply Nat.ltb_lt; lia).
    rewrite Hlt. rewrite IH; [reflexivity | exact Hl | cbn in Hfuel; lia |].
    cbn in Hx. now replace (S pos + String.length a)
                  with (pos + S (String.length a)) by lia.
Qed.

Lemma retool_meta_matches rest pos :
  lacks "010" rest = true ->
  match_at retool_meta pos (" (Retool" ++ rest)
  = Some (pos + String.length (" (Retool" ++ rest)).
Proof.
  intros Hl. unfold match_at, retool_meta.
  transitivity
    (run (Star Dot ;; Eol) (fun e _ => Some e)
       (pos + String.length " (Retool") rest).
  { exact (run_Lit_match " (Retool" _ _ _). }
  cbn [run].
  rewrite greedy_dot_all
    with (x := pos + String.length " (Retool" + String.length rest);
    [ | exact Hl | lia | reflexivity ].
  f_equal. rewrite length_append_s. lia.
Qed.

Lemma append_nil_r s : s ++ EmptyString = s.
Proof. induction s as [|c s IH]; cbn; [reflexivity | now rewrite IH]. Qed.

Lemma redump_report_key dated_name rest :
  contains " (Fresh1G1R - " (dated_name ++ " (Retool" ++ rest) = false ->
  contains " (Retool" dated_name = false ->
  lacks "010" rest = true ->
  normalized_system (dated_name ++ " (Retool" ++ rest) "redump" = dated_name.
Proof.
  intros Hf Hr Hl. unfold normalized_system.
  rewrite fresh_suffix_absent by exact Hf.
  cbn [String.eqb Ascii.eqb Bool.eqb].
  unfold sub. rewrite sub_from_skip_prefix.
  - pose proof (retool_meta_matches rest (0 + String.length dated_name) Hl)
      as Hm.
    assert (Hm' : match_at retool_meta (0 + String.length dated_name)
                    (String " " ("(Retool" ++ rest) ++ EmptyString)
                  = Some (0 + String.length dated_name
                          + S (String.length ("(Retool" ++ rest))))
      by (rewrite append_nil_r; exact Hm).
    replace (" (Retool" ++ rest)
      with (String " " ("(Retool" ++ rest) ++ EmptyString)
      by apply append_nil_r.
    rewrite (sub_from_match retool_meta EmptyString " " ("(Retool" ++ rest)
               EmptyString _ Hm').
    cbn [sub_from String.append].
    destruct (match_at retool_meta _ EmptyString) eqn:Hend.
    + discriminate Hend.
    + apply append_nil_r.
  - intros j Hj. unfold match_at, retool_meta. cbn [run].
    apply run_Lit_mismatch. apply retool_not_straddling.
    + now apply drop_nonempty.
    + now apply contains_drop_false.
Qed.

(** X25.  The retention key of a Redump report is what precedes the first
    [ (Retool] of its name: whatever Retool appends there does not change
    the key, when the name carries no Fresh1G1R marker and what Retool
    appends has no line feed. *)
Theorem X25_redump_report_key dated_name rest :
  contains " (Fresh1G1R - " (dated_name ++ " (Retool" ++ rest) = false ->
  contains " (Retool" dated_name = false ->
  lacks "010" rest = true ->
  normalized_system (dated_name ++ " (Retool" ++ rest) "redump" = dated_name.
Proof. apply redump_report_key. Qed.

Lemma X25_redump_report_key_witness :
  normalized_system
    ("Sony - PlayStation (2025-10-23 18-11-28)" ++ " (Retool"
       ++ " 2025-11-01 09-00-00) (1,234) [-d].txt")
    "redump"
  = "Sony - PlayStation (2025-10-23 18-11-28)".
Proof.
  apply (X25_redump_report_key "Sony - PlayStation (2025-10-23 18-11-28)"
           " 2025-11-01 09-00-00) (1,234) [-d].txt"); reflexivity.
Defined.

(** ** Retention of reports, with the groups by name *)

Lemma in_report_group pattern collection key listing f :
  In f (report_group pattern collection key listing)
  <-> In f listing /\ pattern (fst f) = true /\ report_key collection f = key.
Proof.
  unfold report_group. rewrite List.filter_In, andb_true_iff, String.eqb_eq.
  tauto.
Qed.

(** C5.  For every group of report files with one normalized system+date
    key, [cleanup_old_files] with a keep count N >= 0 retains exactly
    min(N, group size) files of the group, and they are the most recently
    modified: every file of the group that is gone is no later than every
    file that is kept.  For N = 7 and groups of 3, 7 and 10 files it retains
    3, 7 and 7 files.  The groups are those of the names: a Redump report
    is in the group named by what precedes the [ (Retool] that Retool
    appends, a No-Intro report in the group named by its system name and
    date. *)
Theorem C5_retention_keeps_latest listing pattern keep_count collection key :
  (0 <= keep_count)%Z ->
  List.NoDup (List.map fst listing) ->
  let before := report_group pattern collection key listing in
  let after :=
    report_group pattern collection key
      (after_cleanup listing pattern keep_count collection) in
  List.length after = Nat.min (Z.to_nat keep_count) (List.length before)
  /\ (forall f, In f after -> In f before)
  /\ (forall f g, In f after -> In g before -> ~ In g after ->
                  (snd g <= snd f)%Z)
  /\ (keep_count = 7%Z -> List.length before = 3 -> List.length after = 3)
  /\ (keep_count = 7%Z -> List.length before = 7 -> List.length after = 7)
  /\ (keep_count = 7%Z -> List.length before = 10 -> List.length after = 7)
  /\ (collection = "redump" ->
      forall f dated_name rest,
        In f listing -> pattern (fst f) = true ->
        stem (fst f) = dated_name ++ " (Retool" ++ rest ->
        contains " (Fresh1G1R - " (stem (fst f)) = false ->
        contains " (Retool" dated_name = false ->
        lacks "010" rest = true ->
        (In f before <-> key = dated_name))
  /\ (collection = "no-intro" ->
      forall f system_name day time rest,
        In f listing -> pattern (fst f) = true ->
        stem (fst f) = system_name ++ " " ++ no_intro_date_text day time ++ rest ->
        is_ascii system_name = true ->
        contains " (Fresh1G1R - " (stem (fst f)) = false ->
        has_paren_digit system_name = false ->
        digits 8 day = true -> digits 6 time = true ->
        (In f before
         <-> key = system_name ++ " " ++ no_intro_date_text day time)).
Proof.
  intros Hk Hnd before after.
  assert (Hb : List.NoDup (List.map fst before))
    by (apply nodup_names_filter; exact Hnd).
  assert (Hafter : after
                   = List.filter (kept (files_to_delete keep_count before)) before)
    by (apply report_group_after; exact Hnd).
  destruct (group_keeps_latest before keep_count Hk Hb) as [Hperm Hrest].
  rewrite <- Hafter in Hperm, Hrest.
  assert (Hlen : List.length after
                 = Nat.min (Z.to_nat keep_count) (List.length before)).
  { rewrite (Permutation_length Hperm), List.length_firstn.
    now rewrite (Permutation_length (sort_desc_perm before)). }
  split; [exact Hlen|]. split; [|split].
  - intros f Hf. rewrite Hafter in Hf. apply List.filter_In in Hf. tauto.
  - intros f g Hf Hg Hn.
    apply (Permutation_in _ Hperm) in Hf.
    apply (sorted_app_order (firstn (Z.to_nat keep_count) (sort_desc before))
                            (skipn (Z.to_nat keep_count) (sort_desc before))).
    + rewrite List.firstn_skipn. apply sort_desc_sorted.
    + exact Hf.
    + now apply Hrest.
  - split; [|split; [|split; [|split]]];
      try (intros -> Hl; rewrite Hlen, Hl; reflexivity).
    + intros -> f dated_name rest Hin Hp Hst Hf Hr Hl.
      unfold before. rewrite in_report_group. unfold report_key.
      rewrite Hst in Hf. rewrite Hst, (redump_report_key _ _ Hf Hr Hl).
      split; [intros (_ & _ & E); now symmetry | intros ->; auto].
    + intros -> f system_name day time rest Hin Hp Hst _ Hf Hpd Hd Ht.
      unfold before. rewrite in_report_group. unfold report_key.
      rewrite Hst in Hf.
      rewrite Hst, (no_intro_report_key _ _ _ _ Hf Hpd Hd Ht).
      split; [intros (_ & _ & E); now symmetry | intros ->; auto].
Qed.

Lemma example_reports_nodup : List.NoDup (List.map fst example_reports).
Proof.
  vm_compute.
  repeat (apply List.NoDup_cons; [simpl; intuition discriminate|]).
  apply List.NoDup_nil.
Qed.

(** C5 at a directory with three, seven and ten reports of three DATs,
    under the names Retool gives them: the groups have 3, 7 and 10 files
    before the cleanup and 3, 7 and 7 after it, and of the ten PlayStation
    reports the seven latest are left. *)
Lemma C5_retention_keeps_latest_witness :
  List.map (fun key => List.length (report_group is_txt "redump" key
                                      example_reports))
           example_report_keys
  = [3; 7; 10]
  /\ List.map (fun key =>
                 List.length
                   (report_group is_txt "redump" key
                      (after_cleanup example_reports is_txt 7 "redump")))
              example_report_keys
     = [3; 7; 7]
  /\ List.map snd
       (report_group is_txt "redump" "Sony - PlayStation (2025-10-23 18-11-28)"
          (after_cleanup example_reports is_txt 7 "redump"))
     = [4; 5; 6; 7; 8; 9; 10]%Z
  /\ List.length (after_cleanup example_reports is_txt 7 "redump") = 17.
Proof.
  split; [vm_compute; reflexivity|].
  split; [|split; vm_compute; reflexivity].
  unfold example_report_keys. cbn [List.map].
  rewrite !(proj1 (C5_retention_keeps_latest example_reports is_txt 7 "redump"
                     _ ltac:(lia) example_reports_nodup)).
  vm_compute. reflexivity.
Defined.

End Properties.
